(** * Koofr media downloader: a shallow embedding and its properties

    The program is one Python function,
    [download_and_extract_media_from_koofr] (koofr_downloader.py).  It
    creates an output directory, parses a share link, issues two HTTP
    requests, opens the downloaded body as a ZIP archive and writes the
    members whose lower-cased name ends with a configured suffix.
    The script's entry point calls it with the link it carries and the
    folder [koofr_downloads], and reports the exceptions that escape.

    The function is embedded as a computation in a state-and-exception
    monad over a small world: a POSIX-like file tree, a working directory
    and a trace of observable events (messages, requests, file writes).
    The interpreter's library calls are modelled next to it:
    - [str] methods and [urllib.parse] (as in CPython 3.12) on strings of
      code points below 256;
    - [os], [os.path] and [open] as on a POSIX system ([os.path] is
      [posixpath] there), on a tree without symbolic links, permissions or
      resource limits, where a path is resolved name by name;
    - [requests], [json] and [zipfile] decoding as parameters of the
      development: the server, the two decoders, the validation of host
      names and [str()] of a decoded value are the environment.  Opening
      the archive gives its members or one of the exceptions of the
      constructor ([BadZipFile], [NotImplementedError],
      [UnicodeDecodeError]); [ZipInfo.is_dir] is that of CPython 3.11,
      which indexes the last character of the name.

    What the model leaves out: floating point numbers in JSON, a
    download that breaks off while the body is read, the exceptions
    of reading a member other than [BadZipFile], and an interrupt from
    the keyboard. *)

From Stdlib Require Import ZArith Ascii String List Lia Bool.
From Stdlib.Strings Require Import Byte.
From stdpp Require Import base option gmap strings list fin_maps.

Local Open Scope string_scope.
#[local] Arguments String.append !_ _ : simpl nomatch.

(** ** Python [str] operations *)

Module Str.

Definition code (c : ascii) : nat := nat_of_ascii c.

Definition eqc (a b : ascii) : bool := Ascii.eqb a b.

Definition in_range (lo hi : nat) (c : ascii) : bool :=
  (lo <=? code c)%nat && (code c <=? hi)%nat.

Definition is_upper_ascii (c : ascii) : bool := in_range 65 90 c.
Definition is_lower_ascii (c : ascii) : bool := in_range 97 122 c.
Definition is_digit (c : ascii) : bool := in_range 48 57 c.
Definition is_alpha_ascii (c : ascii) : bool :=
  is_upper_ascii c || is_lower_ascii c.

(** Upper-case letters of the first 256 code points: A-Z, and the
    Latin-1 capitals U+00C0..U+00DE except the multiplication sign. *)
Definition is_upper (c : ascii) : bool :=
  is_upper_ascii c || (in_range 192 222 c && negb (code c =? 215)%nat).

(** [c.lower()] for one code point. *)
Definition lower_char (c : ascii) : ascii :=
  if is_upper c then ascii_of_nat (code c + 32) else c.

(** [s.lower()] on the first 256 code points.  Of lower-casing, the
    properties proved below use that the result holds none of the
    letters A to Z and that lower-casing twice is lower-casing once. *)
Fixpoint lower (s : string) : string :=
  match s with
  | EmptyString => EmptyString
  | String c s' => String (lower_char c) (lower s')
  end.

(** [s.startswith(p)] *)
Fixpoint startswith (s p : string) {struct p} : bool :=
  match p, s with
  | EmptyString, _ => true
  | String _ _, EmptyString => false
  | String a p', String b s' => eqc a b && startswith s' p'
  end.

Fixpoint drop (n : nat) (s : string) : string :=
  match n, s with
  | O, _ => s
  | S _, EmptyString => EmptyString
  | S n', String _ s' => drop n' s'
  end.

Fixpoint take (n : nat) (s : string) : string :=
  match n, s with
  | O, _ => EmptyString
  | S _, EmptyString => EmptyString
  | S n', String c s' => String c (take n' s')
  end.

(** [s.endswith(p)]: the last [len(p)] characters of [s] are [p]. *)
Definition endswith (s p : string) : bool :=
  (String.length p <=? String.length s)%nat
  && String.eqb (drop (String.length s - String.length p) s) p.

(** [s.find(sep)], [None] for -1. *)
Fixpoint find (sep s : string) : option nat :=
  if startswith s sep then Some O
  else match s with
       | EmptyString => None
       | String _ s' => option_map S (find sep s')
       end.

(** [sep in s] *)
Definition contains (sep s : string) : bool :=
  match find sep s with Some _ => true | None => false end.

(** [s.split(sep)] for a non-empty [sep]: cut at the leftmost occurrence,
    continue after it.  [fuel] bounds the number of cuts. *)
Fixpoint split_fuel (fuel : nat) (sep s : string) : list string :=
  match fuel with
  | O => [s]
  | S fuel' =>
      match find sep s with
      | None => [s]
      | Some i => take i s :: split_fuel fuel' sep (drop (i + String.length sep) s)
      end
  end.

Definition split (sep s : string) : list string :=
  split_fuel (String.length s) sep s.

(** [s.lstrip(c)] for a one-character [c]. *)
Fixpoint lstrip (c : ascii) (s : string) : string :=
  match s with
  | EmptyString => EmptyString
  | String a s' => if eqc a c then lstrip c s' else s
  end.

(** [s.rstrip(c)] for a one-character [c]. *)
Fixpoint rstrip (c : ascii) (s : string) : string :=
  match s with
  | EmptyString => EmptyString
  | String a s' =>
      match rstrip c s' with
      | EmptyString => if eqc a c then EmptyString else String a EmptyString
      | r => String a r
      end
  end.

(** [(s[:i], s[i:])] with [i = s.rfind(c) + 1]. *)
Fixpoint rcut (c : ascii) (s : string) : string * string :=
  match s with
  | EmptyString => (EmptyString, EmptyString)
  | String a s' =>
      match rcut c s' with
      | (EmptyString, t) =>
          if eqc a c then (String a EmptyString, t) else (EmptyString, String a t)
      | (h, t) => (String a h, t)
      end
  end.

(** Cut at the first [c]: [s.split(c, 1)] when [c in s]. *)
Fixpoint cut (c : ascii) (s : string) : option (string * string) :=
  match s with
  | EmptyString => None
  | String a s' =>
      if eqc a c then Some (EmptyString, s')
      else match cut c s' with
           | Some (h, t) => Some (String a h, t)
           | None => None
           end
  end.

Fixpoint has_char (c : ascii) (s : string) : bool :=
  match s with
  | EmptyString => false
  | String a s' => eqc a c || has_char c s'
  end.

Fixpoint all_chars (p : ascii -> bool) (s : string) : bool :=
  match s with
  | EmptyString => true
  | String a s' => p a && all_chars p s'
  end.

Definition is_empty (s : string) : bool :=
  match s with EmptyString => true | _ => false end.

End Str.

(** ** [urllib.parse]: [quote] and [urlparse] *)

Module Url.

Definition hex_digit (n : nat) : ascii :=
  match String.get n "0123456789ABCDEF" with
  | Some c => c
  | None => "0"%char
  end.

(** ["%XX"], upper-case hexadecimal, for one byte. *)
Definition percent (b : nat) : string :=
  String "%" (String (hex_digit (b / 16)) (String (hex_digit (b mod 16)) EmptyString)).

(** Bytes that [quote] leaves alone: letters, digits, [_.-~] and the
    default [safe='/']. *)
Definition is_safe (c : ascii) : bool :=
  Str.is_alpha_ascii c || Str.is_digit c || Str.has_char c "_.-~/".

(** [quote] encodes the string as UTF-8 first: a code point below 128 is
    one byte, one in 128..255 is two. *)
Definition quote_char (c : ascii) : string :=
  let n := Str.code c in
  if (n <? 128)%nat then
    (if is_safe c then String c EmptyString else percent n)
  else percent (192 + n / 64) ++ percent (128 + n mod 64).

(** [urllib.parse.quote(s)] *)
Fixpoint quote (s : string) : string :=
  match s with
  | EmptyString => EmptyString
  | String c s' => quote_char c ++ quote s'
  end.

Record ParseResult := {
  scheme : string;
  netloc : string;
  path : string;
  params : string;
  query : string;
  fragment : string
}.

(** Leading C0 control characters and spaces are stripped. *)
Fixpoint lstrip_c0_space (s : string) : string :=
  match s with
  | EmptyString => EmptyString
  | String c s' => if (Str.code c <=? 32)%nat then lstrip_c0_space s' else s
  end.

(** Tab, line feed and carriage return are removed everywhere. *)
Fixpoint remove_unsafe (s : string) : string :=
  match s with
  | EmptyString => EmptyString
  | String c s' =>
      if (Str.code c =? 9)%nat || (Str.code c =? 10)%nat || (Str.code c =? 13)%nat
      then remove_unsafe s' else String c (remove_unsafe s')
  end.

Definition is_scheme_char (c : ascii) : bool :=
  Str.is_alpha_ascii c || Str.is_digit c || Str.has_char c "+-.".

(** The scheme is what precedes the first colon, when that is a letter
    followed by scheme characters. *)
Definition split_scheme (url : string) : string * string :=
  match Str.cut ":" url with
  | Some (String c0 rest as s, url') =>
      if Str.is_alpha_ascii c0 && Str.all_chars is_scheme_char s
      then (Str.lower s, url')
      else (EmptyString, url)
  | _ => (EmptyString, url)
  end.

(** The prefix of [s] before the first of [/ ? #], and the rest. *)
Fixpoint span_netloc (s : string) : string * string :=
  match s with
  | EmptyString => (EmptyString, EmptyString)
  | String c s' =>
      if Str.has_char c "/?#" then (EmptyString, s)
      else let '(h, t) := span_netloc s' in (String c h, t)
  end.

Definition uses_params : list string :=
  [""; "ftp"; "hdl"; "prospero"; "http"; "imap"; "https"; "shttp"; "rtsp";
   "rtspu"; "sip"; "sips"; "mms"; "sftp"; "tel"].

(** [_splitparams]: the parameters follow the first [;] of the last
    path segment. *)
Definition splitparams (url : string) : string * string :=
  let '(h, t) := Str.rcut "/" url in
  match Str.cut ";" t with
  | Some (b, a) => (h ++ b, a)
  | None => (url, EmptyString)
  end.

Section Parse.

(** The library's validation of the network location (matching
    brackets, IPv6 literal syntax, NFKC normalisation): [false] is the
    [ValueError] it raises. *)
Variable netloc_ok : string -> bool.

(** [urllib.parse.urlparse(url)] as in CPython 3.12; [None] is a
    [ValueError]. *)
Definition urlparse (url : string) : option ParseResult :=
  let url := remove_unsafe (lstrip_c0_space url) in
  let '(sch, url) := split_scheme url in
  let '(loc, url, ok) :=
    if Str.startswith url "//"
    then let '(h, t) := span_netloc (Str.drop 2 url) in (h, t, netloc_ok h)
    else (EmptyString, url, true) in
  let '(url, frag) :=
    match Str.cut "#" url with Some (u, f) => (u, f) | None => (url, EmptyString) end in
  let '(url, qry) :=
    match Str.cut "?" url with Some (u, q) => (u, q) | None => (url, EmptyString) end in
  let '(url, prm) :=
    if existsb (String.eqb sch) uses_params && Str.has_char ";" url
    then splitparams url else (url, EmptyString) in
  if ok then
    Some {| scheme := sch; netloc := loc; path := url; params := prm;
            query := qry; fragment := frag |}
  else None.

End Parse.

End Url.

(** ** [os.path] on a POSIX system ([posixpath]): pure path arithmetic *)

Module OsPath.

(** [os.path.join(a, b)] *)
Definition join (a b : string) : string :=
  if Str.startswith b "/" then b
  else if Str.is_empty a || Str.endswith a "/" then a ++ b
  else a ++ "/" ++ b.

(** [os.path.split(p)]: the head loses its trailing slashes unless it
    consists of slashes only. *)
Definition split (p : string) : string * string :=
  let '(head, tail) := Str.rcut "/" p in
  match Str.rstrip "/" head with
  | EmptyString => (head, tail)
  | stripped => (stripped, tail)
  end.

(** [os.path.dirname(p)] *)
Definition dirname (p : string) : string := fst (split p).

End OsPath.

(** ** The file tree and the [os] calls the program makes *)

Module Fs.

Inductive node :=
| Dir
| File (data : list Byte.byte).

#[export] Instance byte_eq_dec : EqDecision Byte.byte := Byte.byte_eq_dec.

#[export] Instance node_eq_dec : EqDecision node.
Proof. solve_decision. Defined.

(** A location is the list of names from the root, innermost first;
    [[]] is the root directory, which always exists. *)
Abbreviation loc := (list string).
Abbreviation tree := (gmap (list string) node).

Definition node_at (t : tree) (k : loc) : option node :=
  match k with
  | [] => Some Dir
  | _ => t !! k
  end.

Definition is_dir_at (t : tree) (k : loc) : bool :=
  match node_at t k with
  | Some Dir => true
  | _ => false
  end.

(** The names between the slashes of a path. *)
Fixpoint components (p : string) : list string :=
  match p with
  | EmptyString => [EmptyString]
  | String c p' =>
      if Str.eqc c "/" then EmptyString :: components p'
      else match components p' with
           | x :: xs => String c x :: xs
           | [] => [String c EmptyString]
           end
  end.

(** One name looked up in the directory [cur]. *)
Definition step (cur : loc) (c : string) : loc :=
  if String.eqb c "" || String.eqb c "." then cur
  else if String.eqb c ".." then tail cur
  else c :: cur.

(** Path resolution: every name is looked up in a directory; the last
    one need not exist. *)
Fixpoint walk (t : tree) (cur : loc) (cs : list string) : option loc :=
  match cs with
  | [] => Some cur
  | c :: cs' => if is_dir_at t cur then walk t (step cur c) cs' else None
  end.

Definition start (cwd : loc) (p : string) : loc :=
  if Str.startswith p "/" then [] else cwd.

(** The location a path names; [None] when a name on the way is missing
    or not a directory, and for the empty path. *)
Definition resolve (t : tree) (cwd : loc) (p : string) : option loc :=
  if Str.is_empty p then None else walk t (start cwd p) (components p).

(** [os.path.exists(p)] *)
Definition exists_ (t : tree) (cwd : loc) (p : string) : bool :=
  match resolve t cwd p with
  | Some k => bool_decide (is_Some (node_at t k))
  | None => false
  end.

(** [os.path.isdir(p)] *)
Definition isdir (t : tree) (cwd : loc) (p : string) : bool :=
  match resolve t cwd p with
  | Some k => is_dir_at t k
  | None => false
  end.

(** [os.mkdir(p)]; [None] is an [OSError].  Trailing slashes do not
    count; the target must not exist. *)
Definition mkdir (t : tree) (cwd : loc) (p : string) : option tree :=
  match Str.rstrip "/" p with
  | EmptyString => None
  | p' =>
      match resolve t cwd p' with
      | Some k =>
          match node_at t k with
          | None => Some (<[k := Dir]> t)
          | Some _ => None
          end
      | None => None
      end
  end.

(** Resolution that creates each missing directory on the way, the
    last one included.  The flag tells whether the whole path was
    resolved; the directories created before a failure stay. *)
Fixpoint mkdir_walk (t : tree) (cur : loc) (cs : list string) : bool * tree :=
  match cs with
  | [] => (is_dir_at t cur, t)
  | c :: cs' =>
      if is_dir_at t cur then
        let k := step cur c in
        match node_at t k with
        | None => mkdir_walk (<[k := Dir]> t) k cs'
        | Some _ => mkdir_walk t k cs'
        end
      else (false, t)
  end.

(** [os.makedirs(p, exist_ok=...)]: the flag is [false] for an
    [OSError], the tree is the one left behind either way.

    With [exist_ok=True], every directory on the path is created unless
    it is there.  Without it, the missing parents are created the same
    way and the final [os.mkdir(p)] must succeed; a final name [.] under
    parents that had to be created returns early. *)
Definition makedirs (exist_ok : bool) (t : tree) (cwd : loc) (p : string) : bool * tree :=
  if exist_ok then
    (if Str.is_empty p then (false, t) else mkdir_walk t (start cwd p) (components p))
  else
    match Str.rstrip "/" p with
    | EmptyString => (false, t)
    | p' =>
        let cs := components p' in
        let parents := removelast cs in
        let parents_exist :=
          match walk t (start cwd p') parents with
          | Some k => bool_decide (is_Some (node_at t k))
          | None => false
          end in
        let '(ok, t1) :=
          if parents_exist then (true, t) else mkdir_walk t (start cwd p') parents in
        if negb ok then (false, t1)
        else if negb parents_exist && String.eqb (List.last cs "") "." then (true, t1)
        else match mkdir t1 cwd p with
             | Some t2 => (true, t2)
             | None => (false, t1)
             end
    end.

(** [open(p, 'wb')], the whole content written and the file closed;
    [None] is an [OSError]. *)
Definition write_file (t : tree) (cwd : loc) (p : string) (data : list Byte.byte)
  : option tree :=
  match resolve t cwd p with
  | Some k =>
      match node_at t k with
      | Some Dir => None
      | _ => Some (<[k := File data]> t)
      end
  | None => None
  end.

End Fs.

(** ** Values decoded by [json] *)

Module Json.

(** What [resp.json()] returns; the numbers are the integers (floating
    point numbers are left out). *)
#[warnings="-register-all"]
Inductive value :=
| JNull
| JBool (b : bool)
| JNum (n : Z)
| JStr (s : string)
| JArr (items : list value)
| JObj (members : list (string * value)).

(** [d.get(key)] on the members in document order: a repeated key keeps
    its last value. *)
Fixpoint dict_get (key : string) (members : list (string * value)) : option value :=
  match members with
  | [] => None
  | (k, v) :: rest =>
      match dict_get key rest with
      | Some v' => Some v'
      | None => if String.eqb k key then Some v else None
      end
  end.

(** Truth value of a decoded value. *)
Definition truthy (v : value) : bool :=
  match v with
  | JNull => false
  | JBool b => b
  | JNum n => negb (n =? 0)%Z
  | JStr s => negb (Str.is_empty s)
  | JArr items => match items with [] => false | _ => true end
  | JObj members => match members with [] => false | _ => true end
  end.

End Json.

(** ** The world, its events and the monad of the program *)

Inductive message :=
| MsgFetching (api_url : string)   (* "Fetching metadata... (...)" *)
| MsgHttpError (status : Z)        (* "HTTP Error: ... (Status code: ...)" *)
| MsgLinkGone                      (* "The share link is invalid, expired, or has been removed." *)
| MsgAccessDenied                  (* "Access denied ..." *)
| MsgMetadataFailed                (* "Error fetching metadata: ..." *)
| MsgNoBundle                      (* "No bundle found ..." *)
| MsgFoundBundle (name : string)   (* "Found bundle: ..." *)
| MsgDownloading                   (* "Downloading ZIP..." *)
| MsgDownloadFailed                (* "Download failed: ..." *)
| MsgExtracted (filename : string) (* "Extracted: ..." *)
| MsgBadZip                        (* "Downloaded file is not a valid ZIP ..." *)
| MsgDone (total : nat) (folder : string). (* "Done! Extracted ..." *)

Inductive event :=
| Printed (m : message)
| Requested (url : string) (referer : option string) (timeout : Z)
| Wrote (path : string) (data : list Byte.byte).

Inductive exn :=
| InvalidLinkFormat   (* the ValueError of the link check *)
| UrlValueError       (* a ValueError out of urlparse *)
| SystemExit (code : Z)
| OSError
| JSONDecodeError
| AttributeError
| BadZipFile
| IndexError
| NotImplementedError
| UnicodeDecodeError.

Inductive result (A : Type) :=
| Ok (a : A)
| Raise (e : exn).
Arguments Ok {A} a.
Arguments Raise {A} e.

Record world := {
  fs : Fs.tree;
  cwd : Fs.loc;
  trace : list event
}.

Definition set_fs (t : Fs.tree) (w : world) : world :=
  {| fs := t; cwd := cwd w; trace := trace w |}.

Definition log (e : event) (w : world) : world :=
  {| fs := fs w; cwd := cwd w; trace := trace w ++ [e] |}.

Definition M (A : Type) : Type := world -> result A * world.

Definition ret {A} (a : A) : M A := fun w => (Ok a, w).

Definition bind {A B} (m : M A) (f : A -> M B) : M B := fun w =>
  match m w with
  | (Ok a, w') => f a w'
  | (Raise e, w') => (Raise e, w')
  end.

Declare Scope prog_scope.
Delimit Scope prog_scope with prog.
Notation "'let*' x ':=' m 'in' k" := (bind m (fun x => k))
  (at level 10, x pattern, m at level 100, k at level 200) : prog_scope.
Notation "m '>>' k" := (bind m (fun _ => k))
  (at level 100, k at level 200, right associativity) : prog_scope.
Local Open Scope prog_scope.

Definition raise {A} (e : exn) : M A := fun w => (Raise e, w).

(** A computation that touches nothing. *)
Definition lift {A} (r : result A) : M A := fun w => (r, w).

Definition print (m : message) : M unit := fun w => (Ok tt, log (Printed m) w).

(** [sys.exit(code)] *)
Definition sys_exit {A} (code : Z) : M A := raise (SystemExit code).

(** [try: m  except BadZipFile: handler] *)
Definition except_BadZipFile {A} (m handler : M A) : M A := fun w =>
  match m w with
  | (Raise BadZipFile, w') => handler w'
  | r => r
  end.

Definition os_path_exists (p : string) : M bool := fun w =>
  (Ok (Fs.exists_ (fs w) (cwd w) p), w).

Definition os_makedirs (p : string) (exist_ok : bool) : M unit := fun w =>
  match Fs.makedirs exist_ok (fs w) (cwd w) p with
  | (true, t) => (Ok tt, set_fs t w)
  | (false, t) => (Raise OSError, set_fs t w)
  end.

(** [with open(p, 'wb') as target: target.write(data)] *)
Definition open_wb_write (p : string) (data : list Byte.byte) : M unit := fun w =>
  match Fs.write_file (fs w) (cwd w) p data with
  | Some t => (Ok tt, log (Wrote p data) (set_fs t w))
  | None => (Raise OSError, w)
  end.

(** Observations on a trace. *)
Definition requests_of (t : list event) : list (string * option string * Z) :=
  omap (fun e => match e with Requested u r n => Some (u, r, n) | _ => None end) t.

Definition writes_of (t : list event) : list (string * list Byte.byte) :=
  omap (fun e => match e with Wrote p d => Some (p, d) | _ => None end) t.

Definition messages_of (t : list event) : list message :=
  omap (fun e => match e with Printed m => Some m | _ => None end) t.

(** ** The program *)

(** What [requests.get] followed by [raise_for_status] can observe; the
    body of a reply is delivered whole. *)
Inductive http_reply :=
| Unreachable                                   (* timeout, connection error *)
| Reply (status : Z) (content : list Byte.byte).

(** A member of the archive as [zipfile] hands it out. *)
Inductive member_data :=
| Stored (data : list Byte.byte)  (* [z.open(info).read()] returns [data] *)
| BadMember                       (* [z.open(info)] raises [BadZipFile] *)
| BadData.                        (* [read()] raises [BadZipFile] (bad CRC) *)

Record ZipInfo := {
  filename : string;
  member : member_data
}.

(** The name of a directory entry ends with a slash. *)
Definition is_dir_name (info : ZipInfo) : bool := Str.endswith (filename info) "/".

(** What [zipfile.ZipFile(io.BytesIO(content))] gives: the members of the
    archive, or one of the exceptions of the constructor. *)
Inductive zip_open :=
| Archive (infolist : list ZipInfo)
| NotZip         (* [BadZipFile] *)
| Unsupported    (* [NotImplementedError]: a format version the library does not read *)
| BadName.       (* [UnicodeDecodeError]: a member name that is not UTF-8 *)

Definition default_media_extensions : list string :=
  [".jpg"; ".jpeg"; ".png"; ".gif"; ".bmp"; ".webp"; ".tiff";
   ".mp4"; ".mov"; ".avi"; ".mkv"; ".webm"; ".flv"; ".wmv"].

(** [any(filename_lower.endswith(ext) for ext in media_extensions)] *)
Definition matches (media_extensions : list string) (name : string) : bool :=
  let filename_lower := Str.lower name in
  existsb (fun ext => Str.endswith filename_lower ext) media_extensions.

(** [os.path.join(output_folder, file_info.filename.lstrip('/'))] *)
Definition extract_path (output_folder name : string) : string :=
  OsPath.join output_folder (Str.lstrip "/" name).

(** [f"&password={urllib.parse.quote(password)}" if password else "&password="] *)
Definition password_param (password : option string) : string :=
  match password with
  | Some (String _ _ as p) => "&password=" ++ Url.quote p
  | _ => "&password="
  end.

Definition api_url (link_id query : string) (password : option string) : string :=
  "https://app.koofr.net/api/v2/public/links/" ++ link_id ++ "/bundle?" ++ query
    ++ password_param password.

Definition dl_url (link_id bundle query : string) (password : option string) : string :=
  "https://app.koofr.net/content/links/" ++ link_id ++ "/files/get/"
    ++ Url.quote (bundle ++ ".zip") ++ "?" ++ query ++ password_param password
    ++ "&pf=1&force".

(** [raise_for_status] raises for the 4xx and 5xx codes. *)
Definition is_http_error (status : Z) : bool := (400 <=? status)%Z && (status <? 600)%Z.

Section Program.

(** The environment: the URL library's host validation, the server, the
    JSON and ZIP decoders, and [str()] of a decoded value that is not
    already a string. *)
Variable netloc_ok : string -> bool.
Variable http_get : string -> option string -> http_reply.
Variable json_loads : list Byte.byte -> option Json.value.
Variable zip_infolist : list Byte.byte -> zip_open.
Variable py_str : Json.value -> string.

(** Lines 22-23. *)
Definition ensure_output_folder (output_folder : string) : M unit :=
  let* present := os_path_exists output_folder in
  if present then ret tt else os_makedirs output_folder false.

(** Lines 26-32: the link identifier and the query. *)
Definition parse_link (link_url : string) : result (string * string) :=
  match Url.urlparse netloc_ok link_url with
  | None => Raise UrlValueError
  | Some parsed_url =>
      let path_parts := Str.split "/links/" (Url.path parsed_url) in
      if (length path_parts <? 2)%nat then Raise InvalidLinkFormat
      else
        let link_id := hd "" (Str.split "?" (nth 1 path_parts "")) in
        let query :=
          if Str.is_empty (Url.query parsed_url) then "path=%2F"
          else Url.query parsed_url in
        Ok (link_id, query)
  end.

(** [requests.get(url, headers=..., timeout=...)]: the request is
    observable, the reply is the server's. *)
Definition requests_get (url : string) (referer : option string) (timeout : Z)
  : M http_reply :=
  fun w => (Ok (http_get url referer), log (Requested url referer timeout) w).

(** Lines 39-53: the metadata request; the body of a good reply. *)
Definition fetch_metadata (url : string) : M (list Byte.byte) :=
  print (MsgFetching url) >>
  let* reply := requests_get url None 30 in
  match reply with
  | Unreachable => print MsgMetadataFailed >> sys_exit 1
  | Reply status content =>
      if is_http_error status then
        print (MsgHttpError status) >>
        (if (status =? 404)%Z then print MsgLinkGone
         else if (status =? 403)%Z then print MsgAccessDenied
         else ret tt) >>
        sys_exit 1
      else ret content
  end.

(** Lines 55-61: [data.get('file', {}).get('name')] and its check. *)
Definition bundle_name_of (content : list Byte.byte) : M string :=
  match json_loads content with
  | None => raise JSONDecodeError
  | Some (Json.JObj members) =>
      let file :=
        match Json.dict_get "file" members with
        | Some v => v
        | None => Json.JObj []
        end in
      match file with
      | Json.JObj file_members =>
          match Json.dict_get "name" file_members with
          | Some v =>
              if Json.truthy v then
                let bundle_name := match v with Json.JStr s => s | _ => py_str v end in
                print (MsgFoundBundle bundle_name) >> ret bundle_name
              else print MsgNoBundle >> sys_exit 1
          | None => print MsgNoBundle >> sys_exit 1
          end
      | _ => raise AttributeError
      end
  | Some _ => raise AttributeError
  end.

(** Lines 68-76: the download request; the body of a good reply. *)
Definition download_zip (url link_url : string) : M (list Byte.byte) :=
  print MsgDownloading >>
  let* reply := requests_get url (Some link_url) 60 in
  match reply with
  | Unreachable => print MsgDownloadFailed >> sys_exit 1
  | Reply status content =>
      if is_http_error status then print MsgDownloadFailed >> sys_exit 1
      else ret content
  end.

(** Lines 88-94: one matching member written under the output folder. *)
Definition extract_member (output_folder : string) (file_info : ZipInfo) : M unit :=
  let target := extract_path output_folder (filename file_info) in
  os_makedirs (OsPath.dirname target) true >>
  match member file_info with
  | Stored data => open_wb_write target data
  | BadMember => raise BadZipFile
  | BadData => open_wb_write target [] >> raise BadZipFile
  end >>
  print (MsgExtracted (filename file_info)).

(** [file_info.is_dir()] as CPython 3.11 has it,
    [self.filename[-1] == '/']: an [IndexError] on the empty name. *)
Definition is_dir (file_info : ZipInfo) : M bool :=
  match filename file_info with
  | EmptyString => raise IndexError
  | _ => ret (is_dir_name file_info)
  end.

(** Lines 82-95: the loop over [z.infolist()]. *)
Fixpoint extract_loop (output_folder : string) (media_extensions : list string)
    (infolist : list ZipInfo) (total_extracted : nat) : M nat :=
  match infolist with
  | [] => ret total_extracted
  | file_info :: rest =>
      let* directory := is_dir file_info in
      if directory then
        extract_loop output_folder media_extensions rest total_extracted
      else if matches media_extensions (filename file_info) then
        extract_member output_folder file_info >>
        extract_loop output_folder media_extensions rest (S total_extracted)
      else extract_loop output_folder media_extensions rest total_extracted
  end.

(** Lines 79-98: step 3, the archive opened and its media extracted. *)
Definition extract_media (content : list Byte.byte) (output_folder : string)
    (media_extensions : list string) : M nat :=
  except_BadZipFile
    (match zip_infolist content with
     | Archive infolist => extract_loop output_folder media_extensions infolist 0
     | NotZip => raise BadZipFile
     | Unsupported => raise NotImplementedError
     | BadName => raise UnicodeDecodeError
     end)
    (print MsgBadZip >> sys_exit 1).

(** Lines 22-76: everything before the archive is opened; the result
    is [resp.content] of the download. *)
Definition fetch_bundle (link_url output_folder : string) (password : option string)
  : M (list Byte.byte) :=
  ensure_output_folder output_folder >>
  let* (link_id, query) := lift (parse_link link_url) in
  let* body := fetch_metadata (api_url link_id query password) in
  let* bundle_name := bundle_name_of body in
  download_zip (dl_url link_id bundle_name query password) link_url.

Definition download_and_extract_media_from_koofr
    (link_url output_folder : string)
    (media_extensions : option (list string)) (password : option string) : M unit :=
  let media_extensions :=
    match media_extensions with
    | None => default_media_extensions
    | Some l => l
    end in
  let* content := fetch_bundle link_url output_folder password in
  let* total_extracted := extract_media content output_folder media_extensions in
  print (MsgDone total_extracted output_folder).

End Program.

(** ** Vocabulary of the properties *)

(** The decoded body is an object in which [file] is absent, or is an
    object whose [name] is absent or false in a boolean test. *)
Definition name_absent_or_falsy (members : list (string * Json.value)) : bool :=
  match Json.dict_get "file" members with
  | None => true
  | Some (Json.JObj file_members) =>
      match Json.dict_get "name" file_members with
      | None => true
      | Some v => negb (Json.truthy v)
      end
  | Some _ => false
  end.

(** The decoded body "lacks the field [file.name] or has it empty": the
    path [file], [name] leads nowhere, or to the empty string. *)
Definition lacks_file_name (data : Json.value) : bool :=
  match data with
  | Json.JObj members =>
      match Json.dict_get "file" members with
      | Some (Json.JObj file_members) =>
          match Json.dict_get "name" file_members with
          | Some (Json.JStr s) => Str.is_empty s
          | Some _ => false
          | None => true
          end
      | _ => true
      end
  | _ => true
  end.

(** A string without any of the letters A to Z. *)
Definition no_ascii_upper (s : string) : bool :=
  Str.all_chars (fun c => negb (Str.is_upper_ascii c)) s.

(** A string without capital letters. *)
Definition no_upper (s : string) : bool :=
  Str.all_chars (fun c => negb (Str.is_upper c)) s.

Definition is_slash (c : ascii) : bool := Str.eqc c "/".

(** [t'] has every directory of [t], and a file wherever [t] has one. *)
Definition extends (t t' : Fs.tree) : Prop :=
  forall k,
    match t !! k with
    | Some Fs.Dir => t' !! k = Some Fs.Dir
    | Some (Fs.File _) => exists d, t' !! k = Some (Fs.File d)
    | None => True
    end.

(** [t'] is [t] with some directories added at free locations. *)
Definition adds_dirs (t t' : Fs.tree) : Prop :=
  forall k, t' !! k = t !! k \/ (t !! k = None /\ t' !! k = Some Fs.Dir).

(** An archive member the loop writes: not a directory, and its
    lower-cased name ends with one of the suffixes. *)
Definition selected (media_extensions : list string) (info : ZipInfo) : bool :=
  negb (is_dir_name info) && matches media_extensions (filename info).

Definition stored_data (info : ZipInfo) : list Byte.byte :=
  match member info with
  | Stored d => d
  | _ => []
  end.

(** The destination and content of every selected member, in archive
    order. *)
Definition expected_writes (output_folder : string) (media_extensions : list string)
    (infolist : list ZipInfo) : list (string * list Byte.byte) :=
  map (fun info => (extract_path output_folder (filename info), stored_data info))
      (List.filter (selected media_extensions) infolist).

(** At every location, the second run ([v] to [v1]) ends with what the
    first run ([w] to [w1]) ended with, unless neither touched it. *)
Definition kept (w w1 v v1 : Fs.tree) : Prop :=
  forall k, v1 !! k = w1 !! k \/ (v1 !! k = v !! k /\ w1 !! k = w !! k).

(** A computation only appends to the trace and leaves the working
    directory alone. *)
Definition grows {A} (m : M A) : Prop :=
  forall w, cwd (snd (m w)) = cwd w /\ exists l, trace (snd (m w)) = (trace w ++ l)%list.

(** A computation writes no file: no write is traced, and the tree only
    gains directories. *)
Definition quiet {A} (m : M A) : Prop :=
  forall w, writes_of (trace (snd (m w))) = writes_of (trace w)
            /\ adds_dirs (fs w) (fs (snd (m w))).

(** A character of a host name or a link identifier: printable, and none
    of the separators [/ ? # ;]. *)
Definition plain_char (c : ascii) : bool :=
  (32 <? Str.code c)%nat && negb (Str.has_char c "/?#;").

Definition plain (s : string) : bool := Str.all_chars plain_char s.

(** Nothing, or a query introduced by [?]. *)
Definition query_tail (s : string) : bool :=
  match s with
  | EmptyString => true
  | String c _ => Str.eqc c "?"
  end.

(** Two trees with the same directories, and files at the same places. *)
Definition similar (t g : Fs.tree) : Prop := extends t g /\ extends g t.

(** ** A sample environment *)

Module Sample.

Definition netloc_ok (_ : string) : bool := true.

(** The link of the script's entry point. *)
Definition share_url : string :=
  "https://app.koofr.net/links/c1fab741-0e23-4516-8f30-1bc31814aea0?path=%2FBreanna%20Ly".

Definition share_url_parsed : Url.ParseResult :=
  {| Url.scheme := "https"; Url.netloc := "app.koofr.net";
     Url.path := "/links/c1fab741-0e23-4516-8f30-1bc31814aea0";
     Url.params := ""; Url.query := "path=%2FBreanna%20Ly"; Url.fragment := "" |}.

Definition other_url : string := "https://app.koofr.net/files/c1fab741".

Definition other_url_parsed : Url.ParseResult :=
  {| Url.scheme := "https"; Url.netloc := "app.koofr.net";
     Url.path := "/files/c1fab741";
     Url.params := ""; Url.query := ""; Url.fragment := "" |}.

(** A server that answers every request with status 200 and one byte. *)
Definition server (_ : string) (_ : option string) : http_reply := Reply 200 [x00].

Definition json_is (v : Json.value) (_ : list Byte.byte) : option Json.value := Some v.

Definition named_bundle : Json.value :=
  Json.JObj [("file", Json.JObj [("name", Json.JStr "Breanna Ly")])].

Definition null_file : Json.value := Json.JObj [("file", Json.JNull)].

Definition no_file : Json.value := Json.JObj [].

Definition archive_is (infos : list ZipInfo) (_ : list Byte.byte) : zip_open :=
  Archive infos.

Definition not_an_archive (_ : list Byte.byte) : zip_open := NotZip.

(** [a.jpg], [b.txt], [sub/c.png] and the directory entry [sub/]. *)
Definition media_archive : list ZipInfo :=
  [ {| filename := "a.jpg"; member := Stored [x01] |};
    {| filename := "b.txt"; member := Stored [x02] |};
    {| filename := "sub/c.png"; member := Stored [x03] |};
    {| filename := "sub/"; member := Stored [] |} ].

Definition traversal_archive : list ZipInfo :=
  [ {| filename := "../evil.jpg"; member := Stored [x04] |} ].

Definition py_str (_ : Json.value) : string := "".

(** A world whose working directory is [/home/user]. *)
Definition home : world :=
  {| fs := <[ ["user"; "home"] := Fs.Dir ]> (<[ ["home"] := Fs.Dir ]> ∅);
     cwd := ["user"; "home"];
     trace := [] |}.

(** The same world once [downloads] exists. *)
Definition home_with_downloads : world :=
  set_fs (<[ ["downloads"; "user"; "home"] := Fs.Dir ]> (fs home)) home.

End Sample.

(** [k] lies in the directory at [dir], or is that directory: locations
    list the innermost name first, so [dir] ends [k]. *)
Definition under (dir k : Fs.loc) : bool :=
  bool_decide (drop (length k - length dir) k = dir).

(** The run of the sample script: the entry point's link, the folder
    [downloads], the default suffixes, no password. *)
Definition sample_run (json : Json.value) (archive : list Byte.byte -> zip_open)
    (url : string) : M unit :=
  download_and_extract_media_from_koofr
    Sample.netloc_ok Sample.server (Sample.json_is json) archive Sample.py_str
    url "downloads" None None.

(** ** The entry point of the script (lines 104-130) *)

(** What the entry point prints itself. *)
Inductive script_message :=
| SaidBanner                 (* "Koofr Media Downloader" *)
| SaidPlaceholder            (* "Error: You need to replace the placeholder ..." *)
| SaidExample                (* "Example: https://app.koofr.net/links/..." *)
| SaidUnexpected (e : exn).  (* "Unexpected error: ..." *)

(** [except Exception] catches every exception of the model but
    [SystemExit], which is no [Exception]. *)
Definition is_Exception (e : exn) : bool :=
  match e with
  | SystemExit _ => false
  | _ => true
  end.

(** A run of the script: what it printed before calling the function,
    how it ended, the world it left, and what it printed afterwards. *)
Record script_run := {
  said_first : list script_message;
  outcome : result unit;
  final : world;
  said_last : list script_message
}.

(** The exit status of the interpreter. *)
Definition exit_status (r : result unit) : Z :=
  match r with
  | Ok _ => 0
  | Raise (SystemExit code) => code
  | Raise _ => 1
  end.

Section Script.

Variable netloc_ok : string -> bool.
Variable http_get : string -> option string -> http_reply.
Variable json_loads : list Byte.byte -> option Json.value.
Variable zip_infolist : list Byte.byte -> zip_open.
Variable py_str : Json.value -> string.

(** Lines 105-130 for the link [koofr_link] pasted into the script.  No
    interrupt arrives in the model, so the [KeyboardInterrupt] handler is
    left out. *)
Definition script (koofr_link : string) (w : world) : script_run :=
  if Str.contains "PASTE_YOUR_KOOFR_LINK_HERE" koofr_link then
    {| said_first := [SaidBanner; SaidPlaceholder; SaidExample];
       outcome := Raise (SystemExit 1); final := w; said_last := [] |}
  else
    let output_folder := "koofr_downloads" in
    match download_and_extract_media_from_koofr
            netloc_ok http_get json_loads zip_infolist py_str
            koofr_link output_folder None None w with
    | (Ok _, w') =>
        {| said_first := [SaidBanner]; outcome := Ok tt; final := w'; said_last := [] |}
    | (Raise e, w') =>
        if is_Exception e then
          {| said_first := [SaidBanner]; outcome := Ok tt; final := w';
             said_last := [SaidUnexpected e] |}
        else
          {| said_first := [SaidBanner]; outcome := Raise e; final := w'; said_last := [] |}
    end.

(** The script as it stands, with the link of line 108. *)
Definition main : world -> script_run :=
  script "https://app.koofr.net/links/c1fab741-0e23-4516-8f30-1bc31814aea0?path=%2FBreanna%20Ly".

End Script.

(** ** More vocabulary *)

(** A computation raises only exceptions that satisfy [P]. *)
Definition raises_only {A} (P : exn -> Prop) (m : M A) : Prop :=
  forall w e, fst (m w) = Raise e -> P e.

(** A computation appends only events that pass the test [P]. *)
Definition adds_only {A} (P : event -> bool) (m : M A) : Prop :=
  forall w, exists l, trace (snd (m w)) = (trace w ++ l)%list /\ forallb P l = true.

Definition is_request (e : event) : bool :=
  match e with Requested _ _ _ => true | _ => false end.

Definition is_write (e : event) : bool :=
  match e with Wrote _ _ => true | _ => false end.

(** A computation keeps every entry of the file tree, with its kind, and
    the working directory. *)
Definition keeps_tree {A} (m : M A) : Prop :=
  forall w, extends (fs w) (fs (snd (m w))) /\ cwd (snd (m w)) = cwd w.

(** The characters that delimit the parts of a URL after its path. *)
Definition is_delimiter (c : ascii) : bool := Str.has_char c "?#&=; ".

(** No name of the path is [..]. *)
Definition no_dotdot (cs : list string) : bool :=
  forallb (fun c => negb (String.eqb c "..")) cs.

Definition not_request (e : event) : bool := negb (is_request e).

Definition not_write (e : event) : bool := negb (is_write e).

(** The exceptions the loop over the archive lets out. *)
Definition loop_exception (e : exn) : Prop :=
  e = OSError \/ e = BadZipFile \/ e = IndexError.

(** No member of the list has the empty name. *)
Definition all_named (infolist : list ZipInfo) : bool :=
  forallb (fun info => negb (Str.is_empty (filename info))) infolist.

(** The exceptions the extraction step lets out. *)
Definition extraction_exception (e : exn) : Prop :=
  e = OSError \/ e = SystemExit 1 \/ e = IndexError
  \/ e = NotImplementedError \/ e = UnicodeDecodeError.

(** The requests a run can have added: none, the metadata request, or
    the metadata request and then the download with its [Referer]. *)
Definition run_requests (netloc_ok : string -> bool) (link_url : string)
    (password : option string) (l : list (string * option string * Z)) : Prop :=
  l = []
  \/ exists link_id query,
       parse_link netloc_ok link_url = Ok (link_id, query)
       /\ (l = [(api_url link_id query password, None, 30%Z)]
           \/ exists bundle_name,
                l = [(api_url link_id query password, None, 30%Z);
                     (dl_url link_id bundle_name query password, Some link_url, 60%Z)]).

(** A reply after which [requests.get] with [raise_for_status] raises. *)
Definition failed (reply : http_reply) : bool :=
  match reply with
  | Unreachable => true
  | Reply status _ => is_http_error status
  end.

(** What [quote] can produce: the characters it leaves alone, and the
    percent sign of an escape. *)
Definition is_quoted_char (c : ascii) : bool := Url.is_safe c || Str.eqc c "%".

Definition free_of_delimiters (s : string) : bool :=
  Str.all_chars (fun c => negb (is_delimiter c)) s.

(** The exception the metadata body makes [resp.json()] or the two
    [get] calls raise: the body is no JSON, or is no object, or its
    member [file] is no object. *)
Definition metadata_error (data : option Json.value) : option exn :=
  match data with
  | None => Some JSONDecodeError
  | Some (Json.JObj members) =>
      match Json.dict_get "file" members with
      | None | Some (Json.JObj _) => None
      | Some _ => Some AttributeError
      end
  | Some _ => Some AttributeError
  end.

(** ** More sample environments *)

Module Cases.

(** A server that answers every request with the given status. *)
Definition status_server (status : Z) (_ : string) (_ : option string) : http_reply :=
  Reply status [].

(** A server that cannot be reached. *)
Definition dead_server (_ : string) (_ : option string) : http_reply := Unreachable.

(** A server that answers the metadata request and refuses the
    download, the request that carries a [Referer]. *)
Definition no_download_server (_ : string) (referer : option string) : http_reply :=
  match referer with
  | None => Reply 200 [x00]
  | Some _ => Reply 503 []
  end.

(** [b.txt] and the directory entry [sub/]. *)
Definition text_archive : list ZipInfo :=
  [ {| filename := "b.txt"; member := Stored [x02] |};
    {| filename := "sub/"; member := Stored [] |} ].


(** The sample world with a regular file named [downloads]. *)
Definition home_with_file : world :=
  set_fs (<[ ["downloads"; "user"; "home"] := Fs.File [] ]> (fs Sample.home)) Sample.home.

(** [a.jpg], then a member with the empty name, then [c.jpg]. *)
Definition nameless_archive : list ZipInfo :=
  [ {| filename := "a.jpg"; member := Stored [x01] |};
    {| filename := ""; member := Stored [x02] |};
    {| filename := "c.jpg"; member := Stored [x03] |} ].

(** A body whose member names are not UTF-8 though it says so. *)
Definition undecodable_archive (_ : list Byte.byte) : zip_open := BadName.

(** A body of a format version the library does not read. *)
Definition unsupported_archive (_ : list Byte.byte) : zip_open := Unsupported.

(** A body that is no JSON. *)
Definition not_json (_ : list Byte.byte) : option Json.value := None.

(** The sample run against another server. *)
Definition run_against (server : string -> option string -> http_reply) : M unit :=
  download_and_extract_media_from_koofr
    Sample.netloc_ok server (Sample.json_is Sample.named_bundle)
    (Sample.archive_is Sample.media_archive) Sample.py_str
    Sample.share_url "downloads" None None.

(** The steps of the sample run before the archive is opened. *)
Definition fetched : M (list Byte.byte) :=
  fetch_bundle Sample.netloc_ok Sample.server (Sample.json_is Sample.named_bundle)
    Sample.py_str Sample.share_url "downloads" None.

(** The sample script. *)
Definition sample_script (link : string) : world -> script_run :=
  script Sample.netloc_ok Sample.server (Sample.json_is Sample.named_bundle)
    (Sample.archive_is Sample.media_archive) Sample.py_str link.

End Cases.

(** * Properties *)

(** ** The library models on small inputs *)

Example lower_photo : Str.lower "PHOTO.JPG" = "photo.jpg".
Proof. reflexivity. Qed.

Example split_links :
  Str.split "/links/" "/links/abc/links/def" = ["" ; "abc" ; "def"].
Proof. reflexivity. Qed.

Example rcut_path : Str.rcut "/" "downloads/sub/c.png" = ("downloads/sub/", "c.png").
Proof. reflexivity. Qed.

Example rstrip_slashes : Str.rstrip "/" "a/b//" = "a/b".
Proof. reflexivity. Qed.

Example quote_zip : Url.quote "My Folder/a&b.zip" = "My%20Folder/a%26b.zip".
Proof. reflexivity. Qed.

Example quote_latin1 : Url.quote (String (ascii_of_nat 228) "") = "%C3%A4".
Proof. reflexivity. Qed.

Example urlparse_share :
  Url.urlparse (fun _ => true)
    "https://app.koofr.net/links/c1fab741-0e23-4516-8f30-1bc31814aea0?path=%2FBreanna%20Ly"
  = Some {| Url.scheme := "https"; Url.netloc := "app.koofr.net";
            Url.path := "/links/c1fab741-0e23-4516-8f30-1bc31814aea0";
            Url.params := ""; Url.query := "path=%2FBreanna%20Ly";
            Url.fragment := "" |}.
Proof. reflexivity. Qed.

Example urlparse_params :
  option_map Url.path (Url.urlparse (fun _ => true) "https://h/links/ab;c?x#y")
  = Some "/links/ab".
Proof. reflexivity. Qed.

Example join_plain : OsPath.join "downloads" "sub/c.png" = "downloads/sub/c.png".
Proof. reflexivity. Qed.

Example dirname_nested : OsPath.dirname "downloads/sub/c.png" = "downloads/sub".
Proof. reflexivity. Qed.

Example dirname_root : OsPath.dirname "/c.png" = "/".
Proof. reflexivity. Qed.

Example components_abs : Fs.components "/a//b/" = [""; "a"; ""; "b"; ""].
Proof. reflexivity. Qed.

Example makedirs_nested :
  Fs.makedirs true ∅ [] "downloads/sub"
  = (true, <[ ["sub"; "downloads"] := Fs.Dir ]> (<[ ["downloads"] := Fs.Dir ]> ∅)).
Proof. vm_compute. reflexivity. Qed.

Example makedirs_strict :
  Fs.makedirs false ∅ [] "new/.." = (false, <[ ["new"] := Fs.Dir ]> ∅)
  /\ Fs.makedirs false ∅ [] "new/." = (true, <[ ["new"] := Fs.Dir ]> ∅)
  /\ Fs.makedirs false ∅ [] "" = (false, ∅)
  /\ Fs.makedirs false ∅ [] "a/b/"
     = (true, <[ ["b"; "a"] := Fs.Dir ]> (<[ ["a"] := Fs.Dir ]> ∅)).
Proof. vm_compute. repeat split. Qed.


(** ** Facts about the string operations *)

Section StrFacts.

Lemma append_empty_r (s : string) : s ++ "" = s.
Proof. induction s as [|c s IH]; simpl; [reflexivity | now rewrite IH]. Qed.

Lemma append_assoc (a b c : string) : (a ++ b) ++ c = a ++ b ++ c.
Proof. induction a as [|x a IH]; simpl; [reflexivity | now rewrite IH]. Qed.

Lemma length_append (a b : string) :
  String.length (a ++ b) = (String.length a + String.length b)%nat.
Proof. induction a as [|x a IH]; simpl; [reflexivity | now rewrite IH]. Qed.

Lemma eqc_refl (c : ascii) : Str.eqc c c = true.
Proof. apply Ascii.eqb_refl. Qed.

Lemma eqc_eq (a b : ascii) : Str.eqc a b = true -> a = b.
Proof. apply Ascii.eqb_eq. Qed.

Lemma str_take_app (a b : string) : Str.take (String.length a) (a ++ b) = a.
Proof. induction a as [|x a IH]; simpl; [now destruct b | now rewrite IH]. Qed.

Lemma str_drop_app (a b : string) (n : nat) :
  Str.drop (String.length a + n) (a ++ b) = Str.drop n b.
Proof. induction a as [|x a IH]; simpl; [reflexivity | exact IH]. Qed.

Lemma has_char_app (c : ascii) (a b : string) :
  Str.has_char c (a ++ b) = Str.has_char c a || Str.has_char c b.
Proof.
  induction a as [|x a IH]; simpl; [reflexivity |].
  rewrite IH. now rewrite orb_assoc.
Qed.

Lemma find_absent_char (c : ascii) (s : string) :
  Str.has_char c s = false -> Str.find (String c "") s = None.
Proof.
  induction s as [|x s IH]; simpl; intros H; [reflexivity |].
  apply orb_false_iff in H as [Hx Hs].
  rewrite Ascii.eqb_sym in Hx. unfold Str.eqc. rewrite Hx. simpl.
  now rewrite (IH Hs).
Qed.

Lemma split_fuel_absent (fuel : nat) (sep s : string) :
  Str.find sep s = None -> Str.split_fuel fuel sep s = [s].
Proof. intros H. destruct fuel; simpl; [reflexivity | now rewrite H]. Qed.

Lemma split_absent (sep s : string) : Str.find sep s = None -> Str.split sep s = [s].
Proof. apply split_fuel_absent. Qed.

Lemma length_drop (n : nat) (s : string) :
  String.length (Str.drop n s) = (String.length s - n)%nat.
Proof.
  revert s. induction n as [|n IH]; intros [|c s]; simpl; try reflexivity.
  apply IH.
Qed.

Lemma find_empty_string (sep : string) : sep <> "" -> Str.find sep "" = None.
Proof. destruct sep; [congruence | reflexivity]. Qed.

(** The fuel of [Str.split] never runs out: any amount from the length of
    the string on gives the same parts. *)
Lemma split_fuel_enough (sep : string) (n m : nat) (s : string) :
  sep <> "" ->
  (String.length s <= n)%nat -> (String.length s <= m)%nat ->
  Str.split_fuel n sep s = Str.split_fuel m sep s.
Proof.
  intros Hsep. revert m s. induction n as [|n IH]; intros m s Hn Hm.
  - destruct s; [|simpl in Hn; lia].
    destruct m; cbn [Str.split_fuel]; [reflexivity | now rewrite find_empty_string].
  - destruct m as [|m].
    + destruct s; [|simpl in Hm; lia]. cbn [Str.split_fuel]. now rewrite find_empty_string.
    + cbn [Str.split_fuel]. destruct (Str.find sep s) as [i|]; [|reflexivity].
      f_equal. assert (0 < String.length sep)%nat by (destruct sep; [congruence | simpl; lia]).
      apply IH; rewrite length_drop; lia.
Qed.

Lemma cut_some (c : ascii) (s h t : string) :
  Str.cut c s = Some (h, t) -> s = h ++ String c t /\ Str.has_char c h = false.
Proof.
  revert h. induction s as [|x s IH]; simpl; intros h H; [discriminate |].
  destruct (Str.eqc x c) eqn:E.
  - injection H as <- <-. apply eqc_eq in E. subst. now split.
  - destruct (Str.cut c s) as [[h' t']|]; [|discriminate].
    injection H as <- <-. destruct (IH h' eq_refl) as [-> Hh].
    simpl. rewrite E. now split.
Qed.

Lemma cut_none (c : ascii) (s : string) :
  Str.cut c s = None -> Str.has_char c s = false.
Proof.
  induction s as [|x s IH]; simpl; intros H; [reflexivity |].
  destruct (Str.eqc x c); [discriminate |].
  destruct (Str.cut c s) as [[h' t']|]; [discriminate | now apply IH].
Qed.

Lemma rcut_app (c : ascii) (s h t : string) : Str.rcut c s = (h, t) -> s = h ++ t.
Proof.
  revert h t. induction s as [|x s IH]; simpl; intros h t H.
  - now injection H as <- <-.
  - destruct (Str.rcut c s) as [h' t'] eqn:E.
    specialize (IH _ _ eq_refl). subst s.
    destruct h' as [|y h'].
    + destruct (Str.eqc x c); now injection H as <- <-.
    + now injection H as <- <-.
Qed.

Lemma lower_char_not_upper (c : ascii) : Str.is_upper (Str.lower_char c) = false.
Proof. destruct c as [[] [] [] [] [] [] [] []]; reflexivity. Qed.

Lemma lower_char_fixed (c : ascii) : Str.is_upper c = false -> Str.lower_char c = c.
Proof. unfold Str.lower_char. now intros ->. Qed.

Lemma lower_no_upper (s : string) : no_upper (Str.lower s) = true.
Proof.
  unfold no_upper. induction s as [|c s IH]; [reflexivity |].
  cbn [Str.lower Str.all_chars]. now rewrite lower_char_not_upper, IH.
Qed.

Lemma lower_idempotent (s : string) : Str.lower (Str.lower s) = Str.lower s.
Proof.
  induction s as [|c s IH]; [reflexivity |].
  cbn [Str.lower]. now rewrite IH, (lower_char_fixed _ (lower_char_not_upper c)).
Qed.

Lemma all_chars_drop (p : ascii -> bool) (n : nat) (s : string) :
  Str.all_chars p s = true -> Str.all_chars p (Str.drop n s) = true.
Proof.
  revert s. induction n as [|n IH]; intros [|c s] H; simpl; try assumption.
  simpl in H. apply andb_true_iff in H as [_ H]. now apply IH.
Qed.

(** A suffix of a string without capitals has no capitals. *)
Lemma endswith_no_upper (s p : string) :
  no_upper s = true -> Str.endswith s p = true -> no_upper p = true.
Proof.
  unfold Str.endswith. intros Hs H.
  apply andb_true_iff in H as [_ H]. apply String.eqb_eq in H.
  rewrite <- H. now apply all_chars_drop.
Qed.

End StrFacts.

(** ** Extension matching and letter case *)

(** C5, as stated, fails: matching depends on the letter case of the
    configured suffix.  The suffix [.jpg] matches [photo.jpg] and the
    suffix [.JPG] does not. *)
Lemma matches_suffix_case_sensitive :
  matches [".jpg"] "photo.jpg" = true /\ matches [".JPG"] "photo.jpg" = false.
Proof. split; reflexivity. Qed.

(** C5, amended: matching is insensitive to the letter case of the entry
    name.  Two names that differ in letter case alone match the same
    suffix lists, and a name matches what its lower-cased form matches. *)
Theorem matches_name_case_insensitive (media_extensions : list string) (n1 n2 : string) :
  Str.lower n1 = Str.lower n2 ->
  matches media_extensions n1 = matches media_extensions n2
  /\ matches media_extensions (Str.lower n1) = matches media_extensions n2.
Proof.
  intros H. unfold matches. rewrite lower_idempotent, H. now split.
Qed.

(** [PHOTO.JPG] and [photo.jpg] match the suffix [.jpg] alike. *)
Lemma matches_name_case_insensitive_witness :
  Str.lower "PHOTO.JPG" = Str.lower "photo.jpg"
  /\ matches [".jpg"] "PHOTO.JPG" = matches [".jpg"] "photo.jpg"
  /\ matches [".jpg"] "PHOTO.JPG" = true.
Proof.
  split; [reflexivity |].
  split; [apply (matches_name_case_insensitive [".jpg"] "PHOTO.JPG" "photo.jpg"); reflexivity
         | reflexivity].
Defined.

Lemma no_upper_ascii (s : string) : no_upper s = true -> no_ascii_upper s = true.
Proof.
  unfold no_upper, no_ascii_upper. induction s as [|c s IH]; [reflexivity |].
  cbn [Str.all_chars]. intros H. apply andb_true_iff in H as [Hc Hs].
  rewrite (IH Hs), andb_true_r.
  unfold Str.is_upper in Hc. apply negb_true_iff, orb_false_iff in Hc as [Hc _].
  now rewrite Hc.
Qed.

(** X24: a configured suffix that holds one of the letters A to Z never
    matches, whatever the entry name: the name is lower-cased before the
    comparison and the suffix is not, so such a suffix can be removed
    from the list without changing what matches. *)
Theorem ascii_capital_suffix_never_matches (media_extensions : list string)
    (ext name : string) :
  no_ascii_upper ext = false ->
  matches (ext :: media_extensions) name = matches media_extensions name.
Proof.
  intros Hext. unfold matches. cbn [existsb].
  destruct (Str.endswith (Str.lower name) ext) eqn:E; [|reflexivity].
  apply endswith_no_upper in E; [|apply lower_no_upper].
  apply no_upper_ascii in E. congruence.
Qed.

(** The suffix [.JPG] matches neither [photo.jpg] nor [photo.JPG]. *)
Lemma ascii_capital_suffix_never_matches_witness :
  matches [".JPG"; ".png"] "photo.JPG" = matches [".png"] "photo.JPG"
  /\ matches [".JPG"] "photo.JPG" = false.
Proof.
  split; [|reflexivity].
  apply (ascii_capital_suffix_never_matches [".png"] ".JPG" "photo.JPG"). reflexivity.
Defined.

(** ** The link parser *)

Section ParseFacts.

Lemma str_drop_app_exact (a b : string) : Str.drop (String.length a) (a ++ b) = b.
Proof. induction a as [|x a IH]; simpl; [reflexivity | exact IH]. Qed.

(** One occurrence of the separator: two parts. *)
Lemma split_two (sep pre rest : string) :
  Str.find sep (pre ++ sep ++ rest) = Some (String.length pre) ->
  Str.find sep rest = None ->
  Str.split sep (pre ++ sep ++ rest) = [pre; rest].
Proof.
  intros Hfirst Hrest. unfold Str.split.
  destruct (String.length (pre ++ sep ++ rest)) as [|n] eqn:E.
  - destruct pre; [|discriminate]. destruct sep; [|discriminate].
    simpl in *. destruct rest; [|discriminate]. discriminate.
  - cbn [Str.split_fuel]. rewrite Hfirst, str_take_app, str_drop_app.
    now rewrite str_drop_app_exact, (split_fuel_absent _ _ _ Hrest).
Qed.

Variable netloc_ok : string -> bool.

Lemma splitparams_keeps_absent (c : ascii) (url : string) :
  Str.has_char c url = false -> Str.has_char c (fst (Url.splitparams url)) = false.
Proof.
  intros H. unfold Url.splitparams.
  destruct (Str.rcut "/" url) as [h t] eqn:E. apply rcut_app in E.
  destruct (Str.cut ";" t) as [[b a]|] eqn:Ec; simpl; [|assumption].
  apply cut_some in Ec as [-> _]. subst url.
  rewrite !has_char_app in H. rewrite has_char_app.
  apply orb_false_iff in H as [Hh H]. apply orb_false_iff in H as [Hb _].
  now rewrite Hh, Hb.
Qed.

(** The parsed path never holds a question mark: the query was cut off
    at the first one. *)
Lemma urlparse_path_no_query (url : string) (p : Url.ParseResult) :
  Url.urlparse netloc_ok url = Some p -> Str.has_char "?" (Url.path p) = false.
Proof.
  unfold Url.urlparse. intros H.
  destruct (Url.split_scheme _) as [sch u1].
  destruct (if Str.startswith u1 "//" then _ else _) as [[loc u2] ok].
  destruct (match Str.cut "#" u2 with Some _ => _ | None => _ end) as [u3 frag].
  destruct (match Str.cut "?" u3 with Some _ => _ | None => _ end) as [u4 qry] eqn:Eq.
  assert (Hq : Str.has_char "?" u4 = false).
  { destruct (Str.cut "?" u3) as [[u q]|] eqn:Ec.
    - injection Eq as <- <-. now apply cut_some in Ec as [_ ?].
    - injection Eq as <- <-. now apply cut_none. }
  destruct (if _ && _ then _ else _) as [u5 prm] eqn:Ep.
  assert (Hp : Str.has_char "?" u5 = false).
  { destruct (existsb _ _ && _).
    - apply (f_equal fst) in Ep. simpl in Ep. subst u5.
      now apply splitparams_keeps_absent.
    - now injection Ep as <- <-. }
  destruct ok; [|discriminate]. injection H as <-. exact Hp.
Qed.

(** Without the marker in the parsed path, the link is refused. *)
Lemma parse_link_no_marker (url : string) (p : Url.ParseResult) :
  Url.urlparse netloc_ok url = Some p ->
  Str.contains "/links/" (Url.path p) = false ->
  parse_link netloc_ok url = Raise InvalidLinkFormat.
Proof.
  intros Hp Hc. unfold parse_link. rewrite Hp.
  unfold Str.contains in Hc.
  destruct (Str.find "/links/" (Url.path p)) eqn:E; [discriminate |].
  now rewrite (split_absent _ _ E).
Qed.

(** With the marker, the identifier is what lies between the first
    marker and the next one (or the end of the path). *)
Lemma parse_link_marker (url : string) (p : Url.ParseResult) (pre id : string) :
  Url.urlparse netloc_ok url = Some p ->
  Url.path p = pre ++ "/links/" ++ id ->
  Str.find "/links/" (Url.path p) = Some (String.length pre) ->
  Str.find "/links/" id = None ->
  parse_link netloc_ok url
  = Ok (id, if Str.is_empty (Url.query p) then "path=%2F" else Url.query p).
Proof.
  intros Hp Hpath Hfirst Hrest. unfold parse_link. rewrite Hp.
  pose proof (urlparse_path_no_query _ _ Hp) as Hq.
  rewrite Hpath in Hfirst, Hq |- *.
  rewrite (split_two _ _ _ Hfirst Hrest).
  cbn [length Nat.ltb Nat.leb nth].
  rewrite !has_char_app in Hq.
  apply orb_false_iff in Hq as [_ Hq]. apply orb_false_iff in Hq as [_ Hq].
  rewrite (split_absent _ _ (find_absent_char _ _ Hq)). reflexivity.
Qed.

End ParseFacts.

(** ** Facts about the file tree *)

Section FsFacts.

Import Fs.

Lemma extends_refl (t : tree) : extends t t.
Proof. intros k. destruct (t !! k) as [[|d]|]; eauto. Qed.

Lemma extends_trans (a b c : tree) : extends a b -> extends b c -> extends a c.
Proof.
  intros Hab Hbc k. specialize (Hab k). specialize (Hbc k).
  destruct (a !! k) as [[|d]|]; [| |exact I].
  - now rewrite Hab in Hbc.
  - destruct Hab as [d' Hd]. now rewrite Hd in Hbc.
Qed.

Lemma adds_dirs_refl (t : tree) : adds_dirs t t.
Proof. intros k. now left. Qed.

Lemma adds_dirs_trans (a b c : tree) : adds_dirs a b -> adds_dirs b c -> adds_dirs a c.
Proof.
  intros Hab Hbc k. destruct (Hab k) as [E|[E1 E2]], (Hbc k) as [F|[F1 F2]].
  - left. congruence.
  - right. split; congruence.
  - right. split; congruence.
  - congruence.
Qed.

Lemma adds_dirs_extends (t t' : tree) : adds_dirs t t' -> extends t t'.
Proof.
  intros H k. destruct (H k) as [E|[E _]]; rewrite <- ?E.
  - destruct (t' !! k) as [[|d]|]; eauto.
  - now rewrite E.
Qed.

Lemma node_at_none (t : tree) (k : loc) :
  node_at t k = None -> k <> [] /\ t !! k = None.
Proof. destruct k; [discriminate | now split]. Qed.

Lemma node_at_cons (t : tree) (c : string) (k : loc) : node_at t (c :: k) = t !! (c :: k).
Proof. reflexivity. Qed.

Lemma adds_dirs_insert (t : tree) (k : loc) :
  node_at t k = None -> adds_dirs t (<[k := Dir]> t).
Proof.
  intros H k'. apply node_at_none in H as [_ H].
  destruct (decide (k = k')) as [<-|Hne].
  - right. now rewrite lookup_insert_eq.
  - left. now rewrite lookup_insert_ne.
Qed.

Lemma extends_write (t : tree) (k : loc) (d : list Byte.byte) :
  t !! k <> Some Dir -> extends t (<[k := File d]> t).
Proof.
  intros H k'. destruct (decide (k = k')) as [<-|Hne].
  - rewrite lookup_insert_eq. destruct (t !! k) as [[|d']|]; [congruence | eauto | exact I].
  - rewrite lookup_insert_ne by assumption. destruct (t !! k') as [[|d']|]; eauto.
Qed.

Lemma extends_is_dir_at (t t' : tree) (k : loc) :
  extends t t' -> is_dir_at t k = true -> is_dir_at t' k = true.
Proof.
  intros H. unfold is_dir_at. destruct k as [|c k]; [easy |].
  rewrite !node_at_cons. specialize (H (c :: k)).
  destruct (t !! (c :: k)) as [[|d]|]; try discriminate. now rewrite H.
Qed.

Lemma walk_extends (t t' : tree) (cs : list string) (cur k : loc) :
  extends t t' -> walk t cur cs = Some k -> walk t' cur cs = Some k.
Proof.
  intros H. revert cur. induction cs as [|c cs IH]; intros cur; simpl; [easy |].
  destruct (is_dir_at t cur) eqn:E; [|discriminate].
  rewrite (extends_is_dir_at _ _ _ H E). apply IH.
Qed.

Lemma walk_app (t : tree) (a b : list string) (cur : loc) :
  walk t cur (a ++ b) = match walk t cur a with Some k => walk t k b | None => None end.
Proof.
  revert cur. induction a as [|c a IH]; intros cur; simpl; [reflexivity |].
  destruct (is_dir_at t cur); [apply IH | reflexivity].
Qed.

Lemma walk_blanks (t : tree) (n : nat) (k : loc) :
  is_dir_at t k = true -> walk t k (replicate n "") = Some k.
Proof. intros H. induction n as [|n IH]; simpl; [reflexivity | now rewrite H]. Qed.

(** What the creating resolution leaves behind. *)
Lemma mkdir_walk_spec (cs : list string) (t t1 : tree) (cur : loc) (ok : bool) :
  mkdir_walk t cur cs = (ok, t1) ->
  adds_dirs t t1
  /\ (ok = true -> exists k, walk t1 cur cs = Some k /\ is_dir_at t1 k = true).
Proof.
  revert t cur. induction cs as [|c cs IH]; intros t cur; simpl.
  - intros [= <- <-]. split; [apply adds_dirs_refl | eauto].
  - destruct (is_dir_at t cur) eqn:Ecur.
    2:{ intros [= <- <-]. split; [apply adds_dirs_refl | discriminate]. }
    destruct (node_at t (step cur c)) eqn:En; intros H.
    + destruct (IH _ _ H) as [Ha Hk]. split; [exact Ha |].
      intros Hok. destruct (Hk Hok) as (k & Hw & Hd). exists k. split; [|exact Hd].
      now rewrite (extends_is_dir_at _ _ _ (adds_dirs_extends _ _ Ha) Ecur).
    + destruct (IH _ _ H) as [Ha Hk].
      pose proof (adds_dirs_insert _ _ En) as Hi.
      split; [eapply adds_dirs_trans; eauto |].
      intros Hok. destruct (Hk Hok) as (k & Hw & Hd). exists k. split; [|exact Hd].
      assert (He : extends t t1)
        by (apply adds_dirs_extends; eapply adds_dirs_trans; eauto).
      now rewrite (extends_is_dir_at _ _ _ He Ecur).
Qed.

(** On a path whose directories are all there, it creates nothing. *)
Lemma mkdir_walk_present (cs : list string) (t : tree) (cur k : loc) :
  walk t cur cs = Some k -> is_dir_at t k = true -> mkdir_walk t cur cs = (true, t).
Proof.
  revert cur. induction cs as [|c cs IH]; intros cur; simpl.
  - intros [= ->] ->. reflexivity.
  - destruct (is_dir_at t cur); [|discriminate]. intros Hw Hd.
    assert (Hs : is_dir_at t (step cur c) = true).
    { destruct cs as [|c' cs]; simpl in Hw.
      - now injection Hw as ->.
      - now destruct (is_dir_at t (step cur c)). }
    unfold is_dir_at in Hs.
    destruct (node_at t (step cur c)); [now apply IH | discriminate].
Qed.

Lemma mkdir_walk_replay (cs : list string) (t t1 g : tree) (cur : loc) :
  mkdir_walk t cur cs = (true, t1) -> extends t1 g -> mkdir_walk g cur cs = (true, g).
Proof.
  intros H He. apply mkdir_walk_spec in H as [_ H].
  destruct (H eq_refl) as (k & Hw & Hd).
  eapply mkdir_walk_present; [eapply walk_extends | eapply extends_is_dir_at]; eauto.
Qed.

End FsFacts.

(** ** Trailing slashes, and what [os.makedirs] guarantees *)

Section MakedirsFacts.

Import Fs.

Lemma rstrip_spec (p : string) :
  exists tl, p = Str.rstrip "/" p ++ tl /\ Str.all_chars is_slash tl = true.
Proof.
  induction p as [|a p (tl & Hp & Htl)]; simpl.
  - now exists "".
  - destruct (Str.rstrip "/" p) as [|b r] eqn:E.
    + simpl in Hp. subst tl. destruct (Str.eqc a "/") eqn:Ea.
      * exists (String a p). simpl. unfold is_slash at 1. now rewrite Ea.
      * now exists p.
    + exists tl. split; [|exact Htl]. simpl. now rewrite Hp at 1.
Qed.

Lemma components_not_nil (p : string) : components p <> [].
Proof.
  destruct p as [|c p]; simpl; [discriminate |].
  destruct (Str.eqc c "/"); [discriminate |].
  destruct (components p); discriminate.
Qed.

Lemma components_slashes (p tl : string) :
  Str.all_chars is_slash tl = true ->
  components (p ++ tl) = (components p ++ replicate (String.length tl) "")%list.
Proof.
  intros Htl. induction p as [|c p IH]; simpl.
  - induction tl as [|a tl IHtl]; simpl; [reflexivity |].
    simpl in Htl. apply andb_true_iff in Htl as [Ha Htl].
    unfold is_slash in Ha. rewrite Ha. now rewrite (IHtl Htl).
  - rewrite IH. destruct (Str.eqc c "/"); [reflexivity |].
    pose proof (components_not_nil p). now destruct (components p).
Qed.

Lemma start_rstrip (cwd : loc) (p : string) :
  Str.rstrip "/" p <> "" -> start cwd (Str.rstrip "/" p) = start cwd p.
Proof.
  intros H. destruct (rstrip_spec p) as (tl & Hp & _).
  destruct (Str.rstrip "/" p) as [|a r]; [congruence |].
  rewrite Hp. reflexivity.
Qed.

Lemma is_empty_rstrip (p : string) : Str.rstrip "/" p <> "" -> Str.is_empty p = false.
Proof. destruct p; [simpl; congruence | reflexivity]. Qed.

(** A path resolves like its stripped form when that names a directory. *)
Lemma resolve_rstrip (t : tree) (cwd : loc) (p : string) (k : loc) :
  Str.rstrip "/" p <> "" ->
  resolve t cwd (Str.rstrip "/" p) = Some k ->
  is_dir_at t k = true ->
  resolve t cwd p = Some k.
Proof.
  intros Hne Hr Hd. unfold resolve in *.
  rewrite (is_empty_rstrip _ Hne). rewrite (start_rstrip _ _ Hne) in Hr.
  destruct (Str.is_empty (Str.rstrip "/" p)); [discriminate |].
  destruct (rstrip_spec p) as (tl & Hp & Htl).
  rewrite Hp at 2. rewrite (components_slashes _ _ Htl), walk_app, Hr.
  now apply walk_blanks.
Qed.

Lemma mkdir_spec (t t' : tree) (cwd : loc) (p : string) :
  mkdir t cwd p = Some t' -> adds_dirs t t' /\ isdir t' cwd p = true.
Proof.
  unfold mkdir. destruct (Str.rstrip "/" p) as [|a r] eqn:Ep; [discriminate |].
  destruct (resolve t cwd (String a r)) as [k|] eqn:Er; [|discriminate].
  destruct (node_at t k) eqn:En; [discriminate |]. intros [= <-].
  pose proof (adds_dirs_insert _ _ En) as Ha. split; [exact Ha |].
  assert (Hd : is_dir_at (<[k := Dir]> t) k = true).
  { unfold is_dir_at. apply node_at_none in En as [Hk _].
    destruct k; [congruence |]. now rewrite node_at_cons, lookup_insert_eq. }
  unfold isdir. rewrite (resolve_rstrip _ _ p k); [exact Hd | | | exact Hd].
  - rewrite Ep. discriminate.
  - rewrite Ep. unfold resolve in *. simpl in *.
    eapply walk_extends; [apply adds_dirs_extends|]; eauto.
Qed.

(** [os.makedirs(p)] only adds directories, and after a success [p]
    names a directory. *)
Lemma makedirs_strict_spec (t t' : tree) (cwd : loc) (p : string) (ok : bool) :
  makedirs false t cwd p = (ok, t') ->
  adds_dirs t t' /\ (ok = true -> isdir t' cwd p = true).
Proof.
  unfold makedirs.
  destruct (Str.rstrip "/" p) as [|a r] eqn:Ep.
  { intros [= <- <-]. split; [apply adds_dirs_refl | discriminate]. }
  remember (String a r) as p' eqn:Ep'.
  assert (Hne : Str.rstrip "/" p <> "") by (rewrite Ep, Ep'; discriminate).
  assert (Hie : Str.is_empty p' = false) by now subst p'.
  remember (components p') as cs eqn:Ecs.
  assert (Hcs : cs = (removelast cs ++ [List.last cs ""])%list)
    by (subst cs; apply app_removelast_last, components_not_nil).
  destruct (match walk t (start cwd p') (removelast cs) with
            | Some k => bool_decide (is_Some (node_at t k))
            | None => false
            end).
  - cbn [negb andb]. destruct (mkdir t cwd p) as [t2|] eqn:Em.
    + intros [= <- <-]. apply mkdir_spec in Em as [? ?]. now split.
    + intros [= <- <-]. split; [apply adds_dirs_refl | discriminate].
  - destruct (mkdir_walk t (start cwd p') (removelast cs)) as [ok1 t1] eqn:Ew.
    apply mkdir_walk_spec in Ew as [Ha Hk].
    destruct ok1; cbn [negb andb].
    2:{ intros [= <- <-]. split; [exact Ha | discriminate]. }
    destruct (String.eqb (List.last cs "") ".") eqn:El.
    + intros [= <- <-]. split; [exact Ha |]. intros _.
      destruct (Hk eq_refl) as (k & Hw & Hd).
      unfold isdir. rewrite (resolve_rstrip _ _ p k); [exact Hd | exact Hne | | exact Hd].
      rewrite Ep. unfold resolve. rewrite Hie, <- Ecs, Hcs, walk_app, Hw.
      apply String.eqb_eq in El. rewrite El. simpl. now rewrite Hd.
    + destruct (mkdir t1 cwd p) as [t2|] eqn:Em.
      * intros [= <- <-]. apply mkdir_spec in Em as [? ?].
        split; [eapply adds_dirs_trans; eauto | auto].
      * intros [= <- <-]. split; [exact Ha | discriminate].
Qed.

End MakedirsFacts.

(** ** How the steps of the program touch the world *)

Section Grows.

Lemma grows_ret {A} (a : A) : grows (ret a).
Proof. intros w. split; [reflexivity | exists []]. now rewrite app_nil_r. Qed.

Lemma grows_raise {A} (e : exn) : grows (@raise A e).
Proof. intros w. split; [reflexivity | exists []]. now rewrite app_nil_r. Qed.

Lemma grows_lift {A} (r : result A) : grows (lift r).
Proof. intros w. split; [reflexivity | exists []]. now rewrite app_nil_r. Qed.

Lemma grows_print (m : message) : grows (print m).
Proof. intros w. split; [reflexivity | now exists [Printed m]]. Qed.

Lemma grows_bind {A B} (m : M A) (f : A -> M B) :
  grows m -> (forall a, grows (f a)) -> grows (bind m f).
Proof.
  intros Hm Hf w. unfold bind. destruct (Hm w) as (Hc & l & Hl).
  destruct (m w) as [[a|e] w']; simpl in *.
  - destruct (Hf a w') as (Hc' & l' & Hl'). split; [congruence |].
    exists (l ++ l')%list. now rewrite Hl', Hl, app_assoc.
  - split; [exact Hc | now exists l].
Qed.

Lemma grows_os_makedirs (p : string) (exist_ok : bool) : grows (os_makedirs p exist_ok).
Proof.
  intros w. unfold os_makedirs.
  destruct (Fs.makedirs exist_ok (fs w) (cwd w) p) as [[] t];
    (split; [reflexivity | exists []; now rewrite app_nil_r]).
Qed.

Lemma grows_open_wb_write (p : string) (d : list Byte.byte) : grows (open_wb_write p d).
Proof.
  intros w. unfold open_wb_write.
  destruct (Fs.write_file (fs w) (cwd w) p d); simpl.
  - split; [reflexivity | now exists [Wrote p d]].
  - split; [reflexivity | exists []; now rewrite app_nil_r].
Qed.

Lemma grows_except {A} (m h : M A) : grows m -> grows h -> grows (except_BadZipFile m h).
Proof.
  intros Hm Hh w. unfold except_BadZipFile. destruct (Hm w) as (Hc & l & Hl).
  destruct (m w) as [[a|e] w']; simpl in *; [split; eauto |].
  destruct e; simpl; try solve [split; eauto].
  destruct (Hh w') as (Hc' & l' & Hl'). split; [congruence |].
  exists (l ++ l')%list. now rewrite Hl', Hl, app_assoc.
Qed.

End Grows.

Create HintDb grows.
#[local] Hint Resolve grows_ret grows_raise grows_lift grows_print grows_os_makedirs
  grows_open_wb_write : grows.

Ltac grows_step :=
  first [ apply grows_bind; [|intros ?]
        | apply grows_except
        | solve [auto with grows]
        | unfold sys_exit; apply grows_raise ].

Section RunFacts.

Variable netloc_ok : string -> bool.
Variable http_get : string -> option string -> http_reply.
Variable json_loads : list Byte.byte -> option Json.value.
Variable zip_infolist : list Byte.byte -> zip_open.
Variable py_str : Json.value -> string.

Lemma grows_requests_get (url : string) (r : option string) (n : Z) :
  grows (requests_get http_get url r n).
Proof. intros w. split; [reflexivity | now exists [Requested url r n]]. Qed.

Lemma grows_bundle_name_of (body : list Byte.byte) :
  grows (bundle_name_of json_loads py_str body).
Proof.
  unfold bundle_name_of.
  destruct (json_loads body) as [[| | | | |members]|]; try apply grows_raise.
  destruct (match Json.dict_get "file" members with Some v => v | None => _ end)
    as [| | | | |fm]; try apply grows_raise.
  destruct (Json.dict_get "name" fm) as [v|]; [destruct (Json.truthy v)|];
    repeat grows_step.
Qed.

Lemma grows_download_zip (url link_url : string) :
  grows (download_zip http_get url link_url).
Proof.
  unfold download_zip.
  apply grows_bind; [apply grows_print | intros _].
  apply grows_bind; [apply grows_requests_get | intros reply].
  destruct reply as [|status content]; [|destruct (is_http_error status)];
    repeat grows_step.
Qed.

Lemma grows_extract_member (out : string) (info : ZipInfo) :
  grows (extract_member out info).
Proof.
  unfold extract_member. repeat grows_step.
  destruct (member info); repeat grows_step.
Qed.

Lemma grows_is_dir (info : ZipInfo) : grows (is_dir info).
Proof. unfold is_dir. destruct (filename info); [apply grows_raise | apply grows_ret]. Qed.

Lemma grows_extract_loop (out : string) (exts : list string) (infos : list ZipInfo)
    (total : nat) :
  grows (extract_loop out exts infos total).
Proof.
  revert total. induction infos as [|info rest IH]; intros total; cbn [extract_loop].
  - apply grows_ret.
  - apply grows_bind; [apply grows_is_dir |]. intros [|]; [apply IH |].
    destruct (matches exts (filename info)); [|apply IH].
    apply grows_bind; [apply grows_extract_member | intros _; apply IH].
Qed.

(** One turn of the loop, spelled out. *)
Lemma extract_loop_cons (out : string) (exts : list string) (info : ZipInfo)
    (rest : list ZipInfo) (total : nat) :
  extract_loop out exts (info :: rest) total
  = if Str.is_empty (filename info) then raise IndexError
    else if is_dir_name info then extract_loop out exts rest total
    else if matches exts (filename info) then
      extract_member out info >> extract_loop out exts rest (S total)
    else extract_loop out exts rest total.
Proof.
  cbn [extract_loop]. unfold bind at 1. unfold is_dir.
  destruct (filename info); [reflexivity |].
  unfold ret. cbn [Str.is_empty].
  destruct (is_dir_name info); [reflexivity |].
  now destruct (matches exts _).
Qed.

Lemma grows_extract_media (content : list Byte.byte) (out : string) (exts : list string) :
  grows (extract_media zip_infolist content out exts).
Proof.
  unfold extract_media. apply grows_except; [|repeat grows_step].
  destruct (zip_infolist content); first [apply grows_extract_loop | apply grows_raise].
Qed.

(** Lines 22-23, spelled out. *)
Lemma ensure_output_folder_eq (out : string) (w : world) :
  ensure_output_folder out w
  = if Fs.exists_ (fs w) (cwd w) out then (Ok tt, w)
    else match Fs.makedirs false (fs w) (cwd w) out with
         | (true, t) => (Ok tt, set_fs t w)
         | (false, t) => (Raise OSError, set_fs t w)
         end.
Proof.
  unfold ensure_output_folder, bind, os_path_exists, os_makedirs, ret.
  now destruct (Fs.exists_ (fs w) (cwd w) out).
Qed.

Lemma ensure_output_folder_ok (out : string) (w w1 : world) :
  ensure_output_folder out w = (Ok tt, w1) ->
  trace w1 = trace w /\ cwd w1 = cwd w /\ adds_dirs (fs w) (fs w1).
Proof.
  rewrite ensure_output_folder_eq.
  destruct (Fs.exists_ (fs w) (cwd w) out).
  - intros [= <-]. repeat split. apply adds_dirs_refl.
  - destruct (Fs.makedirs false (fs w) (cwd w) out) as [[] t] eqn:E; [|discriminate].
    intros [= <-]. repeat split. now apply makedirs_strict_spec in E as [? _].
Qed.

(** The run after the output folder is there and the link parsed. *)
Lemma fetch_bundle_parsed (url out : string) (pw : option string) (w w1 : world)
    (link_id query : string) :
  ensure_output_folder out w = (Ok tt, w1) ->
  parse_link netloc_ok url = Ok (link_id, query) ->
  fetch_bundle netloc_ok http_get json_loads py_str url out pw w
  = (let* body := fetch_metadata http_get (api_url link_id query pw) in
     let* bundle_name := bundle_name_of json_loads py_str body in
     download_zip http_get (dl_url link_id bundle_name query pw) url) w1.
Proof.
  intros He Hp. unfold fetch_bundle. unfold bind at 1. rewrite He.
  unfold bind at 1, lift. now rewrite Hp.
Qed.

Lemma parse_link_query (url : string) (p : Url.ParseResult) (link_id query : string) :
  Url.urlparse netloc_ok url = Some p ->
  parse_link netloc_ok url = Ok (link_id, query) ->
  query = if Str.is_empty (Url.query p) then "path=%2F" else Url.query p.
Proof.
  intros Hp. unfold parse_link. rewrite Hp.
  destruct (length _ <? 2)%nat; [discriminate |]. now intros [= _ <-].
Qed.

End RunFacts.

(** ** Share links as strings *)

Section ShareUrl.

Variable netloc_ok : string -> bool.

Lemma plain_app_inv (c : ascii) (s : string) :
  plain s = true -> Str.has_char c "/?#;" = true -> Str.has_char c s = false.
Proof.
  intros Hs Hc. induction s as [|a s IH]; [reflexivity |].
  cbn [plain Str.all_chars] in Hs. apply andb_true_iff in Hs as [Ha Hs].
  cbn [Str.has_char]. rewrite (IH Hs), orb_false_r.
  unfold plain_char in Ha. apply andb_true_iff in Ha as [_ Ha].
  apply negb_true_iff in Ha.
  destruct (Str.eqc a c) eqn:E; [|reflexivity].
  apply eqc_eq in E. subst. congruence.
Qed.

Lemma remove_unsafe_app (a b : string) :
  Url.remove_unsafe (a ++ b) = Url.remove_unsafe a ++ Url.remove_unsafe b.
Proof.
  induction a as [|c a IH]; [reflexivity |]. cbn [String.append Url.remove_unsafe].
  rewrite IH. now destruct (_ || _ || _).
Qed.

Lemma remove_unsafe_plain (s : string) : plain s = true -> Url.remove_unsafe s = s.
Proof.
  induction s as [|c s IH]; [reflexivity |]. intros H.
  cbn [plain Str.all_chars] in H. apply andb_true_iff in H as [Hc Hs].
  cbn [Url.remove_unsafe]. rewrite (IH Hs).
  unfold plain_char in Hc. apply andb_true_iff in Hc as [Hc _].
  apply Nat.ltb_lt in Hc.
  destruct (Str.code c =? 9)%nat eqn:E1; [apply Nat.eqb_eq in E1; lia |].
  destruct (Str.code c =? 10)%nat eqn:E2; [apply Nat.eqb_eq in E2; lia |].
  destruct (Str.code c =? 13)%nat eqn:E3; [apply Nat.eqb_eq in E3; lia |].
  reflexivity.
Qed.

Lemma span_netloc_plain (host rest : string) :
  plain host = true ->
  Url.span_netloc (host ++ String "/" rest) = (host, String "/" rest).
Proof.
  induction host as [|c h IH]; [reflexivity |]. intros H.
  cbn [plain Str.all_chars] in H. apply andb_true_iff in H as [Hc Hh].
  cbn [String.append Url.span_netloc]. rewrite (IH Hh).
  unfold plain_char in Hc. apply andb_true_iff in Hc as [_ Hc].
  apply negb_true_iff in Hc.
  assert (Hn : Str.has_char c "/?#" = false).
  { simpl in Hc |- *. repeat (apply orb_false_iff in Hc as [? Hc]).
    repeat (apply orb_false_iff; split); assumption. }
  now rewrite Hn.
Qed.

Lemma cut_absent (c : ascii) (s : string) :
  Str.has_char c s = false -> Str.cut c s = None.
Proof.
  induction s as [|x s IH]; [reflexivity |]. cbn [Str.has_char Str.cut].
  intros H. apply orb_false_iff in H as [Hx Hs]. now rewrite Hx, (IH Hs).
Qed.

Lemma cut_app_absent (c : ascii) (a b : string) :
  Str.has_char c a = false ->
  Str.cut c (a ++ b)
  = match Str.cut c b with Some (h, t) => Some (a ++ h, t) | None => None end.
Proof.
  induction a as [|x a IH]; intros H.
  - simpl. now destruct (Str.cut c b) as [[h t]|].
  - cbn [Str.has_char] in H. apply orb_false_iff in H as [Hx Ha].
    cbn [String.append Str.cut]. rewrite Hx, (IH Ha).
    now destruct (Str.cut c b) as [[h t]|].
Qed.

(** [urlparse] on [https://host/rest], spelled out. *)
Lemma urlparse_https (host u0 u v path q f : string) :
  plain host = true -> netloc_ok host = true ->
  Url.remove_unsafe u0 = u ->
  match Str.cut "#" (String "/" u) with
  | Some (a, b) => (a, b)
  | None => (String "/" u, "")
  end = (v, f) ->
  match Str.cut "?" v with
  | Some (a, b) => (a, b)
  | None => (v, "")
  end = (path, q) ->
  Str.has_char ";" path = false ->
  Url.urlparse netloc_ok ("https://" ++ host ++ String "/" u0)
  = Some {| Url.scheme := "https"; Url.netloc := host; Url.path := path;
            Url.params := ""; Url.query := q; Url.fragment := f |}.
Proof.
  intros Hh Hok Hu Hfrag Hq Hsemi. unfold Url.urlparse.
  set (Y0 := host ++ String "/" u0).
  set (Y := host ++ String "/" u).
  change (Url.lstrip_c0_space ("https://" ++ Y0)) with ("https://" ++ Y0).
  assert (HY : Url.remove_unsafe ("https://" ++ Y0) = "https://" ++ Y).
  { rewrite remove_unsafe_app. unfold Y0, Y.
    rewrite (remove_unsafe_app host (String "/" u0)), (remove_unsafe_plain _ Hh).
    change (Url.remove_unsafe (String "/" u0)) with (String "/" (Url.remove_unsafe u0)).
    now rewrite Hu. }
  rewrite HY.
  change (Url.split_scheme ("https://" ++ Y)) with ("https", "//" ++ Y).
  cbv beta iota zeta.
  change (Str.startswith ("//" ++ Y) "//") with true. cbv beta iota zeta.
  change (Str.drop 2 ("//" ++ Y)) with Y. unfold Y.
  rewrite (span_netloc_plain host u Hh). cbv beta iota zeta.
  rewrite Hfrag. cbv beta iota zeta. rewrite Hq. cbv beta iota zeta.
  rewrite Hsemi, andb_false_r. cbv beta iota zeta. now rewrite Hok.
Qed.

(** A share link [https://host/links/<id>], with or without a query: the
    parsed path is [/links/<id>]. *)
Lemma share_url_path (host id tail : string) :
  plain host = true -> plain id = true -> netloc_ok host = true ->
  query_tail tail = true ->
  exists p, Url.urlparse netloc_ok ("https://" ++ host ++ "/links/" ++ id ++ tail) = Some p
            /\ Url.path p = "/links/" ++ id.
Proof.
  intros Hh Hi Hok Ht.
  set (tail' := Url.remove_unsafe tail).
  assert (Ht' : query_tail tail' = true).
  { unfold tail'. destruct tail as [|c t]; [reflexivity |].
    unfold query_tail in Ht. apply eqc_eq in Ht. subst c. reflexivity. }
  assert (Hu : Url.remove_unsafe ("links/" ++ id ++ tail) = "links/" ++ id ++ tail').
  { rewrite (remove_unsafe_app "links/"), (remove_unsafe_app id), (remove_unsafe_plain _ Hi).
    reflexivity. }
  clearbody tail'.
  set (path := "/links/" ++ id).
  assert (Hpath : forall c, Str.has_char c "/?#;" = true ->
                             Str.has_char c "/links/" = false ->
                             Str.has_char c path = false).
  { intros c Hc Hl. unfold path.
    now rewrite has_char_app, Hl, (plain_app_inv c id Hi Hc). }
  pose proof (Hpath "#"%char eq_refl eq_refl) as Hhash.
  pose proof (Hpath "?"%char eq_refl eq_refl) as Hquery.
  pose proof (Hpath ";"%char eq_refl eq_refl) as Hsemi.
  assert (Epath : String "/" ("links/" ++ id ++ tail') = path ++ tail').
  { unfold path. now rewrite append_assoc. }
  assert (Hcut : exists v q f,
             match Str.cut "#" (path ++ tail') with
             | Some (a, b) => (a, b)
             | None => (path ++ tail', "")
             end = (v, f)
             /\ match Str.cut "?" v with
                | Some (a, b) => (a, b)
                | None => (v, "")
                end = (path, q)).
  { clearbody path. clear Hpath Epath.
    rewrite (cut_app_absent "#" path tail' Hhash).
    destruct tail' as [|c t].
    - exists path, "", "". cbn [Str.cut]. rewrite append_empty_r.
      split; [reflexivity |]. now rewrite (cut_absent "?" path Hquery).
    - unfold query_tail in Ht'. apply eqc_eq in Ht'. subst c.
      change (Str.cut "#" (String "?" t))
        with (match Str.cut "#" t with
              | Some (h, t0) => Some (String "?" h, t0)
              | None => None
              end).
      destruct (Str.cut "#" t) as [[h f]|].
      + exists (path ++ String "?" h), h, f. split; [reflexivity |].
        rewrite (cut_app_absent "?" path _ Hquery).
        change (Str.cut "?" (String "?" h)) with (Some ("", h)).
        cbv beta iota. now rewrite append_empty_r.
      + exists (path ++ String "?" t), t, "". split; [reflexivity |].
        rewrite (cut_app_absent "?" path _ Hquery).
        change (Str.cut "?" (String "?" t)) with (Some ("", t)).
        cbv beta iota. now rewrite append_empty_r. }
  destruct Hcut as (v & q & f & Hfrag & Hq).
  rewrite <- Epath in Hfrag.
  eexists. split.
  - exact (urlparse_https host ("links/" ++ id ++ tail) ("links/" ++ id ++ tail')
             v path q f Hh Hok Hu Hfrag Hq Hsemi).
  - reflexivity.
Qed.

Lemma find_marker_plain (id : string) : plain id = true -> Str.find "/links/" id = None.
Proof.
  induction id as [|c s IH]; [reflexivity |]. intros H.
  cbn [plain Str.all_chars] in H. apply andb_true_iff in H as [Hc Hs].
  unfold plain_char in Hc. apply andb_true_iff in Hc as [_ Hc].
  apply negb_true_iff in Hc. cbn [Str.has_char] in Hc.
  apply orb_false_iff in Hc as [Hc _].
  cbn [Str.find Str.startswith]. rewrite Hc. cbn [andb].
  now rewrite (IH Hs).
Qed.

(** The identifier of a share link [https://host/links/<id>], followed or
    not by a query [?...], is [<id>]. *)
Lemma share_link_id (host id tail : string) :
  plain host = true -> plain id = true -> netloc_ok host = true ->
  query_tail tail = true ->
  exists query,
    parse_link netloc_ok ("https://" ++ host ++ "/links/" ++ id ++ tail) = Ok (id, query).
Proof.
  intros Hh Hi Hok Ht.
  destruct (share_url_path host id tail Hh Hi Hok Ht) as (p & Hp & Hpath).
  eexists. apply (parse_link_marker netloc_ok _ p "" id Hp Hpath).
  - rewrite Hpath. reflexivity.
  - now apply find_marker_plain.
Qed.

End ShareUrl.

(** ** The link parser and the metadata request *)

Section LinkProperties.

Variable netloc_ok : string -> bool.
Variable http_get : string -> option string -> http_reply.
Variable json_loads : list Byte.byte -> option Json.value.
Variable zip_infolist : list Byte.byte -> zip_open.
Variable py_str : Json.value -> string.

Let run := download_and_extract_media_from_koofr
             netloc_ok http_get json_loads zip_infolist py_str.

(** What follows a step only appends to the trace that step left. *)
Lemma bind_extends {A B} (m : M A) (f : A -> M B) (w : world) :
  (forall a, grows (f a)) ->
  exists l, trace (snd (bind m f w)) = (trace (snd (m w)) ++ l)%list.
Proof.
  intros Hf. unfold bind. destruct (m w) as [[a|e] w']; simpl.
  - apply Hf.
  - exists []. now rewrite app_nil_r.
Qed.

(** The metadata step announces itself and sends its request before
    anything else. *)
Lemma fetch_metadata_trace (u : string) (w : world) :
  exists l, trace (snd (fetch_metadata http_get u w))
            = (trace w ++ Printed (MsgFetching u) :: Requested u None 30 :: l)%list.
Proof.
  unfold fetch_metadata. cbv [bind print requests_get log].
  destruct (http_get u None) as [|status content]; simpl.
  - eexists. rewrite <- !app_assoc. reflexivity.
  - destruct (is_http_error status); simpl.
    + destruct (status =? 404)%Z; [|destruct (status =? 403)%Z]; simpl;
        eexists; rewrite <- !app_assoc; reflexivity.
    + eexists. rewrite <- !app_assoc. reflexivity.
Qed.

(** C3: when the parsed path of the share URL is [pre ++ "/links/" ++ id],
    this marker being the first one in the path and [id] holding no
    further marker, the parser extracts exactly [id].  A query string
    [?...] after the identifier is not part of the parsed path, so it
    never reaches the identifier. *)
Theorem link_id_extracted (url : string) (p : Url.ParseResult) (pre id : string) :
  Url.urlparse netloc_ok url = Some p ->
  Url.path p = pre ++ "/links/" ++ id ->
  Str.find "/links/" (Url.path p) = Some (String.length pre) ->
  Str.contains "/links/" id = false ->
  exists query, parse_link netloc_ok url = Ok (id, query)
                /\ Str.has_char "?" id = false.
Proof.
  intros Hp Hpath Hfirst Hrest. eexists. split.
  - eapply parse_link_marker; eauto.
    unfold Str.contains in Hrest. now destruct (Str.find "/links/" id).
  - pose proof (urlparse_path_no_query _ _ _ Hp) as Hq.
    rewrite Hpath, !has_char_app in Hq.
    apply orb_false_iff in Hq as [_ Hq]. now apply orb_false_iff in Hq as [_ Hq].
Qed.

(** C4: a URL whose parsed path does not contain [/links/] makes the run
    raise the invalid-link error right after the output folder step;
    nothing was requested (nothing at all was added to the trace). *)
Theorem missing_marker_rejected (url out : string) (exts : option (list string))
    (pw : option string) (p : Url.ParseResult) (w w1 : world) :
  ensure_output_folder out w = (Ok tt, w1) ->
  Url.urlparse netloc_ok url = Some p ->
  Str.contains "/links/" (Url.path p) = false ->
  run url out exts pw w = (Raise InvalidLinkFormat, w1)
  /\ trace w1 = trace w
  /\ requests_of (trace w1) = requests_of (trace w).
Proof.
  intros He Hp Hc. apply ensure_output_folder_ok in He as Hw. destruct Hw as (Ht & _ & _).
  split; [|split; [exact Ht | now rewrite Ht]].
  unfold run, download_and_extract_media_from_koofr, fetch_bundle.
  unfold bind at 1. unfold bind at 1. unfold bind at 1. rewrite He.
  unfold lift. now rewrite (parse_link_no_marker _ _ _ Hp Hc).
Qed.

(** C6: once the link is parsed, the first thing the run does is the
    metadata request, a GET of
    [{base}/api/v2/public/links/{linkId}/bundle?{query}&password={password}]
    with the query of the share URL (or [path=%2F] when it has none) and
    the quoted password (empty when none is given). *)
Theorem metadata_request_url (url out : string) (exts : option (list string))
    (pw : option string) (p : Url.ParseResult) (link_id query : string) (w w1 : world) :
  ensure_output_folder out w = (Ok tt, w1) ->
  Url.urlparse netloc_ok url = Some p ->
  parse_link netloc_ok url = Ok (link_id, query) ->
  let target :=
    "https://app.koofr.net" ++ "/api/v2/public/links/" ++ link_id ++ "/bundle?"
      ++ (if Str.is_empty (Url.query p) then "path=%2F" else Url.query p)
      ++ "&password=" ++ match pw with Some s => Url.quote s | None => "" end in
  exists later,
    trace (snd (run url out exts pw w))
    = (trace w ++ Printed (MsgFetching target) :: Requested target None 30 :: later)%list.
Proof.
  intros He Hp Hl target.
  assert (Ht : target = api_url link_id query pw).
  { unfold target, api_url. rewrite (parse_link_query _ _ _ _ _ Hp Hl).
    cbn [String.append]. repeat f_equal.
    destruct pw as [[|c s]|]; reflexivity. }
  rewrite Ht. clear Ht target.
  apply ensure_output_folder_ok in He as Hw. destruct Hw as (Htr & _ & _).
  unfold run, download_and_extract_media_from_koofr.
  destruct (bind_extends (fetch_bundle netloc_ok http_get json_loads py_str url out pw)
              (fun content =>
                 let* total_extracted :=
                   extract_media zip_infolist content out
                     match exts with Some l => l | None => default_media_extensions end in
                 print (MsgDone total_extracted out)) w) as (l1 & ->).
  { intros content. apply grows_bind; [apply grows_extract_media | intros; apply grows_print]. }
  rewrite (fetch_bundle_parsed netloc_ok http_get json_loads py_str
             url out pw w w1 link_id query He Hl).
  destruct (bind_extends (fetch_metadata http_get (api_url link_id query pw))
              (fun body =>
                 let* bundle_name := bundle_name_of json_loads py_str body in
                 download_zip http_get (dl_url link_id bundle_name query pw) url) w1)
    as (l2 & ->).
  { intros body. apply grows_bind; [apply grows_bundle_name_of |].
    intros; apply grows_download_zip. }
  destruct (fetch_metadata_trace (api_url link_id query pw) w1) as (l3 & ->).
  rewrite Htr. exists (l3 ++ l2 ++ l1)%list.
  rewrite <- !app_assoc. reflexivity.
Qed.

(** C10: the output folder comes first.  When it is missing, the run
    starts by creating it: if that fails, the run ends there with the
    [OSError], whatever the URL; if it succeeds, the folder is a
    directory from then on, and a URL without [/links/] still ends the run
    with the invalid-link error, in a world that differs from the initial
    one by added directories only. *)
Theorem output_folder_created_first (url out : string) (exts : option (list string))
    (pw : option string) (w : world) (ok : bool) (t : Fs.tree) :
  Fs.exists_ (fs w) (cwd w) out = false ->
  Fs.makedirs false (fs w) (cwd w) out = (ok, t) ->
  adds_dirs (fs w) t
  /\ (ok = false -> run url out exts pw w = (Raise OSError, set_fs t w))
  /\ (ok = true ->
      Fs.isdir t (cwd w) out = true
      /\ forall p, Url.urlparse netloc_ok url = Some p ->
                   Str.contains "/links/" (Url.path p) = false ->
                   run url out exts pw w = (Raise InvalidLinkFormat, set_fs t w)).
Proof.
  intros Hex Hmk. destruct (makedirs_strict_spec _ _ _ _ _ Hmk) as [Ha Hd].
  assert (He : ensure_output_folder out w
               = if ok then (Ok tt, set_fs t w) else (Raise OSError, set_fs t w)).
  { rewrite ensure_output_folder_eq, Hex, Hmk. now destruct ok. }
  split; [exact Ha |]. split.
  - intros ->. unfold run, download_and_extract_media_from_koofr, fetch_bundle.
    unfold bind at 1. unfold bind at 1. now rewrite He.
  - intros ->. split; [now apply Hd |]. intros p Hp Hc.
    unfold run, download_and_extract_media_from_koofr, fetch_bundle.
    unfold bind at 1. unfold bind at 1. unfold bind at 1. rewrite He.
    unfold lift. now rewrite (parse_link_no_marker _ _ _ Hp Hc).
Qed.

(** The empty-bundle exit, where the code reaches it: when the metadata
    reply is not an HTTP error and its body decodes to an object in which
    [file] is absent, or is an object whose [name] is absent or false in a
    boolean test (empty, null, zero), the run prints the empty-bundle
    message and exits with status 1; the metadata request is the only
    request made. *)
Theorem empty_bundle_aborts (url out : string) (exts : option (list string))
    (pw : option string) (link_id query : string) (status : Z)
    (body : list Byte.byte) (members : list (string * Json.value)) (w w1 : world) :
  ensure_output_folder out w = (Ok tt, w1) ->
  parse_link netloc_ok url = Ok (link_id, query) ->
  http_get (api_url link_id query pw) None = Reply status body ->
  is_http_error status = false ->
  json_loads body = Some (Json.JObj members) ->
  name_absent_or_falsy members = true ->
  let u := api_url link_id query pw in
  run url out exts pw w
  = (Raise (SystemExit 1),
     log (Printed MsgNoBundle) (log (Requested u None 30) (log (Printed (MsgFetching u)) w1)))
  /\ requests_of (trace (snd (run url out exts pw w)))
     = (requests_of (trace w) ++ [(u, None, 30%Z)])%list.
Proof.
  intros He Hl Hh Hs Hj Hn u. subst u.
  assert (Hrun : run url out exts pw w
                 = (Raise (SystemExit 1),
                    log (Printed MsgNoBundle)
                      (log (Requested (api_url link_id query pw) None 30)
                         (log (Printed (MsgFetching (api_url link_id query pw))) w1)))).
  { unfold run, download_and_extract_media_from_koofr.
    unfold bind at 1.
    rewrite (fetch_bundle_parsed netloc_ok http_get json_loads py_str
               url out pw w w1 link_id query He Hl).
    unfold fetch_metadata.
    cbv beta delta [bind print requests_get ret] iota. rewrite Hh, Hs.
    unfold bundle_name_of. rewrite Hj.
    unfold name_absent_or_falsy in Hn.
    destruct (Json.dict_get "file" members) as [[| | | | |fm]|]; try discriminate.
    - destruct (Json.dict_get "name" fm) as [v|].
      + apply negb_true_iff in Hn. rewrite Hn. reflexivity.
      + reflexivity.
    - reflexivity. }
  split; [exact Hrun |]. rewrite Hrun. simpl.
  apply ensure_output_folder_ok in He as (-> & _ & _).
  unfold requests_of. rewrite !omap_app. simpl. now rewrite !app_nil_r.
Qed.

End LinkProperties.

(** ** Extraction *)

Section ExtractFacts.

Import Fs.

Lemma write_file_spec (t t' : tree) (cwd : loc) (p : string) (d : list Byte.byte) :
  write_file t cwd p d = Some t' ->
  exists k, resolve t cwd p = Some k /\ k <> [] /\ t !! k <> Some Dir
            /\ t' = <[k := File d]> t.
Proof.
  unfold write_file. destruct (resolve t cwd p) as [k|]; [|discriminate].
  intros H. exists k. split; [reflexivity |].
  destruct k as [|c k]; [discriminate |]. rewrite node_at_cons in H.
  split; [discriminate |].
  destruct (t !! (c :: k)) as [[|d']|]; [discriminate | |];
    injection H as <-; (split; [congruence | reflexivity]).
Qed.

Lemma write_file_replay (t g : tree) (cwd : loc) (p : string) (d : list Byte.byte)
    (k : loc) :
  resolve t cwd p = Some k -> k <> [] -> extends t g ->
  (exists d', g !! k = Some (File d')) ->
  write_file g cwd p d = Some (<[k := File d]> g).
Proof.
  intros Hr Hk He [d' Hd]. unfold write_file, resolve in *.
  destruct (Str.is_empty p); [discriminate |].
  rewrite (walk_extends _ _ _ _ _ He Hr).
  destruct k; [congruence |]. now rewrite node_at_cons, Hd.
Qed.

Lemma makedirs_exist_ok_spec (t t1 : tree) (cwd : loc) (p : string) (ok : bool) :
  makedirs true t cwd p = (ok, t1) ->
  adds_dirs t t1
  /\ (ok = true -> forall g, extends t1 g -> makedirs true g cwd p = (true, g)).
Proof.
  unfold makedirs. destruct (Str.is_empty p).
  - intros [= <- <-]. split; [apply adds_dirs_refl | discriminate].
  - intros H. split; [now apply mkdir_walk_spec in H as [? _] |].
    intros -> g Hg. eapply mkdir_walk_replay; eauto.
Qed.

Variable out : string.
Variable exts : list string.

(** What one successful pass through the loop body did. *)
Lemma extract_member_ok (info : ZipInfo) (w w' : world) :
  extract_member out info w = (Ok tt, w') ->
  exists t1 t2 d,
    member info = Stored d
    /\ makedirs true (fs w) (cwd w) (OsPath.dirname (extract_path out (filename info)))
       = (true, t1)
    /\ write_file t1 (cwd w) (extract_path out (filename info)) d = Some t2
    /\ w' = log (Printed (MsgExtracted (filename info)))
              (log (Wrote (extract_path out (filename info)) d) (set_fs t2 w)).
Proof.
  unfold extract_member, bind, os_makedirs, open_wb_write, print, raise.
  destruct (makedirs true _ _ _) as [[] t1]; [|discriminate].
  destruct (member info) as [d| |]; simpl.
  - destruct (write_file t1 (cwd w) _ d) as [t2|] eqn:E; [|discriminate].
    intros [= <-]. now exists t1, t2, d.
  - discriminate.
  - destruct (write_file t1 (cwd w) _ []); discriminate.
Qed.

Lemma writes_of_app (a b : list event) : writes_of (a ++ b) = (writes_of a ++ writes_of b)%list.
Proof. apply omap_app. Qed.

Lemma loop_writes (infos : list ZipInfo) (total n : nat) (w w' : world) :
  extract_loop out exts infos total w = (Ok n, w') ->
  writes_of (trace w') = (writes_of (trace w) ++ expected_writes out exts infos)%list
  /\ n = (total + length (List.filter (selected exts) infos))%nat.
Proof.
  unfold expected_writes.
  revert total w. induction infos as [|info rest IH]; intros total w;
    [|rewrite extract_loop_cons]; simpl.
  - intros [= <- <-]. now rewrite app_nil_r, Nat.add_0_r.
  - destruct (Str.is_empty (filename info)); [discriminate |].
    assert (Es : selected exts info
                 = negb (is_dir_name info) && matches exts (filename info))
      by reflexivity.
    rewrite !Es. clear Es.
    destruct (is_dir_name info); simpl; [apply IH |].
    destruct (matches exts (filename info)); simpl; [|apply IH].
    unfold bind at 1.
    destruct (extract_member out info w) as [[[]|e] w1] eqn:E; [|discriminate].
    intros H. apply IH in H as [Hw Hn].
    apply extract_member_ok in E as (t1 & t2 & d & Hm & _ & _ & ->).
    split; [|lia].
    rewrite Hw. simpl. rewrite !writes_of_app. simpl.
    unfold stored_data. rewrite Hm. now rewrite app_nil_r, <- app_assoc.
Qed.

Lemma kept_trans (w w1 w2 v v1 v2 : tree) :
  kept w w1 v v1 -> kept w1 w2 v1 v2 -> kept w w2 v v2.
Proof.
  intros H1 H2 k. destruct (H2 k) as [E|[E1 E2]]; [now left |].
  destruct (H1 k) as [F|[F1 F2]]; [left | right; split]; congruence.
Qed.

Lemma resolve_extends (t g : tree) (cwd k : loc) (p : string) :
  extends t g -> resolve t cwd p = Some k -> resolve g cwd p = Some k.
Proof.
  unfold resolve. destruct (Str.is_empty p); [discriminate |]. apply walk_extends.
Qed.

(** Whatever happens, what the loop writes is an initial part of the
    selected members, in order. *)
Lemma loop_writes_prefix (infos : list ZipInfo) (total : nat) (w : world) :
  exists l, l `prefix_of` expected_writes out exts infos
            /\ writes_of (trace (snd (extract_loop out exts infos total w)))
               = (writes_of (trace w) ++ l)%list.
Proof.
  unfold expected_writes.
  revert total w. induction infos as [|info rest IH]; intros total w;
    [|rewrite extract_loop_cons]; simpl.
  - exists []. split; [apply prefix_nil | now rewrite app_nil_r].
  - destruct (Str.is_empty (filename info)).
    { exists []. split; [apply prefix_nil | now rewrite app_nil_r]. }
    assert (Es : selected exts info
                 = negb (is_dir_name info) && matches exts (filename info))
      by reflexivity.
    rewrite Es. clear Es.
    destruct (is_dir_name info); simpl; [apply IH |].
    destruct (matches exts (filename info)); simpl; [|apply IH].
    unfold bind at 1.
    set (tl := map (fun i => (extract_path out (filename i), stored_data i))
                  (List.filter (selected exts) rest)) in *.
    assert (Hstop : forall (w0 : world) x,
               trace w0 = trace w ->
               exists l, l `prefix_of` (x :: tl)
                         /\ writes_of (trace w0) = (writes_of (trace w) ++ l)%list).
    { intros w0 x Hw0. exists []. split; [apply prefix_nil |].
      now rewrite Hw0, app_nil_r. }
    unfold extract_member, bind, os_makedirs, open_wb_write, print, raise.
    destruct (makedirs true _ _ _) as [[] t1]; [|simpl; now apply Hstop].
    unfold stored_data at 1.
    destruct (member info) as [d| |]; simpl.
    + destruct (write_file t1 (cwd w) _ d) as [t2|]; [|simpl; now apply Hstop].
      match goal with
      | |- context [extract_loop out exts rest (S total) ?w1] =>
          destruct (IH (S total) w1) as (l & Hl & ->)
      end.
      eexists. split; [apply prefix_cons, Hl |].
      simpl. rewrite !writes_of_app. simpl. now rewrite app_nil_r, <- app_assoc.
    + now apply Hstop.
    + destruct (write_file t1 (cwd w) _ []) as [t2|]; [|simpl; now apply Hstop].
      eexists. split; [apply prefix_cons, prefix_nil |].
      simpl. rewrite writes_of_app. reflexivity.
Qed.

End ExtractFacts.

(** ** Running the extraction again *)

Section Replay.

Import Fs.

Lemma similar_refl (t : tree) : similar t t.
Proof. split; apply extends_refl. Qed.

Lemma similar_trans (a b c : tree) : similar a b -> similar b c -> similar a c.
Proof. intros [H1 H2] [H3 H4]. split; eapply extends_trans; eauto. Qed.

Lemma similar_is_dir_at (t g : tree) (k : loc) :
  similar t g -> is_dir_at g k = is_dir_at t k.
Proof.
  intros [H1 H2].
  destruct (is_dir_at t k) eqn:E.
  - now apply (extends_is_dir_at t g k H1).
  - destruct (is_dir_at g k) eqn:E'; [|reflexivity].
    apply (extends_is_dir_at g t k H2) in E'. congruence.
Qed.

Lemma similar_walk (t g : tree) (cs : list string) (cur : loc) :
  similar t g -> walk g cur cs = walk t cur cs.
Proof.
  intros H. revert cur. induction cs as [|c cs IH]; intros cur; simpl; [reflexivity |].
  rewrite (similar_is_dir_at _ _ _ H). now destruct (is_dir_at t cur).
Qed.

Lemma similar_node_none (t g : tree) (k : loc) :
  similar t g -> node_at t k = None -> node_at g k = None.
Proof.
  intros [_ H] Hn. destruct k as [|c k]; [discriminate |].
  rewrite node_at_cons in *. specialize (H (c :: k)).
  destruct (g !! (c :: k)) as [[|d]|]; [congruence | | reflexivity].
  destruct H as [d' H]. congruence.
Qed.

Lemma similar_write (t : tree) (k : loc) (d : list Byte.byte) :
  (exists d', t !! k = Some (File d')) -> similar t (<[k := File d]> t).
Proof.
  intros [d' Hd]. split.
  - apply extends_write. congruence.
  - intros k'. destruct (decide (k = k')) as [<-|Hne].
    + rewrite lookup_insert_eq. eauto.
    + rewrite lookup_insert_ne by assumption. destruct (t !! k') as [[|d'']|]; eauto.
Qed.

(** A creating resolution that failed fails again, and creates nothing,
    in a tree like the one it left. *)
Lemma mkdir_walk_fails_again (cs : list string) (t t' g : tree) (cur : loc) :
  mkdir_walk t cur cs = (false, t') -> similar t' g -> mkdir_walk g cur cs = (false, g).
Proof.
  revert t cur. induction cs as [|c cs IH]; intros t cur; simpl.
  - intros [= Hd <-] Hs. now rewrite (similar_is_dir_at _ _ _ Hs), Hd.
  - destruct (is_dir_at t cur) eqn:Ecur.
    2:{ intros [= <-] Hs. now rewrite (similar_is_dir_at _ _ _ Hs), Ecur. }
    intros H Hs.
    assert (Ha : adds_dirs t t').
    { destruct (node_at t (step cur c)) eqn:En.
      - now apply mkdir_walk_spec in H as [? _].
      - apply mkdir_walk_spec in H as [H _].
        eapply adds_dirs_trans; [apply adds_dirs_insert|]; eauto. }
    pose proof (adds_dirs_extends _ _ Ha) as He.
    rewrite (similar_is_dir_at _ _ _ Hs), (extends_is_dir_at _ _ _ He Ecur).
    assert (Hk : exists x, node_at g (step cur c) = Some x).
    { destruct (node_at g (step cur c)) eqn:Eg; [eauto |].
      apply (similar_node_none g t') in Eg; [|destruct Hs; now split].
      destruct (node_at t (step cur c)) eqn:En.
      - destruct (step cur c) as [|c' k']; [discriminate |].
        rewrite node_at_cons in *. specialize (He (c' :: k')). rewrite En in He.
        destruct n as [|d]; [congruence | destruct He; congruence].
      - apply mkdir_walk_spec in H as [H _].
        apply node_at_none in En as [Hne _].
        destruct (step cur c) as [|c' k']; [congruence |].
        rewrite node_at_cons in Eg. destruct (H (c' :: k')) as [E|[E _]].
        + rewrite lookup_insert_eq in E. congruence.
        + rewrite lookup_insert_eq in E. discriminate. }
    destruct Hk as [x ->].
    destruct (node_at t (step cur c)); eapply IH; eauto.
Qed.

Lemma makedirs_fails_again (t t' g : tree) (cwd : loc) (p : string) :
  makedirs true t cwd p = (false, t') -> similar t' g -> makedirs true g cwd p = (false, g).
Proof.
  unfold makedirs. destruct (Str.is_empty p); [reflexivity |].
  apply mkdir_walk_fails_again.
Qed.

Lemma write_file_fails_again (t g : tree) (cwd : loc) (p : string) (d : list Byte.byte) :
  write_file t cwd p d = None -> similar t g -> write_file g cwd p d = None.
Proof.
  unfold write_file, resolve. intros H Hs.
  destruct (Str.is_empty p); [reflexivity |].
  rewrite (similar_walk _ _ _ _ Hs).
  destruct (walk t (start cwd p) (components p)) as [k|]; [|reflexivity].
  destruct (node_at t k) as [[|d']|] eqn:En; try discriminate.
  assert (Hd : is_dir_at t k = true) by (unfold is_dir_at; now rewrite En).
  rewrite <- (similar_is_dir_at _ _ _ Hs) in Hd. unfold is_dir_at in Hd.
  now destruct (node_at g k) as [[|d']|].
Qed.

Lemma kept_dirs (w t1 v : tree) : adds_dirs w t1 -> extends t1 v -> kept w t1 v v.
Proof.
  intros Ha He k. destruct (Ha k) as [E|[E1 E2]]; [now right |].
  left. specialize (He k). rewrite E2 in He |- *. exact He.
Qed.

Lemma kept_write (w t1 v : tree) (k : loc) (d : list Byte.byte) :
  adds_dirs w t1 -> extends (<[k := File d]> t1) v ->
  kept w (<[k := File d]> t1) v (<[k := File d]> v).
Proof.
  intros Ha He k'. destruct (decide (k = k')) as [<-|Hne].
  - left. now rewrite !lookup_insert_eq.
  - rewrite !lookup_insert_ne by assumption.
    destruct (Ha k') as [E|[E1 E2]]; [now right |].
    left. specialize (He k'). rewrite lookup_insert_ne, E2 in He by assumption.
    congruence.
Qed.

Variable out : string.
Variable exts : list string.

(** One pass through the loop body, and the same pass in a world [v]
    shaped like a tree [F] that the first run reached later; when the
    first pass failed, [F] is the tree it left. *)
Lemma extract_member_again (info : ZipInfo) (w : world) :
  extends (fs w) (fs (snd (extract_member out info w)))
  /\ cwd (snd (extract_member out info w)) = cwd w
  /\ forall (F : tree) (v : world),
       extends (fs (snd (extract_member out info w))) F ->
       (fst (extract_member out info w) <> Ok tt ->
        F = fs (snd (extract_member out info w))) ->
       cwd v = cwd w -> similar F (fs v) ->
       fst (extract_member out info v) = fst (extract_member out info w)
       /\ cwd (snd (extract_member out info v)) = cwd v
       /\ similar (fs v) (fs (snd (extract_member out info v)))
       /\ kept (fs w) (fs (snd (extract_member out info w)))
               (fs v) (fs (snd (extract_member out info v))).
Proof.
  unfold extract_member, bind, os_makedirs, open_wb_write, print, raise.
  set (p := extract_path out (filename info)).
  destruct (makedirs true (fs w) (cwd w) (OsPath.dirname p)) as [ok t1] eqn:Emk.
  pose proof (makedirs_exist_ok_spec _ _ _ _ _ Emk) as [Ha Hre].
  pose proof (adds_dirs_extends _ _ Ha) as He1.
  assert (Hself : forall v, set_fs (fs v) v = v) by now intros [].
  destruct ok.
  2:{ cbn [fst snd fs cwd trace set_fs log]. split; [exact He1 |]. split; [reflexivity |].
      intros F v _ HF Hc Hs. rewrite (HF ltac:(discriminate)) in Hs.
      assert (Hmk' : makedirs true (fs v) (cwd v) (OsPath.dirname p) = (false, fs v))
        by (rewrite Hc; eapply makedirs_fails_again; eauto).
      rewrite Hmk', Hself. cbn [fst snd fs cwd trace set_fs log].
      split; [reflexivity |]. split; [reflexivity |]. split; [apply similar_refl |].
      apply kept_dirs; [exact Ha | apply Hs]. }
  assert (Hmk : forall F v, extends t1 F -> cwd v = cwd w -> similar F (fs v) ->
            makedirs true (fs v) (cwd v) (OsPath.dirname p) = (true, fs v)).
  { intros F v HF Hc [Hs _]. rewrite Hc. apply (Hre eq_refl).
    eapply extends_trans; eauto. }
  assert (Hwr : forall d,
            match write_file t1 (cwd w) p d with
            | Some t2 =>
                extends t1 t2
                /\ forall F v, extends t2 F -> cwd v = cwd w -> similar F (fs v) ->
                     exists g2, write_file (fs v) (cwd v) p d = Some g2
                                /\ similar (fs v) g2 /\ kept (fs w) t2 (fs v) g2
            | None =>
                forall v, cwd v = cwd w -> similar t1 (fs v) ->
                  write_file (fs v) (cwd v) p d = None
            end).
  { intros d. destruct (write_file t1 (cwd w) p d) as [t2|] eqn:Ew.
    - apply write_file_spec in Ew as (k & Hr & Hk & Hnd & ->).
      pose proof (extends_write t1 k d Hnd) as He12.
      split; [exact He12 |].
      intros F v HF Hc Hs.
      assert (Hv : extends (<[k := File d]> t1) (fs v))
        by (eapply extends_trans; [exact HF | apply Hs]).
      assert (Hfile : exists d', fs v !! k = Some (File d')).
      { specialize (Hv k). now rewrite lookup_insert_eq in Hv. }
      exists (<[k := File d]> (fs v)). split; [|split].
      + rewrite Hc. eapply write_file_replay; eauto.
        eapply extends_trans; eauto.
      + now apply similar_write.
      + now apply kept_write.
    - intros v Hc Hs. rewrite Hc. eapply write_file_fails_again; eauto. }
  assert (Hstop : forall v, cwd v = cwd w -> similar t1 (fs v) ->
            similar (fs v) (fs v) /\ kept (fs w) t1 (fs v) (fs v)).
  { intros v _ Hs. split; [apply similar_refl | apply kept_dirs; [exact Ha | apply Hs]]. }
  destruct (member info) as [d| |]; cbn [fst snd fs cwd trace set_fs log].
  - specialize (Hwr d).
    destruct (write_file t1 (cwd w) p d) as [t2|]; cbn [fst snd fs cwd trace set_fs log].
    + destruct Hwr as [He2 Hwr].
      split; [eapply extends_trans; eauto |]. split; [reflexivity |].
      intros F v HF _ Hc Hs.
      rewrite (Hmk F v (extends_trans _ _ _ He2 HF) Hc Hs), Hself.
      destruct (Hwr F v HF Hc Hs) as (g2 & -> & Hs2 & Hk2). cbn [fst snd fs cwd trace set_fs log].
      split; [reflexivity |]. split; [reflexivity |]. split; assumption.
    + split; [exact He1 |]. split; [reflexivity |].
      intros F v _ HF Hc Hs. rewrite (HF ltac:(discriminate)) in Hs.
      rewrite (Hmk t1 v (extends_refl _) Hc Hs), Hself, (Hwr v Hc Hs). cbn [fst snd fs cwd trace set_fs log].
      destruct (Hstop v Hc Hs).
      split; [reflexivity |]. split; [reflexivity |]. split; assumption.
  - split; [exact He1 |]. split; [reflexivity |].
    intros F v _ HF Hc Hs. rewrite (HF ltac:(discriminate)) in Hs.
    rewrite (Hmk t1 v (extends_refl _) Hc Hs), Hself. cbn [fst snd fs cwd trace set_fs log].
    destruct (Hstop v Hc Hs).
      split; [reflexivity |]. split; [reflexivity |]. split; assumption.
  - specialize (Hwr []).
    destruct (write_file t1 (cwd w) p []) as [t2|]; cbn [fst snd fs cwd trace set_fs log].
    + destruct Hwr as [He2 Hwr].
      split; [eapply extends_trans; eauto |]. split; [reflexivity |].
      intros F v _ HF Hc Hs. rewrite (HF ltac:(discriminate)) in Hs.
      rewrite (Hmk t2 v He2 Hc Hs), Hself.
      destruct (Hwr t2 v (extends_refl _) Hc Hs) as (g2 & -> & Hs2 & Hk2). cbn [fst snd fs cwd trace set_fs log].
      split; [reflexivity |]. split; [reflexivity |]. split; assumption.
    + split; [exact He1 |]. split; [reflexivity |].
      intros F v _ HF Hc Hs. rewrite (HF ltac:(discriminate)) in Hs.
      rewrite (Hmk t1 v (extends_refl _) Hc Hs), Hself, (Hwr v Hc Hs). cbn [fst snd fs cwd trace set_fs log].
      destruct (Hstop v Hc Hs).
      split; [reflexivity |]. split; [reflexivity |]. split; assumption.
Qed.

Lemma loop_again (infos : list ZipInfo) (total : nat) (w : world) :
  extends (fs w) (fs (snd (extract_loop out exts infos total w)))
  /\ cwd (snd (extract_loop out exts infos total w)) = cwd w
  /\ forall v, cwd v = cwd w ->
       similar (fs (snd (extract_loop out exts infos total w))) (fs v) ->
       fst (extract_loop out exts infos total v) = fst (extract_loop out exts infos total w)
       /\ cwd (snd (extract_loop out exts infos total v)) = cwd v
       /\ similar (fs v) (fs (snd (extract_loop out exts infos total v)))
       /\ kept (fs w) (fs (snd (extract_loop out exts infos total w)))
               (fs v) (fs (snd (extract_loop out exts infos total v))).
Proof.
  revert total w. induction infos as [|info rest IH]; intros total w;
    [cbn [extract_loop] | rewrite extract_loop_cons].
  - split; [apply extends_refl |]. split; [reflexivity |].
    intros v _ _. split; [reflexivity |]. split; [reflexivity |].
    split; [apply similar_refl |]. intros k. now right.
  - destruct (Str.is_empty (filename info)).
    { split; [apply extends_refl |]. split; [reflexivity |].
      intros v _ _. split; [reflexivity |]. split; [reflexivity |].
      split; [apply similar_refl |]. intros k. now right. }
    destruct (is_dir_name info); [apply IH |].
    destruct (matches exts (filename info)); [|apply IH].
    unfold bind.
    destruct (extract_member_again info w) as (Hem & Hcm & Hrm).
    destruct (extract_member out info w) as [[[]|e] w1]; cbn [fst snd] in *.
    + destruct (IH (S total) w1) as (He & Hc & Hre).
      split; [eapply extends_trans; eauto |]. split; [congruence |].
      intros v Hcv Hs.
      destruct (Hrm _ v He ltac:(congruence) Hcv Hs) as (Hf & Hcv1 & Hsv1 & Hk1).
      destruct (extract_member out info v) as [[[]|e'] v1]; cbn [fst snd] in *;
        [|discriminate].
      destruct (Hre v1 ltac:(congruence) (similar_trans _ _ _ Hs Hsv1))
        as (Hf2 & Hc2 & Hs2 & Hk2).
      split; [exact Hf2 |]. split; [congruence |].
      split; [eapply similar_trans; eauto | eapply kept_trans; eauto].
    + split; [exact Hem |]. split; [exact Hcm |].
      intros v Hcv Hs.
      destruct (Hrm _ v (extends_refl _) ltac:(reflexivity) Hcv Hs)
        as (Hf & Hcv1 & Hsv1 & Hk1).
      destruct (extract_member out info v) as [[[]|e'] v1]; cbn [fst snd] in *;
        [discriminate |].
      injection Hf as ->.
      split; [reflexivity |]. split; [exact Hcv1 |]. split; assumption.
Qed.

(** After the loop, every selected member is a regular file at its
    destination, and was readable. *)
Lemma loop_files (infos : list ZipInfo) (total n : nat) (w wN : world) :
  extract_loop out exts infos total w = (Ok n, wN) ->
  forall info, In info (List.filter (selected exts) infos) ->
    (exists d, member info = Stored d)
    /\ exists k d, resolve (fs wN) (cwd wN) (extract_path out (filename info)) = Some k
                   /\ fs wN !! k = Some (File d).
Proof.
  revert total w. induction infos as [|info rest IH]; intros total w;
    [|rewrite extract_loop_cons]; simpl.
  - intros _ info [].
  - destruct (Str.is_empty (filename info)); [discriminate |].
    assert (Es : selected exts info
                 = negb (is_dir_name info) && matches exts (filename info))
      by reflexivity.
    rewrite Es. clear Es.
    destruct (is_dir_name info); simpl; [apply IH |].
    destruct (matches exts (filename info)); simpl; [|apply IH].
    unfold bind at 1.
    destruct (extract_member out info w) as [[[]|e] w1] eqn:E; [|discriminate].
    intros H info' [<-|Hin]; [|eapply IH; eauto].
    destruct (loop_again rest (S total) w1) as (He & Hc & _).
    rewrite H in He, Hc. cbn [snd] in He, Hc.
    apply extract_member_ok in E as (t1 & t2 & d & Hm & _ & Hwr & ->).
    apply write_file_spec in Hwr as (k & Hr & Hk & Hnd & ->).
    split; [eauto |]. simpl in *.
    specialize (He k) as Hfile. rewrite lookup_insert_eq in Hfile.
    destruct Hfile as [d' Hd']. exists k, d'. split; [|exact Hd'].
    rewrite Hc. eapply resolve_extends; [|exact Hr].
    eapply extends_trans; [apply extends_write|]; eauto.
Qed.

End Replay.

(** ** Steps that write no file *)

Section Quiet.

Lemma quiet_plain {A} (r : result A) (l : list event) :
  writes_of l = [] ->
  quiet (fun w => (r, {| fs := fs w; cwd := cwd w; trace := trace w ++ l |})).
Proof.
  intros Hl w. simpl. rewrite writes_of_app, Hl, app_nil_r.
  split; [reflexivity | apply adds_dirs_refl].
Qed.

Lemma quiet_ret {A} (a : A) : quiet (ret a).
Proof. intros w. split; [reflexivity | apply adds_dirs_refl]. Qed.

Lemma quiet_raise {A} (e : exn) : quiet (@raise A e).
Proof. intros w. split; [reflexivity | apply adds_dirs_refl]. Qed.

Lemma quiet_lift {A} (r : result A) : quiet (lift r).
Proof. intros w. split; [reflexivity | apply adds_dirs_refl]. Qed.

Lemma quiet_print (m : message) : quiet (print m).
Proof. apply (quiet_plain (Ok tt) [Printed m]). reflexivity. Qed.

Lemma quiet_bind {A B} (m : M A) (f : A -> M B) :
  quiet m -> (forall a, quiet (f a)) -> quiet (bind m f).
Proof.
  intros Hm Hf w. unfold bind. destruct (Hm w) as [Hw Ha].
  destruct (m w) as [[a|e] w']; simpl in *; [|now split].
  destruct (Hf a w') as [Hw' Ha']. split; [congruence |].
  eapply adds_dirs_trans; eauto.
Qed.

Lemma quiet_ensure_output_folder (out : string) : quiet (ensure_output_folder out).
Proof.
  intros w. rewrite ensure_output_folder_eq.
  destruct (Fs.exists_ (fs w) (cwd w) out); [split; [reflexivity | apply adds_dirs_refl] |].
  destruct (Fs.makedirs false (fs w) (cwd w) out) as [ok t] eqn:E.
  apply makedirs_strict_spec in E as [Ha _].
  destruct ok; now split.
Qed.

Variable netloc_ok : string -> bool.
Variable http_get : string -> option string -> http_reply.
Variable json_loads : list Byte.byte -> option Json.value.
Variable py_str : Json.value -> string.

Lemma quiet_requests_get (url : string) (r : option string) (n : Z) :
  quiet (requests_get http_get url r n).
Proof. apply (quiet_plain (Ok (http_get url r)) [Requested url r n]). reflexivity. Qed.

Ltac quiet_step :=
  first [ apply quiet_bind; [|intros ?]
        | apply quiet_print | apply quiet_ret | apply quiet_requests_get
        | unfold sys_exit; apply quiet_raise ].

Lemma quiet_fetch_metadata (u : string) : quiet (fetch_metadata http_get u).
Proof.
  unfold fetch_metadata.
  apply quiet_bind; [apply quiet_print | intros _].
  apply quiet_bind; [apply quiet_requests_get | intros reply].
  destruct reply as [|status content]; [repeat quiet_step |].
  destruct (is_http_error status); [|apply quiet_ret].
  apply quiet_bind; [apply quiet_print | intros _].
  apply quiet_bind; [|intros _; unfold sys_exit; apply quiet_raise].
  destruct (status =? 404)%Z; [|destruct (status =? 403)%Z]; quiet_step.
Qed.

Lemma quiet_bundle_name_of (body : list Byte.byte) :
  quiet (bundle_name_of json_loads py_str body).
Proof.
  unfold bundle_name_of.
  destruct (json_loads body) as [[| | | | |members]|]; try apply quiet_raise.
  destruct (match Json.dict_get "file" members with Some v => v | None => _ end)
    as [| | | | |fm]; try apply quiet_raise.
  destruct (Json.dict_get "name" fm) as [v|]; [destruct (Json.truthy v)|];
    repeat quiet_step.
Qed.

Lemma quiet_download_zip (u link_url : string) : quiet (download_zip http_get u link_url).
Proof.
  unfold download_zip.
  apply quiet_bind; [apply quiet_print | intros _].
  apply quiet_bind; [apply quiet_requests_get | intros reply].
  destruct reply as [|status content]; [|destruct (is_http_error status)];
    repeat quiet_step.
Qed.

Lemma quiet_fetch_bundle (url out : string) (pw : option string) :
  quiet (fetch_bundle netloc_ok http_get json_loads py_str url out pw).
Proof.
  unfold fetch_bundle.
  apply quiet_bind; [apply quiet_ensure_output_folder | intros _].
  apply quiet_bind; [apply quiet_lift | intros [link_id query]].
  apply quiet_bind; [apply quiet_fetch_metadata | intros body].
  apply quiet_bind; [apply quiet_bundle_name_of | intros name].
  apply quiet_download_zip.
Qed.

End Quiet.

(** ** What the extractor writes *)

Section ExtractProperties.

Variable netloc_ok : string -> bool.
Variable http_get : string -> option string -> http_reply.
Variable json_loads : list Byte.byte -> option Json.value.
Variable zip_infolist : list Byte.byte -> zip_open.
Variable py_str : Json.value -> string.

Let run := download_and_extract_media_from_koofr
             netloc_ok http_get json_loads zip_infolist py_str.

(** A count is reported only when the loop went through. *)
Lemma extract_media_ok (content : list Byte.byte) (out : string) (exts : list string)
    (n : nat) (w w' : world) :
  extract_media zip_infolist content out exts w = (Ok n, w') ->
  exists infos, zip_infolist content = Archive infos
                /\ extract_loop out exts infos 0 w = (Ok n, w').
Proof.
  unfold extract_media, except_BadZipFile.
  destruct (zip_infolist content) as [infos| | |]; try discriminate.
  exists infos. split; [reflexivity |].
  destruct (extract_loop out exts infos 0 w) as [[m|e] w1]; [assumption |].
  destruct e; try discriminate.
Qed.

(** C1: the files the extractor writes are, in archive order, members
    that are not directories and whose lower-cased name ends with a
    configured suffix, each at the output folder joined with its name:
    whatever happens, the traced writes are an initial part of that list,
    so a directory entry or a member with another name is never written.
    When extraction reports a count, every such member was written with
    its content and is a regular file at its destination, and the count
    is the number of these members. *)
Theorem extraction_selects (content : list Byte.byte) (out : string) (exts : list string)
    (infos : list ZipInfo) (n : nat) (w w' : world) :
  zip_infolist content = Archive infos ->
  (exists l, l `prefix_of` expected_writes out exts infos
             /\ writes_of (trace (snd (extract_media zip_infolist content out exts w)))
                = (writes_of (trace w) ++ l)%list)
  /\ (extract_media zip_infolist content out exts w = (Ok n, w') ->
      writes_of (trace w') = (writes_of (trace w) ++ expected_writes out exts infos)%list
      /\ n = length (List.filter (selected exts) infos)
      /\ forall info, In info (List.filter (selected exts) infos) ->
           (exists d, member info = Stored d)
           /\ exists k d,
                Fs.resolve (fs w') (cwd w') (extract_path out (filename info)) = Some k
                /\ fs w' !! k = Some (Fs.File d)).
Proof.
  intros Hz. split.
  - destruct (loop_writes_prefix out exts infos 0 w) as (l & Hl & Hw).
    exists l. split; [exact Hl |].
    unfold extract_media, except_BadZipFile. rewrite Hz.
    destruct (extract_loop out exts infos 0 w) as [[m|e] w1]; [exact Hw |].
    destruct e; try exact Hw.
    simpl in *. rewrite writes_of_app, Hw. simpl. now rewrite app_nil_r.
  - intros H. apply extract_media_ok in H as (infos' & Hz' & H).
    rewrite Hz in Hz'. injection Hz' as <-.
    destruct (loop_writes _ _ _ _ _ _ _ H) as [Hw Hn].
    split; [exact Hw |]. split; [exact Hn |].
    eapply loop_files; eauto.
Qed.

(** The corrupt-archive exit, where the code reaches it: when opening
    the downloaded content raises [BadZipFile], the run prints the
    corrupt-archive message and exits with status 1; no file write is
    traced, and the regular files of the tree are those there were before
    the run. *)
Theorem corrupt_archive_aborts (url out : string) (exts : option (list string))
    (pw : option string) (content : list Byte.byte) (w w2 : world) :
  fetch_bundle netloc_ok http_get json_loads py_str url out pw w = (Ok content, w2) ->
  zip_infolist content = NotZip ->
  run url out exts pw w = (Raise (SystemExit 1), log (Printed MsgBadZip) w2)
  /\ writes_of (trace (log (Printed MsgBadZip) w2)) = writes_of (trace w)
  /\ forall k d, fs w2 !! k = Some (Fs.File d) <-> fs w !! k = Some (Fs.File d).
Proof.
  intros Hf Hz.
  destruct (quiet_fetch_bundle netloc_ok http_get json_loads py_str url out pw w)
    as [Hw Ha].
  rewrite Hf in Hw, Ha. simpl in Hw, Ha. split; [|split].
  - unfold run, download_and_extract_media_from_koofr.
    unfold bind at 1. rewrite Hf. unfold bind at 1.
    unfold extract_media, except_BadZipFile. now rewrite Hz.
  - simpl. rewrite writes_of_app. simpl. now rewrite app_nil_r.
  - intros k d. destruct (Ha k) as [->|[E1 E2]]; [reflexivity |].
    rewrite E1, E2. split; discriminate.
Qed.

(** C9: extraction run once more on the same content, in the world the
    first run left, ends the same way (the same count when one is
    reported, the same error otherwise) and leaves the file tree as the
    first run left it: every destination is written again with what it
    held, none is added. *)
Theorem extraction_idempotent (content : list Byte.byte) (out : string)
    (exts : list string) (w : world) :
  fst (extract_media zip_infolist content out exts
         (snd (extract_media zip_infolist content out exts w)))
  = fst (extract_media zip_infolist content out exts w)
  /\ fs (snd (extract_media zip_infolist content out exts
                (snd (extract_media zip_infolist content out exts w))))
     = fs (snd (extract_media zip_infolist content out exts w)).
Proof.
  unfold extract_media, except_BadZipFile.
  destruct (zip_infolist content) as [infos| | |]; try (split; reflexivity).
  destruct (loop_again out exts infos 0 w) as (_ & Hc & Hre).
  set (r1 := extract_loop out exts infos 0 w) in *.
  assert (Hv : forall v, cwd v = cwd (snd r1) -> fs v = fs (snd r1) ->
             fst (extract_loop out exts infos 0 v) = fst r1
             /\ fs (snd (extract_loop out exts infos 0 v)) = fs (snd r1)).
  { intros v Hcv Hfv.
    destruct (Hre v ltac:(congruence)) as (Hf & _ & _ & Hk).
    { rewrite Hfv. apply similar_refl. }
    split; [exact Hf |]. apply map_eq. intros k.
    destruct (Hk k) as [E|[E _]]; [exact E | now rewrite E, Hfv]. }
  assert (Hfin : forall v, cwd v = cwd (snd r1) -> fs v = fs (snd r1) ->
             forall x,
               x = match extract_loop out exts infos 0 v with
                   | (Raise BadZipFile, w') => (print MsgBadZip >> sys_exit 1) w'
                   | r => r
                   end ->
               fst x = fst (match r1 with
                            | (Raise BadZipFile, w') => (print MsgBadZip >> @sys_exit nat 1) w'
                            | r => r
                            end)
               /\ fs (snd x) = fs (snd r1)).
  { intros v Hcv Hfv x ->. destruct (Hv v Hcv Hfv) as [Hf Hfs].
    destruct (extract_loop out exts infos 0 v) as [[n|e] v1];
      destruct r1 as [[n'|e'] w1]; cbn [fst snd] in *; try discriminate.
    - now split.
    - injection Hf as ->. destruct e'; now split. }
  destruct r1 as [[n|e] w1] eqn:Er1.
  - apply (Hfin w1); reflexivity.
  - destruct e; try (apply (Hfin w1); reflexivity).
    destruct (Hfin (log (Printed MsgBadZip) w1) eq_refl eq_refl _ eq_refl) as [Hf Hfs].
    split; [exact Hf | exact Hfs].
Qed.

End ExtractProperties.

(** ** The properties on the sample environment *)

(** The link of the script's entry point yields its identifier. *)
Lemma link_id_extracted_witness :
  Url.urlparse Sample.netloc_ok Sample.share_url = Some Sample.share_url_parsed
  /\ exists query,
       parse_link Sample.netloc_ok Sample.share_url
       = Ok ("c1fab741-0e23-4516-8f30-1bc31814aea0", query).
Proof.
  assert (Hp : Url.urlparse Sample.netloc_ok Sample.share_url = Some Sample.share_url_parsed)
    by reflexivity.
  split; [exact Hp |].
  destruct (link_id_extracted Sample.netloc_ok Sample.share_url Sample.share_url_parsed
              "" "c1fab741-0e23-4516-8f30-1bc31814aea0" Hp eq_refl eq_refl eq_refl)
    as (query & H & _).
  exists query. exact H.
Defined.

(** A link to [/files/...] is refused. *)
Lemma missing_marker_rejected_witness :
  Str.contains "/links/" (Url.path Sample.other_url_parsed) = false
  /\ fst (sample_run Sample.named_bundle (Sample.archive_is Sample.media_archive)
            Sample.other_url Sample.home)
     = Raise InvalidLinkFormat.
Proof.
  split; [reflexivity |].
  assert (He : ensure_output_folder "downloads" Sample.home
               = (Ok tt, Sample.home_with_downloads)) by (vm_compute; reflexivity).
  destruct (missing_marker_rejected Sample.netloc_ok Sample.server
              (Sample.json_is Sample.named_bundle)
              (Sample.archive_is Sample.media_archive) Sample.py_str
              Sample.other_url "downloads" None None Sample.other_url_parsed
              Sample.home Sample.home_with_downloads He eq_refl eq_refl) as (H & _).
  unfold sample_run. rewrite H. reflexivity.
Defined.

(** The metadata request of the script's entry point. *)
Lemma metadata_request_url_witness :
  exists later,
    trace (snd (sample_run Sample.named_bundle (Sample.archive_is Sample.media_archive)
                  Sample.share_url Sample.home))
    = Printed (MsgFetching
        "https://app.koofr.net/api/v2/public/links/c1fab741-0e23-4516-8f30-1bc31814aea0/bundle?path=%2FBreanna%20Ly&password=")
      :: Requested
           "https://app.koofr.net/api/v2/public/links/c1fab741-0e23-4516-8f30-1bc31814aea0/bundle?path=%2FBreanna%20Ly&password="
           None 30
      :: later.
Proof.
  assert (He : ensure_output_folder "downloads" Sample.home
               = (Ok tt, Sample.home_with_downloads)) by (vm_compute; reflexivity).
  destruct (metadata_request_url Sample.netloc_ok Sample.server
              (Sample.json_is Sample.named_bundle)
              (Sample.archive_is Sample.media_archive) Sample.py_str
              Sample.share_url "downloads" None None Sample.share_url_parsed
              "c1fab741-0e23-4516-8f30-1bc31814aea0" "path=%2FBreanna%20Ly"
              Sample.home Sample.home_with_downloads He eq_refl eq_refl) as (later & H).
  exists later. exact H.
Defined.

(** [downloads] is missing in the sample world and is there after the
    refused run. *)
Lemma output_folder_created_first_witness :
  Fs.exists_ (fs Sample.home) (cwd Sample.home) "downloads" = false
  /\ Fs.isdir (fs Sample.home_with_downloads) (cwd Sample.home) "downloads" = true
  /\ sample_run Sample.named_bundle (Sample.archive_is Sample.media_archive)
       Sample.other_url Sample.home
     = (Raise InvalidLinkFormat, Sample.home_with_downloads).
Proof.
  assert (Hx : Fs.exists_ (fs Sample.home) (cwd Sample.home) "downloads" = false)
    by (vm_compute; reflexivity).
  assert (Hm : Fs.makedirs false (fs Sample.home) (cwd Sample.home) "downloads"
               = (true, fs Sample.home_with_downloads)) by (vm_compute; reflexivity).
  destruct (output_folder_created_first Sample.netloc_ok Sample.server
              (Sample.json_is Sample.named_bundle)
              (Sample.archive_is Sample.media_archive) Sample.py_str
              Sample.other_url "downloads" None None Sample.home true
              (fs Sample.home_with_downloads) Hx Hm) as (_ & _ & H).
  destruct (H eq_refl) as (Hd & Hr).
  split; [exact Hx |]. split; [exact Hd |].
  exact (Hr Sample.other_url_parsed eq_refl eq_refl).
Defined.

(** C7: the code at the failing input.  The body [{"file": null}] lacks
    [file.name]; the default of [data.get('file', {})] does not apply to
    it, the second [get] meets [None], and the run ends in an
    [AttributeError] without the empty-bundle message (the metadata
    request stays the only one). *)
Lemma null_file_is_not_empty_bundle :
  lacks_file_name Sample.null_file = true
  /\ fst (sample_run Sample.null_file (Sample.archive_is Sample.media_archive)
            Sample.share_url Sample.home)
     = Raise AttributeError
  /\ messages_of
       (trace (snd (sample_run Sample.null_file (Sample.archive_is Sample.media_archive)
                      Sample.share_url Sample.home)))
     = [MsgFetching
          "https://app.koofr.net/api/v2/public/links/c1fab741-0e23-4516-8f30-1bc31814aea0/bundle?path=%2FBreanna%20Ly&password="].
Proof. vm_compute. repeat split. Qed.

(** The body [{}]: the empty-bundle exit after one request. *)
Lemma empty_bundle_aborts_witness :
  name_absent_or_falsy [] = true
  /\ fst (sample_run Sample.no_file (Sample.archive_is Sample.media_archive)
            Sample.share_url Sample.home)
     = Raise (SystemExit 1)
  /\ length (requests_of
       (trace (snd (sample_run Sample.no_file (Sample.archive_is Sample.media_archive)
                      Sample.share_url Sample.home)))) = 1%nat.
Proof.
  assert (He : ensure_output_folder "downloads" Sample.home
               = (Ok tt, Sample.home_with_downloads)) by (vm_compute; reflexivity).
  destruct (empty_bundle_aborts Sample.netloc_ok Sample.server
              (Sample.json_is Sample.no_file)
              (Sample.archive_is Sample.media_archive) Sample.py_str
              Sample.share_url "downloads" None None
              "c1fab741-0e23-4516-8f30-1bc31814aea0" "path=%2FBreanna%20Ly"
              200 [x00] [] Sample.home Sample.home_with_downloads
              He eq_refl eq_refl eq_refl eq_refl eq_refl) as (Hr & Hq).
  split; [reflexivity |]. unfold sample_run. split.
  - rewrite Hr. reflexivity.
  - rewrite Hq. reflexivity.
Defined.

(** The archive [a.jpg], [b.txt], [sub/c.png], [sub/] with the default
    suffixes: two files written, [a.jpg] and [sub/c.png], count 2. *)
Lemma extraction_selects_witness :
  fst (extract_media (Sample.archive_is Sample.media_archive) [x00] "downloads"
         default_media_extensions Sample.home_with_downloads) = Ok 2%nat
  /\ writes_of
       (trace (snd (extract_media (Sample.archive_is Sample.media_archive) [x00]
                      "downloads" default_media_extensions Sample.home_with_downloads)))
     = [("downloads/a.jpg", [x01]); ("downloads/sub/c.png", [x03])].
Proof.
  assert (Hx : extract_media (Sample.archive_is Sample.media_archive) [x00] "downloads"
                 default_media_extensions Sample.home_with_downloads
               = (Ok 2%nat,
                  snd (extract_media (Sample.archive_is Sample.media_archive) [x00]
                         "downloads" default_media_extensions Sample.home_with_downloads)))
    by (vm_compute; reflexivity).
  destruct (extraction_selects (Sample.archive_is Sample.media_archive) [x00] "downloads"
              default_media_extensions Sample.media_archive 2
              Sample.home_with_downloads
              (snd (extract_media (Sample.archive_is Sample.media_archive) [x00]
                      "downloads" default_media_extensions Sample.home_with_downloads))
              eq_refl) as (_ & H).
  destruct (H Hx) as (Hw & _ & _).
  split; [rewrite Hx; reflexivity |].
  rewrite Hw. reflexivity.
Defined.

(** A download that is no archive: exit, nothing written. *)
Lemma corrupt_archive_aborts_witness :
  fst (sample_run Sample.named_bundle Sample.not_an_archive Sample.share_url Sample.home)
  = Raise (SystemExit 1)
  /\ writes_of
       (trace (snd (sample_run Sample.named_bundle Sample.not_an_archive
                      Sample.share_url Sample.home))) = []
  /\ last (messages_of
       (trace (snd (sample_run Sample.named_bundle Sample.not_an_archive
                      Sample.share_url Sample.home)))) = Some MsgBadZip.
Proof.
  assert (Hf : fetch_bundle Sample.netloc_ok Sample.server
                 (Sample.json_is Sample.named_bundle) Sample.py_str
                 Sample.share_url "downloads" None Sample.home
               = (Ok [x00],
                  snd (fetch_bundle Sample.netloc_ok Sample.server
                         (Sample.json_is Sample.named_bundle) Sample.py_str
                         Sample.share_url "downloads" None Sample.home)))
    by (vm_compute; reflexivity).
  destruct (corrupt_archive_aborts Sample.netloc_ok Sample.server
              (Sample.json_is Sample.named_bundle) Sample.not_an_archive Sample.py_str
              Sample.share_url "downloads" None None [x00] Sample.home _ Hf eq_refl)
    as (Hr & Hw & _).
  unfold sample_run. rewrite Hr. split; [reflexivity |]. split.
  - exact Hw.
  - vm_compute. reflexivity.
Defined.

(** C8: the code at the failing input.  A download that does not open
    as an archive because a member name is not the UTF-8 it is flagged
    as, or because its format version is not supported, makes the
    constructor raise [UnicodeDecodeError] or [NotImplementedError]; the
    handler of line 96 catches [BadZipFile] only, so the exception escapes
    and the corrupt-archive message is not printed (no file is written
    either). *)
Theorem unopened_archive_escapes :
  fst (sample_run Sample.named_bundle Cases.undecodable_archive
         Sample.share_url Sample.home) = Raise UnicodeDecodeError
  /\ fst (sample_run Sample.named_bundle Cases.unsupported_archive
            Sample.share_url Sample.home) = Raise NotImplementedError
  /\ last (messages_of
       (trace (snd (sample_run Sample.named_bundle Cases.undecodable_archive
                      Sample.share_url Sample.home)))) = Some MsgDownloading
  /\ last (messages_of
       (trace (snd (sample_run Sample.named_bundle Cases.unsupported_archive
                      Sample.share_url Sample.home)))) = Some MsgDownloading
  /\ writes_of
       (trace (snd (sample_run Sample.named_bundle Cases.undecodable_archive
                      Sample.share_url Sample.home))) = []
  /\ last (messages_of
       (trace (snd (sample_run Sample.named_bundle Sample.not_an_archive
                      Sample.share_url Sample.home)))) = Some MsgBadZip.
Proof. vm_compute. repeat split. Qed.

(** The same archive extracted twice into [downloads]: two files each
    time, and the same tree. *)
Lemma extraction_idempotent_witness :
  fst (extract_media (Sample.archive_is Sample.media_archive) [x00] "downloads"
         default_media_extensions Sample.home_with_downloads) = Ok 2%nat
  /\ fst (extract_media (Sample.archive_is Sample.media_archive) [x00] "downloads"
            default_media_extensions
            (snd (extract_media (Sample.archive_is Sample.media_archive) [x00] "downloads"
                    default_media_extensions Sample.home_with_downloads))) = Ok 2%nat
  /\ fs (snd (extract_media (Sample.archive_is Sample.media_archive) [x00] "downloads"
                default_media_extensions
                (snd (extract_media (Sample.archive_is Sample.media_archive) [x00]
                        "downloads" default_media_extensions Sample.home_with_downloads))))
     = fs (snd (extract_media (Sample.archive_is Sample.media_archive) [x00] "downloads"
                  default_media_extensions Sample.home_with_downloads)).
Proof.
  destruct (extraction_idempotent (Sample.archive_is Sample.media_archive) [x00]
              "downloads" default_media_extensions Sample.home_with_downloads)
    as (Hf & Hfs).
  split; [reflexivity |]. split; [rewrite Hf; reflexivity | exact Hfs].
Defined.

(** C2: an archive member named [../evil.jpg] has the destination
    [downloads/../evil.jpg], which resolves to [evil.jpg] in the working
    directory, outside the output folder; the run writes it there and
    ends normally, having extracted one file. *)
Theorem traversal_escapes_output_folder :
  let name := "../evil.jpg" in
  let r := sample_run Sample.named_bundle (Sample.archive_is Sample.traversal_archive)
             Sample.share_url Sample.home in
  let w' := snd r in
  Str.startswith name "../" = true
  /\ matches default_media_extensions name = true
  /\ extract_path "downloads" name = "downloads/../evil.jpg"
  /\ fst r = Ok tt
  /\ Fs.resolve (fs w') (cwd w') "downloads" = Some ["downloads"; "user"; "home"]
  /\ Fs.resolve (fs w') (cwd w') (extract_path "downloads" name)
     = Some ["evil.jpg"; "user"; "home"]
  /\ under ["downloads"; "user"; "home"] ["evil.jpg"; "user"; "home"] = false
  /\ fs Sample.home !! ["evil.jpg"; "user"; "home"] = None
  /\ fs w' !! ["evil.jpg"; "user"; "home"] = Some (Fs.File [x04])
  /\ writes_of (trace w') = [("downloads/../evil.jpg", [x04])]
  /\ last (messages_of (trace w')) = Some (MsgDone 1 "downloads").
Proof. vm_compute. repeat split. Qed.

(** * Further properties of the run *)

(** ** Which exceptions, events and tree changes a step can produce *)

Section StepFacts.

Lemma raises_only_ret {A} (P : exn -> Prop) (a : A) : raises_only P (ret a).
Proof. intros w e; discriminate. Qed.

Lemma raises_only_raise {A} (P : exn -> Prop) (e : exn) : P e -> raises_only P (@raise A e).
Proof. intros H w e' [= <-]; exact H. Qed.

Lemma raises_only_print (P : exn -> Prop) (m : message) : raises_only P (print m).
Proof. intros w e; discriminate. Qed.

Lemma raises_only_bind {A B} (P : exn -> Prop) (m : M A) (f : A -> M B) :
  raises_only P m -> (forall a, raises_only P (f a)) -> raises_only P (bind m f).
Proof.
  intros Hm Hf w e. unfold bind. specialize (Hm w).
  destruct (m w) as [[a|e'] w'].
  - apply Hf.
  - cbn [fst] in *. intros [= <-]. now apply Hm.
Qed.

Lemma raises_only_weaken {A} (P Q : exn -> Prop) (m : M A) :
  (forall e, P e -> Q e) -> raises_only P m -> raises_only Q m.
Proof. intros HPQ Hm w e H. apply HPQ. eapply Hm; eauto. Qed.

Lemma raises_only_except {A} (P Q : exn -> Prop) (m h : M A) :
  raises_only P m -> (forall e, P e -> e <> BadZipFile -> Q e) -> raises_only Q h ->
  raises_only Q (except_BadZipFile m h).
Proof.
  intros Hm HPQ Hh w e. unfold except_BadZipFile. specialize (Hm w).
  destruct (m w) as [[a|e'] w']; [discriminate |].
  cbn [fst] in Hm.
  destruct e'; try (intros [= <-]; apply HPQ; [now apply Hm | discriminate]).
  apply Hh.
Qed.

Lemma raises_only_os_makedirs (P : exn -> Prop) (p : string) (exist_ok : bool) :
  P OSError -> raises_only P (os_makedirs p exist_ok).
Proof.
  intros H w e. unfold os_makedirs.
  destruct (Fs.makedirs exist_ok (fs w) (cwd w) p) as [[|] t]; [discriminate |].
  now intros [= <-].
Qed.

Lemma raises_only_open_wb_write (P : exn -> Prop) (p : string) (d : list Byte.byte) :
  P OSError -> raises_only P (open_wb_write p d).
Proof.
  intros H w e. unfold open_wb_write.
  destruct (Fs.write_file (fs w) (cwd w) p d); [discriminate |].
  now intros [= <-].
Qed.

Lemma adds_only_plain {A} (P : event -> bool) (r : result A) (l : list event) :
  forallb P l = true ->
  adds_only P (fun w => (r, {| fs := fs w; cwd := cwd w; trace := trace w ++ l |})).
Proof. intros H w. now exists l. Qed.

Lemma adds_only_ret {A} (P : event -> bool) (a : A) : adds_only P (ret a).
Proof. intros w. exists []. now rewrite app_nil_r. Qed.

Lemma adds_only_raise {A} (P : event -> bool) (e : exn) : adds_only P (@raise A e).
Proof. intros w. exists []. now rewrite app_nil_r. Qed.

Lemma adds_only_lift {A} (P : event -> bool) (r : result A) : adds_only P (lift r).
Proof. intros w. exists []. now rewrite app_nil_r. Qed.

Lemma adds_only_print (P : event -> bool) (m : message) :
  P (Printed m) = true -> adds_only P (print m).
Proof. intros H w. exists [Printed m]. simpl. now rewrite H. Qed.

Lemma adds_only_bind {A B} (P : event -> bool) (m : M A) (f : A -> M B) :
  adds_only P m -> (forall a, adds_only P (f a)) -> adds_only P (bind m f).
Proof.
  intros Hm Hf w. unfold bind. destruct (Hm w) as (l1 & E1 & F1).
  destruct (m w) as [[a|e] w']; cbn [snd] in *.
  - destruct (Hf a w') as (l2 & E2 & F2). exists (l1 ++ l2)%list.
    rewrite E2, E1, <- app_assoc, forallb_app, F1, F2. now split.
  - now exists l1.
Qed.

Lemma adds_only_except {A} (P : event -> bool) (m h : M A) :
  adds_only P m -> adds_only P h -> adds_only P (except_BadZipFile m h).
Proof.
  intros Hm Hh w. unfold except_BadZipFile. destruct (Hm w) as (l1 & E1 & F1).
  destruct (m w) as [[a|e] w']; cbn [snd] in *; [now exists l1 |].
  destruct e; try (now exists l1).
  destruct (Hh w') as (l2 & E2 & F2). exists (l1 ++ l2)%list.
  rewrite E2, E1, <- app_assoc, forallb_app, F1, F2. now split.
Qed.

Lemma adds_only_os_makedirs (P : event -> bool) (p : string) (exist_ok : bool) :
  adds_only P (os_makedirs p exist_ok).
Proof.
  intros w. unfold os_makedirs. exists [].
  destruct (Fs.makedirs exist_ok (fs w) (cwd w) p) as [[|] t]; simpl;
    now rewrite app_nil_r.
Qed.

Lemma adds_only_open_wb_write (P : event -> bool) (p : string) (d : list Byte.byte) :
  P (Wrote p d) = true -> adds_only P (open_wb_write p d).
Proof.
  intros H w. unfold open_wb_write.
  destruct (Fs.write_file (fs w) (cwd w) p d); simpl.
  - exists [Wrote p d]. simpl. now rewrite H.
  - exists []. now rewrite app_nil_r.
Qed.

Lemma requests_of_app (a b : list event) :
  requests_of (a ++ b) = (requests_of a ++ requests_of b)%list.
Proof. apply omap_app. Qed.

Lemma messages_of_app (a b : list event) :
  messages_of (a ++ b) = (messages_of a ++ messages_of b)%list.
Proof. apply omap_app. Qed.

Lemma no_requests (l : list event) :
  forallb (fun e => negb (is_request e)) l = true -> requests_of l = [].
Proof.
  induction l as [|e l IH]; [reflexivity |]. simpl.
  intros H. apply andb_true_iff in H as [He Hl].
  destruct e; try discriminate; simpl; now apply IH.
Qed.

Lemma keeps_tree_quiet {A} (m : M A) : grows m -> quiet m -> keeps_tree m.
Proof.
  intros Hg Hq w. split; [|apply Hg].
  apply adds_dirs_extends, Hq.
Qed.

Lemma keeps_tree_bind {A B} (m : M A) (f : A -> M B) :
  keeps_tree m -> (forall a, keeps_tree (f a)) -> keeps_tree (bind m f).
Proof.
  intros Hm Hf w. unfold bind. destruct (Hm w) as [E1 C1].
  destruct (m w) as [[a|e] w']; cbn [snd] in *; [|now split].
  destruct (Hf a w') as [E2 C2]. split; [|congruence].
  eapply extends_trans; eauto.
Qed.

End StepFacts.

(** ** How a run can end, and what it can have done by then *)

Ltac raises_step :=
  first [ apply raises_only_bind; [|intros ?]
        | apply raises_only_print | apply raises_only_ret
        | unfold sys_exit; apply raises_only_raise
        | apply raises_only_os_makedirs | apply raises_only_open_wb_write ].

Ltac adds_step :=
  first [ apply adds_only_bind; [|intros ?]
        | apply adds_only_except
        | apply adds_only_print; reflexivity
        | apply adds_only_ret | apply adds_only_lift
        | apply adds_only_os_makedirs
        | apply adds_only_open_wb_write; reflexivity
        | unfold sys_exit; apply adds_only_raise ].

Section RunOutcomes.

Variable netloc_ok : string -> bool.
Variable http_get : string -> option string -> http_reply.
Variable json_loads : list Byte.byte -> option Json.value.
Variable zip_infolist : list Byte.byte -> zip_open.
Variable py_str : Json.value -> string.

Let run := download_and_extract_media_from_koofr
             netloc_ok http_get json_loads zip_infolist py_str.

Lemma same_requests {A} (m : M A) (w : world) :
  adds_only not_request m -> requests_of (trace (snd (m w))) = requests_of (trace w).
Proof.
  intros H. destruct (H w) as (l & -> & F).
  rewrite requests_of_app, (no_requests l F). apply app_nil_r.
Qed.

Lemma raises_only_ensure_output_folder (out : string) :
  raises_only (fun e => e = OSError) (ensure_output_folder out).
Proof.
  unfold ensure_output_folder. apply raises_only_bind.
  - intros w e; discriminate.
  - intros [|]; repeat raises_step. reflexivity.
Qed.

Lemma raises_only_requests_get (P : exn -> Prop) (u : string) (r : option string) (n : Z) :
  raises_only P (requests_get http_get u r n).
Proof. intros w e; discriminate. Qed.

Lemma raises_only_fetch_metadata (u : string) :
  raises_only (fun e => e = SystemExit 1) (fetch_metadata http_get u).
Proof.
  unfold fetch_metadata. raises_step; [raises_step |].
  apply raises_only_bind; [apply raises_only_requests_get |].
  intros [|status content].
  - repeat raises_step. reflexivity.
  - destruct (is_http_error status); [|raises_step].
    raises_step; [raises_step |]. raises_step.
    + destruct (status =? 404)%Z; [raises_step |].
      destruct (status =? 403)%Z; raises_step.
    + raises_step. reflexivity.
Qed.

Lemma raises_only_bundle_name_of (body : list Byte.byte) :
  raises_only (fun e => e = JSONDecodeError \/ e = AttributeError \/ e = SystemExit 1)
    (bundle_name_of json_loads py_str body).
Proof.
  unfold bundle_name_of.
  destruct (json_loads body) as [[| | | | |members]|];
    try (apply raises_only_raise; auto).
  destruct (Json.dict_get "file" members) as [[| | | | |fm]|];
    try (apply raises_only_raise; auto).
  destruct (Json.dict_get "name" fm) as [v|]; [destruct (Json.truthy v)|];
    repeat raises_step; auto.
Qed.

Lemma raises_only_download_zip (u link_url : string) :
  raises_only (fun e => e = SystemExit 1) (download_zip http_get u link_url).
Proof.
  unfold download_zip. raises_step; [raises_step |].
  apply raises_only_bind; [apply raises_only_requests_get |].
  intros [|status content]; [|destruct (is_http_error status)];
    repeat raises_step; reflexivity.
Qed.

Lemma raises_only_extract_member (out : string) (info : ZipInfo) :
  raises_only (fun e => e = OSError \/ e = BadZipFile) (extract_member out info).
Proof.
  unfold extract_member. raises_step; [raises_step; auto |].
  raises_step; [|raises_step].
  destruct (member info); repeat raises_step; auto.
Qed.

Lemma raises_only_extract_loop (out : string) (exts : list string)
    (infos : list ZipInfo) (total : nat) :
  raises_only loop_exception (extract_loop out exts infos total).
Proof.
  revert total. induction infos as [|info rest IH]; intros total;
    [cbn [extract_loop] | rewrite extract_loop_cons].
  - raises_step.
  - destruct (Str.is_empty (filename info)).
    { apply raises_only_raise. unfold loop_exception. auto. }
    destruct (is_dir_name info); [apply IH |].
    destruct (matches exts (filename info)); [|apply IH].
    apply raises_only_bind; [|intros; apply IH].
    eapply raises_only_weaken; [|apply raises_only_extract_member].
    unfold loop_exception. intros e [->| ->]; auto.
Qed.

Lemma raises_only_extract_media (content : list Byte.byte) (out : string)
    (exts : list string) :
  raises_only extraction_exception (extract_media zip_infolist content out exts).
Proof.
  unfold extract_media.
  apply raises_only_except
    with (P := fun e => loop_exception e \/ e = NotImplementedError
                        \/ e = UnicodeDecodeError).
  - destruct (zip_infolist content).
    + eapply raises_only_weaken; [|apply raises_only_extract_loop]. auto.
    + apply raises_only_raise. left. unfold loop_exception. auto.
    + apply raises_only_raise. auto.
    + apply raises_only_raise. auto.
  - unfold extraction_exception, loop_exception.
    intros e [[->|[->| ->]]|[->| ->]] Hn; auto 6; congruence.
  - repeat raises_step. unfold extraction_exception. auto.
Qed.

Lemma raises_only_fetch_bundle (url out : string) (pw : option string) :
  raises_only (fun e => e <> BadZipFile /\ forall c, e = SystemExit c -> c = 1%Z)
    (fetch_bundle netloc_ok http_get json_loads py_str url out pw).
Proof.
  unfold fetch_bundle. apply raises_only_bind.
  { eapply raises_only_weaken; [|apply raises_only_ensure_output_folder].
    intros e ->. split; [discriminate | intros c; discriminate]. }
  intros _. apply raises_only_bind.
  { intros w e. unfold lift, parse_link. cbn [fst].
    destruct (Url.urlparse netloc_ok url) as [p|].
    - destruct (length (Str.split "/links/" (Url.path p)) <? 2)%nat; [|discriminate].
      intros [= <-]. split; [discriminate | intros c; discriminate].
    - intros [= <-]. split; [discriminate | intros c; discriminate]. }
  intros [link_id query]. apply raises_only_bind.
  { eapply raises_only_weaken; [|apply raises_only_fetch_metadata].
    intros e ->. split; [discriminate | now intros c [= <-]]. }
  intros body. apply raises_only_bind.
  { eapply raises_only_weaken; [|apply raises_only_bundle_name_of].
    intros e [->|[->| ->]]; (split; [discriminate |]); intros c; try discriminate.
    now intros [= <-]. }
  intros name.
  eapply raises_only_weaken; [|apply raises_only_download_zip].
  intros e ->. split; [discriminate | now intros c [= <-]].
Qed.

Lemma raises_only_run (url out : string) (exts : option (list string))
    (pw : option string) :
  raises_only (fun e => e <> BadZipFile /\ forall c, e = SystemExit c -> c = 1%Z)
    (run url out exts pw).
Proof.
  unfold run, download_and_extract_media_from_koofr.
  apply raises_only_bind; [apply raises_only_fetch_bundle |].
  intros content. apply raises_only_bind; [|intros; raises_step].
  eapply raises_only_weaken; [|apply raises_only_extract_media].
  unfold extraction_exception.
  intros e [->|[->|[->|[->| ->]]]]; (split; [discriminate |]); intros c;
    try discriminate.
  now intros [= <-].
Qed.

(** X1: a run that ends with an exception never ends with [BadZipFile],
    which the function catches itself, and when it ends with
    [SystemExit] the status is 1. *)
Theorem run_exceptions (url out : string) (exts : option (list string))
    (pw : option string) (w : world) (e : exn) :
  fst (run url out exts pw w) = Raise e ->
  e <> BadZipFile /\ forall code, e = SystemExit code -> code = 1%Z.
Proof. apply raises_only_run. Qed.

End RunOutcomes.

(** ** The requests of a run *)

Section RunRequests.

Variable netloc_ok : string -> bool.
Variable http_get : string -> option string -> http_reply.
Variable json_loads : list Byte.byte -> option Json.value.
Variable zip_infolist : list Byte.byte -> zip_open.
Variable py_str : Json.value -> string.

Let run := download_and_extract_media_from_koofr
             netloc_ok http_get json_loads zip_infolist py_str.

Lemma adds_only_ensure_output_folder (P : event -> bool) (out : string) :
  adds_only P (ensure_output_folder out).
Proof.
  unfold ensure_output_folder. apply adds_only_bind.
  - intros w. exists []. now rewrite app_nil_r.
  - intros [|]; adds_step.
Qed.

Lemma adds_only_bundle_name_of (body : list Byte.byte) :
  adds_only not_request (bundle_name_of json_loads py_str body).
Proof.
  unfold bundle_name_of.
  destruct (json_loads body) as [[| | | | |members]|]; try apply adds_only_raise.
  destruct (Json.dict_get "file" members) as [[| | | | |fm]|];
    try apply adds_only_raise.
  - destruct (Json.dict_get "name" fm) as [v|]; [destruct (Json.truthy v)|];
      repeat adds_step.
  - cbn [Json.dict_get]. repeat adds_step.
Qed.

Lemma adds_only_extract_member (out : string) (info : ZipInfo) :
  adds_only not_request (extract_member out info).
Proof.
  unfold extract_member. adds_step; [adds_step |]. adds_step; [|adds_step].
  destruct (member info); repeat adds_step.
Qed.

Lemma adds_only_extract_loop (out : string) (exts : list string)
    (infos : list ZipInfo) (total : nat) :
  adds_only not_request (extract_loop out exts infos total).
Proof.
  revert total. induction infos as [|info rest IH]; intros total;
    [cbn [extract_loop] | rewrite extract_loop_cons].
  - adds_step.
  - destruct (Str.is_empty (filename info)); [apply adds_only_raise |].
    destruct (is_dir_name info); [apply IH |].
    destruct (matches exts (filename info)); [|apply IH].
    apply adds_only_bind; [apply adds_only_extract_member | intros; apply IH].
Qed.

Lemma adds_only_extract_media (content : list Byte.byte) (out : string)
    (exts : list string) :
  adds_only not_request (extract_media zip_infolist content out exts).
Proof.
  unfold extract_media. adds_step; [|repeat adds_step].
  destruct (zip_infolist content); first [apply adds_only_extract_loop | adds_step].
Qed.

Lemma fetch_metadata_requests (u : string) (w : world) :
  requests_of (trace (snd (fetch_metadata http_get u w)))
  = (requests_of (trace w) ++ [(u, None, 30%Z)])%list.
Proof.
  unfold fetch_metadata. cbv [bind print requests_get log].
  destruct (http_get u None) as [|status content]; simpl.
  - now rewrite !requests_of_app, !app_nil_r.
  - destruct (is_http_error status); simpl.
    + destruct (status =? 404)%Z; [|destruct (status =? 403)%Z]; simpl;
        now rewrite !requests_of_app, !app_nil_r.
    + now rewrite !requests_of_app, !app_nil_r.
Qed.

Lemma download_zip_requests (u link_url : string) (w : world) :
  requests_of (trace (snd (download_zip http_get u link_url w)))
  = (requests_of (trace w) ++ [(u, Some link_url, 60%Z)])%list.
Proof.
  unfold download_zip. cbv [bind print requests_get log].
  destruct (http_get u (Some link_url)) as [|status content]; simpl.
  - now rewrite !requests_of_app, !app_nil_r.
  - destruct (is_http_error status); simpl;
      now rewrite !requests_of_app, !app_nil_r.
Qed.

Lemma bundle_name_of_ok (body : list Byte.byte) (name : string) (w w' : world) :
  bundle_name_of json_loads py_str body w = (Ok name, w') ->
  w' = log (Printed (MsgFoundBundle name)) w.
Proof.
  unfold bundle_name_of.
  destruct (json_loads body) as [[| | | | |members]|]; try discriminate.
  destruct (Json.dict_get "file" members) as [[| | | | |fm]|]; try discriminate.
  destruct (Json.dict_get "name" fm) as [v|]; [destruct (Json.truthy v)|];
    try discriminate.
  cbv [bind print ret]. now intros [= <- <-].
Qed.

(** The requests of the steps before the archive is opened. *)
Lemma fetch_bundle_requests (url out : string) (pw : option string) (w : world) :
  exists l,
    requests_of (trace (snd (fetch_bundle netloc_ok http_get json_loads py_str url out pw w)))
    = (requests_of (trace w) ++ l)%list
    /\ run_requests netloc_ok url pw l.
Proof.
  unfold fetch_bundle. unfold bind at 1.
  pose proof (same_requests (ensure_output_folder out) w
                (adds_only_ensure_output_folder _ out)) as He.
  destruct (ensure_output_folder out w) as [[[]|e] w1]; cbn [snd] in He.
  2:{ exists []. rewrite app_nil_r. split; [exact He | now left]. }
  unfold bind at 1. unfold lift at 1.
  destruct (parse_link netloc_ok url) as [[link_id query]|e] eqn:Hl.
  2:{ exists []. rewrite app_nil_r. split; [exact He | now left]. }
  unfold bind at 1.
  pose proof (fetch_metadata_requests (api_url link_id query pw) w1) as Hm.
  destruct (fetch_metadata http_get (api_url link_id query pw) w1) as [[body|e] w2];
    cbn [snd] in Hm.
  2:{ cbn [snd]. eexists. split; [rewrite Hm, He; reflexivity |].
      right. exists link_id, query. split; [exact Hl | now left]. }
  unfold bind at 1.
  pose proof (same_requests (bundle_name_of json_loads py_str body) w2
                (adds_only_bundle_name_of body)) as Hb.
  destruct (bundle_name_of json_loads py_str body w2) as [[name|e] w3]; cbn [snd] in Hb.
  2:{ cbn [snd]. eexists. split; [rewrite Hb, Hm, He; reflexivity |].
      right. exists link_id, query. split; [exact Hl | now left]. }
  rewrite download_zip_requests, Hb, Hm, He, <- app_assoc.
  eexists. split; [reflexivity |].
  right. exists link_id, query. split; [exact Hl |]. right. now exists name.
Qed.

(** X2: whatever the server answers, a run makes at most two requests:
    none, or the metadata request (no [Referer], timeout 30), or that one
    followed by the download, whose [Referer] is the share link and whose
    timeout is 60.  Both addresses are built from the link identifier and
    the query the parser extracted. *)
Theorem run_makes_at_most_two_requests (url out : string) (exts : option (list string))
    (pw : option string) (w : world) :
  exists l,
    requests_of (trace (snd (run url out exts pw w))) = (requests_of (trace w) ++ l)%list
    /\ run_requests netloc_ok url pw l
    /\ (length l <= 2)%nat.
Proof.
  destruct (fetch_bundle_requests url out pw w) as (l & Hl & Hs).
  exists l. split; [|split; [exact Hs |]].
  - unfold run, download_and_extract_media_from_koofr. unfold bind at 1.
    destruct (fetch_bundle netloc_ok http_get json_loads py_str url out pw w)
      as [[content|e] w2]; cbn [snd] in Hl; [|exact Hl].
    rewrite <- Hl. apply same_requests.
    apply adds_only_bind; [apply adds_only_extract_media | intros; adds_step].
  - destruct Hs as [->|(id & q & _ & [->|(name & ->)])]; simpl; lia.
Qed.

(** What a successful download went through. *)
Lemma fetch_bundle_ok (url out : string) (pw : option string)
    (content : list Byte.byte) (w w2 : world) :
  fetch_bundle netloc_ok http_get json_loads py_str url out pw w = (Ok content, w2) ->
  exists w1 link_id query status body name status2,
    ensure_output_folder out w = (Ok tt, w1)
    /\ parse_link netloc_ok url = Ok (link_id, query)
    /\ http_get (api_url link_id query pw) None = Reply status body
    /\ is_http_error status = false
    /\ http_get (dl_url link_id name query pw) (Some url) = Reply status2 content
    /\ is_http_error status2 = false
    /\ w2 = log (Requested (dl_url link_id name query pw) (Some url) 60)
              (log (Printed MsgDownloading)
                 (log (Printed (MsgFoundBundle name))
                    (log (Requested (api_url link_id query pw) None 30)
                       (log (Printed (MsgFetching (api_url link_id query pw))) w1)))).
Proof.
  unfold fetch_bundle. unfold bind at 1.
  destruct (ensure_output_folder out w) as [[[]|e] w1]; [|discriminate].
  unfold bind at 1. unfold lift at 1.
  destruct (parse_link netloc_ok url) as [[link_id query]|e]; [|discriminate].
  unfold bind at 1. unfold fetch_metadata at 1.
  cbv beta delta [bind print requests_get ret] iota.
  destruct (http_get (api_url link_id query pw) None) as [|status body] eqn:Hh;
    [discriminate |].
  destruct (is_http_error status) eqn:Hs.
  { destruct (status =? 404)%Z; [|destruct (status =? 403)%Z]; discriminate. }
  destruct (bundle_name_of json_loads py_str body _) as [[name|e] w3] eqn:Hb;
    [|discriminate].
  apply bundle_name_of_ok in Hb. subst w3.
  unfold download_zip. cbv beta delta [bind print requests_get ret] iota.
  destruct (http_get (dl_url link_id name query pw) (Some url)) as [|status2 c] eqn:Hd;
    [discriminate |].
  destruct (is_http_error status2) eqn:Hs2; [discriminate |].
  intros [= <- <-].
  exists w1, link_id, query, status, body, name, status2.
  repeat (split; [first [reflexivity | assumption] |]). reflexivity.
Qed.

(** X3: the bytes handed to the extractor are the body of the reply to
    the download request, a reply that is no HTTP error; by then the run
    has made exactly the metadata request and the download request, and
    has written no file. *)
Theorem extractor_gets_download_body (url out : string) (pw : option string)
    (content : list Byte.byte) (w w2 : world) :
  fetch_bundle netloc_ok http_get json_loads py_str url out pw w = (Ok content, w2) ->
  exists link_id query bundle_name status,
    parse_link netloc_ok url = Ok (link_id, query)
    /\ http_get (dl_url link_id bundle_name query pw) (Some url) = Reply status content
    /\ is_http_error status = false
    /\ requests_of (trace w2)
       = (requests_of (trace w)
            ++ [(api_url link_id query pw, None, 30%Z);
                (dl_url link_id bundle_name query pw, Some url, 60%Z)])%list
    /\ writes_of (trace w2) = writes_of (trace w).
Proof.
  intros H. pose proof (fetch_bundle_ok _ _ _ _ _ _ H)
    as (w1 & link_id & query & status & body & name & status2
        & He & Hl & _ & _ & Hd & Hs2 & ->).
  exists link_id, query, name, status2.
  apply ensure_output_folder_ok in He as (Ht & _ & _).
  repeat (split; [assumption |]). split.
  - cbn [trace log]. rewrite !requests_of_app, Ht. simpl.
    now rewrite !app_nil_r, <- app_assoc.
  - cbn [trace log]. rewrite !writes_of_app, Ht. simpl. now rewrite !app_nil_r.
Qed.

End RunRequests.

(** ** Failed requests *)

Section RunFailures.

Variable netloc_ok : string -> bool.
Variable http_get : string -> option string -> http_reply.
Variable json_loads : list Byte.byte -> option Json.value.
Variable zip_infolist : list Byte.byte -> zip_open.
Variable py_str : Json.value -> string.

Let run := download_and_extract_media_from_koofr
             netloc_ok http_get json_loads zip_infolist py_str.

(** X4: when the metadata reply has a 4xx or 5xx status, the run prints
    the status, then the hint for an invalid link exactly when the status
    is 404 and the hint for a denied access exactly when it is 403, and
    exits with status 1.  The metadata request is the only request, and
    the file tree is the one the output folder step left. *)
Theorem metadata_http_error_aborts (url out : string) (exts : option (list string))
    (pw : option string) (link_id query : string) (status : Z)
    (body : list Byte.byte) (w w1 : world) :
  ensure_output_folder out w = (Ok tt, w1) ->
  parse_link netloc_ok url = Ok (link_id, query) ->
  http_get (api_url link_id query pw) None = Reply status body ->
  is_http_error status = true ->
  let u := api_url link_id query pw in
  let r := run url out exts pw w in
  fst r = Raise (SystemExit 1)
  /\ messages_of (trace (snd r))
     = (messages_of (trace w)
          ++ [MsgFetching u; MsgHttpError status]
          ++ (if (status =? 404)%Z then [MsgLinkGone]
              else if (status =? 403)%Z then [MsgAccessDenied] else []))%list
  /\ requests_of (trace (snd r)) = (requests_of (trace w) ++ [(u, None, 30%Z)])%list
  /\ fs (snd r) = fs w1.
Proof.
  intros He Hl Hh Hs u r. subst u r.
  set (wE := log (Printed (MsgHttpError status))
               (log (Requested (api_url link_id query pw) None 30)
                  (log (Printed (MsgFetching (api_url link_id query pw))) w1))).
  assert (Hrun : run url out exts pw w
                 = (Raise (SystemExit 1),
                    if (status =? 404)%Z then log (Printed MsgLinkGone) wE
                    else if (status =? 403)%Z then log (Printed MsgAccessDenied) wE
                    else wE)).
  { unfold run, download_and_extract_media_from_koofr.
    unfold bind at 1.
    rewrite (fetch_bundle_parsed netloc_ok http_get json_loads py_str
               url out pw w w1 link_id query He Hl).
    unfold fetch_metadata.
    cbv beta delta [bind print requests_get ret] iota. rewrite Hh, Hs.
    destruct (status =? 404)%Z; [|destruct (status =? 403)%Z]; reflexivity. }
  rewrite Hrun. subst wE.
  apply ensure_output_folder_ok in He as (Ht & _ & _).
  destruct (status =? 404)%Z; [|destruct (status =? 403)%Z];
    cbn [fst snd trace fs log];
    rewrite !messages_of_app, !requests_of_app, Ht; simpl;
    rewrite ?app_nil_r, <- ?app_assoc; auto.
Qed.

(** X5: when the metadata request gets no reply (timeout, connection
    error), the run prints the metadata failure and exits with status 1
    after that single request; the file tree is the one the output folder
    step left. *)
Theorem metadata_unreachable_aborts (url out : string) (exts : option (list string))
    (pw : option string) (link_id query : string) (w w1 : world) :
  ensure_output_folder out w = (Ok tt, w1) ->
  parse_link netloc_ok url = Ok (link_id, query) ->
  http_get (api_url link_id query pw) None = Unreachable ->
  let u := api_url link_id query pw in
  run url out exts pw w
  = (Raise (SystemExit 1),
     log (Printed MsgMetadataFailed) (log (Requested u None 30) (log (Printed (MsgFetching u)) w1)))
  /\ requests_of (trace (snd (run url out exts pw w)))
     = (requests_of (trace w) ++ [(u, None, 30%Z)])%list.
Proof.
  intros He Hl Hh u. subst u.
  assert (Hrun : run url out exts pw w
                 = (Raise (SystemExit 1),
                    log (Printed MsgMetadataFailed)
                      (log (Requested (api_url link_id query pw) None 30)
                         (log (Printed (MsgFetching (api_url link_id query pw))) w1)))).
  { unfold run, download_and_extract_media_from_koofr.
    unfold bind at 1.
    rewrite (fetch_bundle_parsed netloc_ok http_get json_loads py_str
               url out pw w w1 link_id query He Hl).
    unfold fetch_metadata.
    cbv beta delta [bind print requests_get ret] iota. now rewrite Hh. }
  split; [exact Hrun |]. rewrite Hrun. cbn [snd trace log].
  apply ensure_output_folder_ok in He as (-> & _ & _).
  rewrite !requests_of_app. simpl. now rewrite !app_nil_r.
Qed.

(** X6: when the metadata names a bundle and the download request gets
    no reply or a 4xx or 5xx status, the run prints the download failure
    and exits with status 1.  It has made the two requests, the second
    with the share link as [Referer]; the archive is never opened, no file
    is written, and the file tree is the one the output folder step
    left. *)
Theorem download_failure_aborts (url out : string) (exts : option (list string))
    (pw : option string) (link_id query name : string) (status : Z)
    (body : list Byte.byte) (members file_members : list (string * Json.value))
    (w w1 : world) :
  ensure_output_folder out w = (Ok tt, w1) ->
  parse_link netloc_ok url = Ok (link_id, query) ->
  http_get (api_url link_id query pw) None = Reply status body ->
  is_http_error status = false ->
  json_loads body = Some (Json.JObj members) ->
  Json.dict_get "file" members = Some (Json.JObj file_members) ->
  Json.dict_get "name" file_members = Some (Json.JStr name) ->
  Str.is_empty name = false ->
  failed (http_get (dl_url link_id name query pw) (Some url)) = true ->
  let u := api_url link_id query pw in
  let d := dl_url link_id name query pw in
  let r := run url out exts pw w in
  fst r = Raise (SystemExit 1)
  /\ messages_of (trace (snd r))
     = (messages_of (trace w)
          ++ [MsgFetching u; MsgFoundBundle name; MsgDownloading; MsgDownloadFailed])%list
  /\ requests_of (trace (snd r))
     = (requests_of (trace w) ++ [(u, None, 30%Z); (d, Some url, 60%Z)])%list
  /\ writes_of (trace (snd r)) = writes_of (trace w)
  /\ fs (snd r) = fs w1.
Proof.
  intros He Hl Hh Hs Hj Hf Hn Hne Hd u d r. subst u d r.
  assert (Hrun : run url out exts pw w
                 = (Raise (SystemExit 1),
                    log (Printed MsgDownloadFailed)
                      (log (Requested (dl_url link_id name query pw) (Some url) 60)
                         (log (Printed MsgDownloading)
                            (log (Printed (MsgFoundBundle name))
                               (log (Requested (api_url link_id query pw) None 30)
                                  (log (Printed (MsgFetching (api_url link_id query pw)))
                                     w1))))))).
  { unfold run, download_and_extract_media_from_koofr.
    unfold bind at 1.
    rewrite (fetch_bundle_parsed netloc_ok http_get json_loads py_str
               url out pw w w1 link_id query He Hl).
    unfold fetch_metadata.
    cbv beta delta [bind print requests_get ret] iota. rewrite Hh, Hs.
    unfold bundle_name_of. rewrite Hj, Hf, Hn. cbn [Json.truthy]. rewrite Hne.
    cbv beta delta [negb bind print ret] iota.
    unfold download_zip. cbv beta delta [bind print requests_get ret] iota.
    unfold failed in Hd.
    destruct (http_get (dl_url link_id name query pw) (Some url)) as [|status2 c];
      [|rewrite Hd]; reflexivity. }
  rewrite Hrun.
  apply ensure_output_folder_ok in He as (Ht & _ & _).
  cbn [fst snd trace fs log].
  rewrite !messages_of_app, !requests_of_app, !writes_of_app, Ht. simpl.
  rewrite ?app_nil_r, <- ?app_assoc. auto.
Qed.

End RunFailures.

(** ** What a run leaves on disk, and what it reports *)

Section RunEffects.

Variable netloc_ok : string -> bool.
Variable http_get : string -> option string -> http_reply.
Variable json_loads : list Byte.byte -> option Json.value.
Variable zip_infolist : list Byte.byte -> zip_open.
Variable py_str : Json.value -> string.

Let run := download_and_extract_media_from_koofr
             netloc_ok http_get json_loads zip_infolist py_str.

Lemma grows_ensure_output_folder (out : string) : grows (ensure_output_folder out).
Proof.
  unfold ensure_output_folder. apply grows_bind.
  - intros w. split; [reflexivity |]. exists []. now rewrite app_nil_r.
  - intros [|]; grows_step.
Qed.

Lemma grows_fetch_metadata (u : string) : grows (fetch_metadata http_get u).
Proof.
  unfold fetch_metadata. grows_step; [grows_step |].
  apply grows_bind; [apply grows_requests_get |].
  intros [|status content]; [repeat grows_step |].
  destruct (is_http_error status); [|grows_step].
  grows_step; [grows_step |]. grows_step; [|grows_step].
  destruct (status =? 404)%Z; [grows_step |].
  destruct (status =? 403)%Z; grows_step.
Qed.

Lemma grows_fetch_bundle (url out : string) (pw : option string) :
  grows (fetch_bundle netloc_ok http_get json_loads py_str url out pw).
Proof.
  unfold fetch_bundle. apply grows_bind; [apply grows_ensure_output_folder |].
  intros _. apply grows_bind; [apply grows_lift |].
  intros [link_id query]. apply grows_bind; [apply grows_fetch_metadata |].
  intros body. apply grows_bind; [apply grows_bundle_name_of |].
  intros name. apply grows_download_zip.
Qed.

Lemma keeps_tree_print (m : message) : keeps_tree (print m).
Proof. intros w. split; [apply extends_refl | reflexivity]. Qed.

Lemma keeps_tree_extract_media (content : list Byte.byte) (out : string)
    (exts : list string) :
  keeps_tree (extract_media zip_infolist content out exts).
Proof.
  intros w. unfold extract_media, except_BadZipFile.
  destruct (zip_infolist content) as [infos| | |];
    try (split; [apply extends_refl | reflexivity]).
  destruct (loop_again out exts infos 0 w) as (He & Hc & _).
  destruct (extract_loop out exts infos 0 w) as [[n|e] w1]; cbn [snd] in *;
    [now split |].
  destruct e; now split.
Qed.

Lemma keeps_tree_run (url out : string) (exts : option (list string))
    (pw : option string) :
  keeps_tree (run url out exts pw).
Proof.
  unfold run, download_and_extract_media_from_koofr.
  apply keeps_tree_bind.
  - apply keeps_tree_quiet; [apply grows_fetch_bundle | apply quiet_fetch_bundle].
  - intros content. apply keeps_tree_bind; [apply keeps_tree_extract_media |].
    intros; apply keeps_tree_print.
Qed.

(** X7: a run never deletes and never turns a directory into a file or
    a file into a directory: however it ends, every directory of the
    initial tree is a directory afterwards and every regular file is a
    regular file afterwards; the working directory is the same. *)
Theorem run_never_deletes (url out : string) (exts : option (list string))
    (pw : option string) (w : world) (k : Fs.loc) :
  cwd (snd (run url out exts pw w)) = cwd w
  /\ (fs w !! k = Some Fs.Dir -> fs (snd (run url out exts pw w)) !! k = Some Fs.Dir)
  /\ (forall d, fs w !! k = Some (Fs.File d) ->
        exists d', fs (snd (run url out exts pw w)) !! k = Some (Fs.File d')).
Proof.
  destruct (keeps_tree_run url out exts pw w) as [He Hc].
  split; [exact Hc |]. specialize (He k). split.
  - intros E. now rewrite E in He.
  - intros d E. now rewrite E in He.
Qed.

(** X8: a run that returns has printed, as its last line, the closing
    message with the output folder and a total that is the number of
    files it wrote; it has made two requests. *)
Theorem done_reports_writes (url out : string) (exts : option (list string))
    (pw : option string) (w w' : world) :
  run url out exts pw w = (Ok tt, w') ->
  exists l n,
    trace w' = (trace w ++ l)%list
    /\ last l = Some (Printed (MsgDone n out))
    /\ length (writes_of l) = n
    /\ length (requests_of l) = 2%nat.
Proof.
  unfold run, download_and_extract_media_from_koofr. unfold bind at 1.
  destruct (fetch_bundle netloc_ok http_get json_loads py_str url out pw w)
    as [[content|e] w2] eqn:Hf; [|discriminate].
  unfold bind at 1.
  set (es := match exts with Some l => l | None => default_media_extensions end).
  destruct (extract_media zip_infolist content out es w2) as [[n|e] w3] eqn:Hx;
    [|discriminate].
  unfold print. intros [= <-].
  destruct (grows_extract_media zip_infolist content out es w2) as [_ (l2 & E2)].
  rewrite Hx in E2. cbn [snd] in E2.
  pose proof (same_requests (extract_media zip_infolist content out es) w2
                (adds_only_extract_media zip_infolist content out es)) as Hr2.
  rewrite Hx in Hr2. cbn [snd] in Hr2.
  apply extract_media_ok in Hx as (infos & Hz & Hloop).
  destruct (loop_writes _ _ _ _ _ _ _ Hloop) as [Hw3 Hn].
  rewrite E2 in Hr2, Hw3.
  rewrite requests_of_app in Hr2. rewrite writes_of_app in Hw3.
  apply app_inv_head in Hw3.
  rewrite <- (app_nil_r (requests_of (trace w2))) in Hr2 at 2.
  apply app_inv_head in Hr2.
  apply (fetch_bundle_ok netloc_ok http_get json_loads py_str) in Hf
    as (w1 & id & q & st & body & name & st2 & He & _ & _ & _ & _ & _ & Hw2).
  apply ensure_output_folder_ok in He as (Ht & _ & _).
  set (u := api_url id q pw) in *. set (dl := dl_url id name q pw) in *.
  exists ([Printed (MsgFetching u); Requested u None 30; Printed (MsgFoundBundle name);
           Printed MsgDownloading; Requested dl (Some url) 60]
          ++ l2 ++ [Printed (MsgDone n out)])%list, n.
  split; [|split; [|split]].
  - cbn [trace log]. rewrite E2, Hw2. cbn [trace log]. rewrite Ht, <- !app_assoc.
    reflexivity.
  - now rewrite !app_assoc, last_snoc.
  - rewrite !writes_of_app, Hw3. simpl. rewrite app_nil_r.
    unfold expected_writes. rewrite length_map. simpl in Hn. now rewrite Hn.
  - rewrite !requests_of_app, Hr2. reflexivity.
Qed.

End RunEffects.

(** ** The loop over the archive *)

Section LoopProperties.

Variable netloc_ok : string -> bool.
Variable http_get : string -> option string -> http_reply.
Variable json_loads : list Byte.byte -> option Json.value.
Variable zip_infolist : list Byte.byte -> zip_open.
Variable py_str : Json.value -> string.

Let run := download_and_extract_media_from_koofr
             netloc_ok http_get json_loads zip_infolist py_str.

Variable out : string.
Variable exts : list string.

Lemma loop_nothing_selected (infos : list ZipInfo) (total : nat) (w : world) :
  all_named infos = true ->
  List.filter (selected exts) infos = [] ->
  extract_loop out exts infos total w = (Ok total, w).
Proof.
  induction infos as [|info rest IH]; intros Hn H; [reflexivity |].
  rewrite extract_loop_cons.
  cbn [all_named forallb] in Hn. apply andb_true_iff in Hn as [Hi Hn].
  apply negb_true_iff in Hi. rewrite Hi.
  cbn [List.filter] in H. unfold selected in H at 1.
  destruct (is_dir_name info); cbn [negb andb] in H; [now apply IH |].
  destruct (matches exts (filename info)); [discriminate | now apply IH].
Qed.

(** The loop over an archive is the loop over its first part followed
    by the loop over the rest, which starts from the count reached. *)
Lemma loop_app (a b : list ZipInfo) (total : nat) (w : world) :
  extract_loop out exts (a ++ b)%list total w
  = bind (extract_loop out exts a total) (extract_loop out exts b) w.
Proof.
  revert total w. induction a as [|info rest IH]; intros total w.
  - reflexivity.
  - cbn [app]. rewrite !extract_loop_cons.
    destruct (Str.is_empty (filename info)); [reflexivity |].
    destruct (is_dir_name info); [apply IH |].
    destruct (matches exts (filename info)); [|apply IH].
    unfold bind at 1 2 3.
    destruct (extract_member out info w) as [[[]|e] w1]; [apply IH | reflexivity].
Qed.


(** X9: when no member of the archive has the empty name and none is
    selected (every one is a directory entry or has another suffix),
    extraction reports zero and leaves the world as it was: no directory
    is created, nothing is printed. *)
Theorem nothing_selected_changes_nothing (content : list Byte.byte)
    (infos : list ZipInfo) (w : world) :
  zip_infolist content = Archive infos ->
  all_named infos = true ->
  List.filter (selected exts) infos = [] ->
  extract_media zip_infolist content out exts w = (Ok 0%nat, w).
Proof.
  intros Hz Hn Hf. unfold extract_media, except_BadZipFile. rewrite Hz.
  now rewrite (loop_nothing_selected infos 0 w Hn Hf).
Qed.





(** X25: on CPython 3.11, a member with the empty name makes the
    [IndexError] of [is_dir] escape: the handler of the extraction does
    not catch it, no total is reported and the members after it are not
    looked at, while the files of the members before it stay written. *)
Theorem empty_member_name_raises (content : list Byte.byte)
    (pre post : list ZipInfo) (info : ZipInfo) (n : nat) (w w1 : world) :
  zip_infolist content = Archive (pre ++ info :: post)%list ->
  filename info = "" ->
  extract_loop out exts pre 0 w = (Ok n, w1) ->
  extract_media zip_infolist content out exts w = (Raise IndexError, w1)
  /\ writes_of (trace w1) = (writes_of (trace w) ++ expected_writes out exts pre)%list.
Proof.
  intros Hz Hname Hpre. split; [|now apply loop_writes in Hpre].
  unfold extract_media, except_BadZipFile. rewrite Hz, loop_app.
  unfold bind. rewrite Hpre, extract_loop_cons, Hname. reflexivity.
Qed.

End LoopProperties.

Section ExtensionList.

Variable netloc_ok : string -> bool.
Variable http_get : string -> option string -> http_reply.
Variable json_loads : list Byte.byte -> option Json.value.
Variable zip_infolist : list Byte.byte -> zip_open.
Variable py_str : Json.value -> string.

Let run := download_and_extract_media_from_koofr
             netloc_ok http_get json_loads zip_infolist py_str.

Lemma nothing_selected_by_no_suffix (infos : list ZipInfo) :
  List.filter (selected []) infos = [].
Proof.
  induction infos as [|info rest IH]; [reflexivity |].
  cbn [List.filter]. unfold selected at 1. cbn [matches existsb].
  now rewrite andb_false_r.
Qed.

(** X12: only a missing list of suffixes is replaced by the default
    one.  With the empty list the run still downloads and opens the
    archive, then extracts nothing whatever the named members of the
    archive are, and reports a total of zero. *)
Theorem empty_suffix_list_is_kept (url out : string) (pw : option string)
    (content : list Byte.byte) (infos : list ZipInfo) (w w2 : world) :
  fetch_bundle netloc_ok http_get json_loads py_str url out pw w = (Ok content, w2) ->
  zip_infolist content = Archive infos ->
  all_named infos = true ->
  run url out (Some []) pw w = (Ok tt, log (Printed (MsgDone 0 out)) w2).
Proof.
  intros Hf Hz Hn. unfold run, download_and_extract_media_from_koofr.
  unfold bind at 1. rewrite Hf. unfold bind at 1.
  unfold extract_media, except_BadZipFile. rewrite Hz.
  now rewrite (loop_nothing_selected out [] infos 0 w2 Hn
                 (nothing_selected_by_no_suffix infos)).
Qed.

End ExtensionList.

(** ** Where the destinations lie *)

Section Confinement.

Import Fs.

Lemma components_slash_app (a b : string) :
  components (a ++ String "/" b) = (components a ++ components b)%list.
Proof.
  induction a as [|c a IH]; [reflexivity |].
  cbn [String.append components]. rewrite IH.
  destruct (Str.eqc c "/"); [reflexivity |].
  pose proof (components_not_nil a) as Hn.
  destruct (components a) as [|x xs]; [now destruct Hn | reflexivity].
Qed.

Lemma lstrip_no_lead (c : ascii) (s : string) :
  Str.startswith (Str.lstrip c s) (String c "") = false.
Proof.
  induction s as [|a s IH]; [reflexivity |].
  cbn [Str.lstrip]. destruct (Str.eqc a c) eqn:E; [exact IH |].
  cbn [Str.startswith]. destruct (Str.eqc c a) eqn:E'; [|reflexivity].
  apply eqc_eq in E'. subst a. now rewrite eqc_refl in E.
Qed.

Lemma str_take_drop (n : nat) (s : string) : Str.take n s ++ Str.drop n s = s.
Proof.
  revert n. induction s as [|a s IH]; intros [|n]; try reflexivity.
  cbn [Str.take Str.drop String.append]. now rewrite IH.
Qed.

Lemma endswith_app (s p : string) :
  Str.endswith s p = true -> exists h, s = h ++ p.
Proof.
  unfold Str.endswith. intros H. apply andb_true_iff in H as [_ H].
  apply String.eqb_eq in H.
  set (n := (String.length s - String.length p)%nat) in *.
  exists (Str.take n s). rewrite <- H. symmetry. apply str_take_drop.
Qed.

Lemma start_app (cwd : loc) (a b : string) :
  a <> "" -> start cwd (a ++ b) = start cwd a.
Proof. destruct a as [|c a]; [congruence | reflexivity]. Qed.

(** Without [..], resolution only goes down. *)
Lemma walk_down (t : tree) (cs : list string) (cur k : loc) :
  no_dotdot cs = true -> walk t cur cs = Some k -> exists ks, k = (ks ++ cur)%list.
Proof.
  revert cur. induction cs as [|c cs IH]; intros cur Hn Hw.
  - injection Hw as <-. now exists [].
  - cbn [no_dotdot forallb] in Hn. apply andb_true_iff in Hn as [Hc Hn].
    cbn [walk] in Hw. destruct (is_dir_at t cur); [|discriminate].
    destruct (IH _ Hn Hw) as (ks & ->). unfold step.
    destruct (String.eqb c "" || String.eqb c "."); [now exists ks |].
    apply negb_true_iff in Hc. rewrite Hc.
    exists (ks ++ [c])%list. now rewrite <- app_assoc.
Qed.

Lemma under_app (dir ks : loc) : under dir (ks ++ dir) = true.
Proof.
  unfold under. apply bool_decide_eq_true.
  rewrite length_app, Nat.add_sub. apply drop_app_length.
Qed.

(** The destination is resolved from the output folder on. *)
Lemma resolve_extract_path (t : tree) (cwd : loc) (out name : string) (o k : loc) :
  resolve t cwd out = Some o ->
  resolve t cwd (extract_path out name) = Some k ->
  walk t o (components (Str.lstrip "/" name)) = Some k.
Proof.
  unfold extract_path, OsPath.join. rewrite lstrip_no_lead.
  set (b := Str.lstrip "/" name).
  unfold resolve. destruct (Str.is_empty out) eqn:Ho; [discriminate |].
  assert (Hne : out <> "") by (intros ->; discriminate).
  cbn [orb]. destruct (Str.endswith out "/") eqn:He.
  - apply endswith_app in He as (h & ->).
    replace ((h ++ "/") ++ b) with (h ++ String "/" b)
      by (now rewrite append_assoc).
    replace (h ++ "/") with (h ++ String "/" "") in * by reflexivity.
    intros H1.
    assert (Hb : Str.is_empty (h ++ String "/" b) = false) by (now destruct h).
    rewrite Hb.
    assert (Hs : start cwd (h ++ String "/" b) = start cwd (h ++ String "/" ""))
      by (now destruct h).
    rewrite Hs, !components_slash_app in *.
    rewrite walk_app in H1. rewrite walk_app.
    destruct (walk t (start cwd (h ++ String "/" "")) (components h)) as [o1|];
      [|discriminate].
    cbn [components walk] in H1. destruct (is_dir_at t o1); [|discriminate].
    now injection H1 as <-.
  - intros H1.
    replace (out ++ "/" ++ b) with (out ++ String "/" b) by reflexivity.
    assert (Hb : Str.is_empty (out ++ String "/" b) = false) by (now destruct out).
    rewrite Hb, start_app, components_slash_app, walk_app, H1 by exact Hne.
    trivial.
Qed.

(** X13: on a POSIX system, in a tree without symbolic links, the
    destination of a member lies in the output folder whenever no name of
    the member's path, taken after its leading slashes, is [..]; a member
    with an absolute name is confined as well, its leading slashes being
    dropped. *)
Theorem extraction_confined (t : tree) (cwd : loc) (out name : string) (o k : loc) :
  resolve t cwd out = Some o ->
  no_dotdot (components (Str.lstrip "/" name)) = true ->
  resolve t cwd (extract_path out name) = Some k ->
  under o k = true.
Proof.
  intros Ho Hn Hk.
  pose proof (resolve_extract_path _ _ _ _ _ _ Ho Hk) as Hw.
  destruct (walk_down _ _ _ _ Hn Hw) as (ks & ->).
  apply under_app.
Qed.

End Confinement.

Lemma extraction_confined_witness :
  extract_path "downloads" "//sub/c.png" = "downloads/sub/c.png"
  /\ under ["downloads"; "user"; "home"] ["c.png"; "sub"; "downloads"; "user"; "home"]
     = true.
Proof.
  split; [reflexivity |].
  apply (extraction_confined
           (<[ ["sub"; "downloads"; "user"; "home"] := Fs.Dir ]>
              (fs Sample.home_with_downloads))
           ["user"; "home"] "downloads" "//sub/c.png"); vm_compute; reflexivity.
Defined.

(** ** The shape of what the link parser returns *)

Section ParserShape.

Lemma startswith_app (s p : string) :
  Str.startswith s p = true -> s = p ++ Str.drop (String.length p) s.
Proof.
  revert s. induction p as [|a p IH]; intros s H; [reflexivity |].
  destruct s as [|b s]; [discriminate |].
  cbn [Str.startswith] in H. apply andb_true_iff in H as [E H].
  apply eqc_eq in E. subst b.
  cbn [String.length Str.drop String.append]. now rewrite <- IH.
Qed.

Lemma startswith_self_app (p x : string) : Str.startswith (p ++ x) p = true.
Proof.
  induction p as [|a p IH]; [reflexivity |].
  cbn [String.append Str.startswith]. now rewrite eqc_refl, IH.
Qed.

Lemma startswith_take (n : nat) (s p : string) :
  Str.startswith (Str.take n s) p = true -> Str.startswith s p = true.
Proof.
  revert n s. induction p as [|a p IH]; intros n s H; [reflexivity |].
  destruct n as [|n]; [discriminate |].
  destruct s as [|b s]; [discriminate |].
  cbn [Str.take Str.startswith] in *.
  apply andb_true_iff in H as [E H]. rewrite E. cbn [andb]. now apply (IH n).
Qed.

Lemma find_unfold (sep s : string) :
  Str.find sep s
  = if Str.startswith s sep then Some O
    else match s with
         | EmptyString => None
         | String _ s' => option_map S (Str.find sep s')
         end.
Proof. now destruct s. Qed.

(** [find] returns the place of an occurrence... *)
Lemma find_some_split (sep s : string) (i : nat) :
  Str.find sep s = Some i ->
  s = Str.take i s ++ sep ++ Str.drop (i + String.length sep) s.
Proof.
  revert i. induction s as [|a s IH]; intros i; rewrite find_unfold.
  - destruct (Str.startswith "" sep) eqn:E; [|discriminate].
    intros [= <-]. now apply startswith_app in E.
  - destruct (Str.startswith (String a s) sep) eqn:E.
    + intros [= <-]. now apply startswith_app in E.
    + destruct (Str.find sep s) as [j|]; [|discriminate].
      intros [= <-]. cbn [Str.take Nat.add Str.drop String.append].
      now rewrite <- (IH j eq_refl).
Qed.

(** ... and of the leftmost one. *)
Lemma find_take_none (sep s : string) (i : nat) :
  sep <> "" -> Str.find sep s = Some i -> Str.find sep (Str.take i s) = None.
Proof.
  intros Hsep. revert i. induction s as [|a s IH]; intros i; rewrite find_unfold.
  - destruct (Str.startswith "" sep); [|discriminate].
    intros [= <-]. now apply find_empty_string.
  - destruct (Str.startswith (String a s) sep) eqn:E.
    + intros [= <-]. now apply find_empty_string.
    + destruct (Str.find sep s) as [j|] eqn:Ej; [|discriminate].
      intros [= <-]. cbn [Str.take]. rewrite find_unfold.
      destruct (Str.startswith (String a (Str.take j s)) sep) eqn:E'.
      * apply (startswith_take (S j) (String a s)) in E'. congruence.
      * now rewrite (IH j eq_refl).
Qed.

Lemma contains_false (sep s : string) :
  Str.find sep s = None -> Str.contains sep s = false.
Proof. unfold Str.contains. now intros ->. Qed.

(** The second part of a split lies between the first two separators,
    or after the only one. *)
Lemma split_second (sep s : string) :
  sep <> "" ->
  (length (Str.split sep s) <? 2)%nat = false ->
  exists pre rest,
    s = pre ++ sep ++ nth 1 (Str.split sep s) "" ++ rest
    /\ Str.find sep pre = None
    /\ Str.find sep (nth 1 (Str.split sep s) "") = None
    /\ (rest = "" \/ Str.startswith rest sep = true).
Proof.
  intros Hsep. unfold Str.split.
  destruct (String.length s) as [|f] eqn:Hlen; [discriminate |].
  cbn [Str.split_fuel].
  destruct (Str.find sep s) as [i|] eqn:Hi; [|discriminate].
  intros _. cbn [nth].
  set (s2 := Str.drop (i + String.length sep) s).
  assert (Hl2 : (String.length s2 <= f)%nat).
  { unfold s2. rewrite length_drop, Hlen.
    destruct sep as [|c sep]; [congruence |]. cbn [String.length]. lia. }
  rewrite (split_fuel_enough sep f (S (String.length s2)) s2 Hsep Hl2)
    by lia.
  cbn [Str.split_fuel].
  pose proof (find_some_split _ _ _ Hi) as Hs. fold s2 in Hs.
  pose proof (find_take_none _ _ _ Hsep Hi) as Hpre.
  destruct (Str.find sep s2) as [j|] eqn:Hj; cbn [nth].
  - exists (Str.take i s), (sep ++ Str.drop (j + String.length sep) s2).
    split; [|split; [exact Hpre | split]].
    + now rewrite <- (find_some_split _ _ _ Hj).
    + now apply find_take_none.
    + right. apply startswith_self_app.
  - exists (Str.take i s), "". rewrite append_empty_r.
    split; [exact Hs |]. split; [exact Hpre |]. split; [exact Hj | now left].
Qed.

Variable netloc_ok : string -> bool.

(** X14: what the parser accepts and returns.  When the parser returns
    an identifier, the path of the URL is [pre ++ "/links/" ++ id ++ rest]
    where neither [pre] nor the identifier contains the marker and [rest]
    is empty or starts with a further marker: the identifier is what
    lies between the first marker and the next one, or the end of the
    path.  It holds no question mark, and the query returned with it is
    that of the URL, or [path=%2F] when the URL has none; it is never
    empty. *)
Theorem parsed_link_shape (url id q : string) :
  parse_link netloc_ok url = Ok (id, q) ->
  exists p pre rest,
    Url.urlparse netloc_ok url = Some p
    /\ Url.path p = pre ++ "/links/" ++ id ++ rest
    /\ Str.contains "/links/" pre = false
    /\ Str.contains "/links/" id = false
    /\ Str.has_char "?" id = false
    /\ (rest = "" \/ Str.startswith rest "/links/" = true)
    /\ q = (if Str.is_empty (Url.query p) then "path=%2F" else Url.query p)
    /\ Str.is_empty q = false.
Proof.
  unfold parse_link.
  destruct (Url.urlparse netloc_ok url) as [p|] eqn:Hp; [|discriminate].
  destruct (length (Str.split "/links/" (Url.path p)) <? 2)%nat eqn:Hlen;
    [discriminate |].
  destruct (split_second "/links/" (Url.path p) ltac:(discriminate) Hlen)
    as (pre & rest & Hs & Hpre & Hid & Hrest).
  set (raw := nth 1 (Str.split "/links/" (Url.path p)) "") in *.
  pose proof (urlparse_path_no_query _ _ _ Hp) as Hq.
  rewrite Hs, !has_char_app in Hq.
  apply orb_false_iff in Hq as [_ Hq]. apply orb_false_iff in Hq as [_ Hq].
  apply orb_false_iff in Hq as [Hq _].
  rewrite (split_absent "?" raw (find_absent_char _ _ Hq)). cbn [hd].
  intros [= <- <-]. exists p, pre, rest.
  split; [reflexivity |]. split; [exact Hs |].
  split; [now apply contains_false |]. split; [now apply contains_false |].
  split; [exact Hq |]. split; [exact Hrest |]. split; [reflexivity |].
  now destruct (Url.query p).
Qed.

(** X15: a link whose path ends with the marker is not rejected: the
    parser returns the empty identifier, so the metadata address of such
    a run has an empty link segment. *)
Theorem empty_link_id_accepted (host tail : string) (pw : option string) :
  plain host = true -> netloc_ok host = true -> query_tail tail = true ->
  exists query,
    parse_link netloc_ok ("https://" ++ host ++ "/links/" ++ tail) = Ok ("", query)
    /\ api_url "" query pw
       = "https://app.koofr.net/api/v2/public/links//bundle?" ++ query ++ password_param pw.
Proof.
  intros Hh Hn Ht.
  destruct (share_link_id netloc_ok host "" tail Hh eq_refl Hn Ht) as (query & Hq).
  exists query. split; [exact Hq | reflexivity].
Qed.

End ParserShape.

Lemma parsed_link_shape_witness :
  exists p pre rest,
    Url.urlparse Sample.netloc_ok Sample.share_url = Some p
    /\ Url.path p = pre ++ "/links/" ++ "c1fab741-0e23-4516-8f30-1bc31814aea0" ++ rest
    /\ Str.contains "/links/" pre = false
    /\ Str.contains "/links/" "c1fab741-0e23-4516-8f30-1bc31814aea0" = false
    /\ Str.has_char "?" "c1fab741-0e23-4516-8f30-1bc31814aea0" = false
    /\ (rest = "" \/ Str.startswith rest "/links/" = true)
    /\ "path=%2FBreanna%20Ly"
       = (if Str.is_empty (Url.query p) then "path=%2F" else Url.query p)
    /\ Str.is_empty "path=%2FBreanna%20Ly" = false.
Proof.
  apply (parsed_link_shape Sample.netloc_ok Sample.share_url). vm_compute. reflexivity.
Defined.

Lemma empty_link_id_accepted_witness :
  exists query,
    parse_link Sample.netloc_ok "https://app.koofr.net/links/?path=%2F" = Ok ("", query)
    /\ api_url "" query None
       = "https://app.koofr.net/api/v2/public/links//bundle?" ++ query ++ "&password=".
Proof.
  apply (empty_link_id_accepted Sample.netloc_ok "app.koofr.net" "?path=%2F" None);
    reflexivity.
Defined.

(** ** Quoting *)

Section Quoting.

Lemma all_chars_app (p : ascii -> bool) (a b : string) :
  Str.all_chars p (a ++ b) = Str.all_chars p a && Str.all_chars p b.
Proof.
  induction a as [|c a IH]; [reflexivity |].
  cbn [String.append Str.all_chars]. now rewrite IH, andb_assoc.
Qed.

Lemma all_chars_impl (p q : ascii -> bool) (s : string) :
  (forall c, p c = true -> q c = true) ->
  Str.all_chars p s = true -> Str.all_chars q s = true.
Proof.
  intros Hpq. induction s as [|c s IH]; [reflexivity |].
  cbn [Str.all_chars]. intros H. apply andb_true_iff in H as [Hc Hs].
  now rewrite (Hpq c Hc), IH.
Qed.

Lemma quote_char_quoted (c : ascii) :
  Str.all_chars is_quoted_char (Url.quote_char c) = true.
Proof. destruct c as [[|] [|] [|] [|] [|] [|] [|] [|]]; vm_compute; reflexivity. Qed.

Lemma quote_quoted (s : string) : Str.all_chars is_quoted_char (Url.quote s) = true.
Proof.
  induction s as [|c s IH]; [reflexivity |].
  cbn [Url.quote]. now rewrite all_chars_app, quote_char_quoted, IH.
Qed.

Lemma quoted_char_no_delimiter (c : ascii) :
  is_quoted_char c = true -> negb (is_delimiter c) = true.
Proof.
  destruct c as [[|] [|] [|] [|] [|] [|] [|] [|]]; vm_compute; intros H;
    first [reflexivity | discriminate].
Qed.

Lemma quote_free_of_delimiters (s : string) : free_of_delimiters (Url.quote s) = true.
Proof.
  unfold free_of_delimiters.
  apply (all_chars_impl is_quoted_char); [apply quoted_char_no_delimiter |].
  apply quote_quoted.
Qed.

(** X16: quoting leaves only letters, digits, [_.-~/] and percent
    escapes.  So the value of the password parameter and the file name in
    the download address never hold a question mark, a hash, an ampersand,
    an equals sign, a semicolon or a space, whatever the password and the
    bundle name are; a missing or empty password gives the empty value. *)
Theorem quoted_parts_hold_no_delimiter (password : option string) (bundle_name : string) :
  (exists v, password_param password = "&password=" ++ v
             /\ free_of_delimiters v = true
             /\ (v = "" <-> password = None \/ password = Some ""))
  /\ free_of_delimiters (Url.quote (bundle_name ++ ".zip")) = true.
Proof.
  split; [|apply quote_free_of_delimiters].
  destruct password as [[|c s]|].
  - exists "". split; [reflexivity |]. split; [reflexivity |]. split; auto.
  - exists (Url.quote (String c s)). split; [reflexivity |].
    split; [apply quote_free_of_delimiters |]. split.
    + intros H. exfalso. cbn [Url.quote] in H.
      assert (Hl : String.length (Url.quote_char c ++ Url.quote s) = 0%nat)
        by (now rewrite H).
      rewrite length_append in Hl.
      assert (0 < String.length (Url.quote_char c))%nat; [|lia].
      clear. destruct c as [[|] [|] [|] [|] [|] [|] [|] [|]]; vm_compute; lia.
    + intros [H|H]; discriminate.
  - exists "". split; [reflexivity |]. split; [reflexivity |]. split; auto.
Qed.

End Quoting.

(** ** The entry point *)

Section ScriptProperties.

Variable netloc_ok : string -> bool.
Variable http_get : string -> option string -> http_reply.
Variable json_loads : list Byte.byte -> option Json.value.
Variable zip_infolist : list Byte.byte -> zip_open.
Variable py_str : Json.value -> string.

Let run := download_and_extract_media_from_koofr
             netloc_ok http_get json_loads zip_infolist py_str.

Let the_script := script netloc_ok http_get json_loads zip_infolist py_str.

Lemma script_final (link : string) (w : world) :
  Str.contains "PASTE_YOUR_KOOFR_LINK_HERE" link = false ->
  final (the_script link w) = snd (run link "koofr_downloads" None None w).
Proof.
  intros H. unfold the_script, script, run. rewrite H.
  destruct (download_and_extract_media_from_koofr _ _ _ _ _ _ _ _ _ w) as [[[]|e] w'];
    [reflexivity |].
  now destruct (is_Exception e).
Qed.

(** X17: the script ends normally or with [SystemExit 1], never with
    another exception.  Its exit status is 1 exactly when the link is
    still the placeholder or the function exited with status 1 itself;
    every other failure of the function is reported as an unexpected
    error and the script ends with status 0.  With the placeholder the
    function is not called and the world stays as it was. *)
Theorem script_exit_status (link : string) (w : world) :
  let r := the_script link w in
  let placeholder := Str.contains "PASTE_YOUR_KOOFR_LINK_HERE" link in
  (outcome r = Ok tt \/ outcome r = Raise (SystemExit 1))
  /\ (exit_status (outcome r) = 1%Z
      <-> placeholder = true
          \/ fst (run link "koofr_downloads" None None w) = Raise (SystemExit 1))
  /\ (placeholder = true -> final r = w /\ said_last r = [])
  /\ (forall e, placeholder = false ->
        fst (run link "koofr_downloads" None None w) = Raise e ->
        e <> SystemExit 1 ->
        outcome r = Ok tt /\ said_last r = [SaidUnexpected e]).
Proof.
  intros r placeholder. subst r placeholder. unfold the_script, script.
  destruct (Str.contains "PASTE_YOUR_KOOFR_LINK_HERE" link).
  { cbn [outcome final said_last exit_status].
    split; [now right |]. split; [split; auto |]. split; [auto |].
    intros e; discriminate. }
  pose proof (raises_only_run netloc_ok http_get json_loads zip_infolist py_str
                link "koofr_downloads" None None w) as Hr.
  fold run in Hr |- *.
  destruct (run link "koofr_downloads" None None w) as [[[]|e] w']; cbn [fst] in *.
  - cbn [outcome exit_status]. split; [now left |].
    split; [split; [discriminate | intros [|]; discriminate] |].
    split; [discriminate |]. intros e; discriminate.
  - destruct (Hr e eq_refl) as [_ Hc].
    destruct e; cbn [is_Exception outcome said_last exit_status];
      try (split; [now left |];
           split; [split; [discriminate | intros [|]; discriminate] |];
           split; [discriminate |]; intros e' _ [= <-] _; now split).
    rewrite (Hc code eq_refl).
    split; [now right |]. split; [split; auto |]. split; [discriminate |].
    intros e' _ [= <-] Hne. now destruct Hne.
Qed.

(** X18: a link that parses but has no [/links/] marker in its path
    does not make the script fail: the error of the link check, or the
    [OSError] of a failed creation of [koofr_downloads], is reported as
    an unexpected error and the exit status is 0; no request is made. *)
Theorem script_reports_bad_link (link : string) (p : Url.ParseResult) (w : world) :
  Str.contains "PASTE_YOUR_KOOFR_LINK_HERE" link = false ->
  Url.urlparse netloc_ok link = Some p ->
  Str.contains "/links/" (Url.path p) = false ->
  let r := the_script link w in
  exit_status (outcome r) = 0%Z
  /\ (said_last r = [SaidUnexpected InvalidLinkFormat]
      \/ said_last r = [SaidUnexpected OSError])
  /\ requests_of (trace (final r)) = requests_of (trace w).
Proof.
  intros Hph Hp Hc r. subst r.
  assert (Hrun : exists w1,
             (run link "koofr_downloads" None None w = (Raise InvalidLinkFormat, w1)
              \/ run link "koofr_downloads" None None w = (Raise OSError, w1))
             /\ requests_of (trace w1) = requests_of (trace w)).
  { pose proof (same_requests (ensure_output_folder "koofr_downloads") w
                  (adds_only_ensure_output_folder _ _)) as Hq.
    pose proof (raises_only_ensure_output_folder "koofr_downloads" w) as He.
    destruct (ensure_output_folder "koofr_downloads" w) as [[[]|e] w1] eqn:Hens;
      cbn [fst snd] in *; exists w1; (split; [|exact Hq]).
    - left. unfold run, download_and_extract_media_from_koofr, fetch_bundle.
      unfold bind at 1. unfold bind at 1. rewrite Hens.
      unfold bind at 1. unfold lift.
      now rewrite (parse_link_no_marker _ _ _ Hp Hc).
    - right. unfold run, download_and_extract_media_from_koofr, fetch_bundle.
      unfold bind at 1. unfold bind at 1. rewrite Hens.
      now rewrite (He e eq_refl). }
  destruct Hrun as (w1 & Hrun & Hq).
  unfold the_script, script. rewrite Hph. fold run.
  destruct Hrun as [-> | ->]; cbn [is_Exception outcome said_last final exit_status];
    (split; [reflexivity |]); (split; [auto | exact Hq]).
Qed.

(** X19: the script as it stands, run where [koofr_downloads] exists or
    can be created, starts with the metadata request for the link it
    carries: identifier [c1fab741-0e23-4516-8f30-1bc31814aea0], query
    [path=%2FBreanna%20Ly], empty password. *)
Theorem main_first_request (w w1 : world) :
  netloc_ok "app.koofr.net" = true ->
  ensure_output_folder "koofr_downloads" w = (Ok tt, w1) ->
  let target :=
    "https://app.koofr.net/api/v2/public/links/c1fab741-0e23-4516-8f30-1bc31814aea0/bundle?path=%2FBreanna%20Ly&password=" in
  said_first (main netloc_ok http_get json_loads zip_infolist py_str w) = [SaidBanner]
  /\ exists later,
       trace (final (main netloc_ok http_get json_loads zip_infolist py_str w))
       = (trace w ++ Printed (MsgFetching target) :: Requested target None 30 :: later)%list.
Proof.
  intros Hn He target.
  set (link := "https://app.koofr.net/links/c1fab741-0e23-4516-8f30-1bc31814aea0?path=%2FBreanna%20Ly").
  assert (Hph : Str.contains "PASTE_YOUR_KOOFR_LINK_HERE" link = false)
    by (vm_compute; reflexivity).
  assert (Hl : parse_link netloc_ok link
               = Ok ("c1fab741-0e23-4516-8f30-1bc31814aea0", "path=%2FBreanna%20Ly")).
  { unfold parse_link, Url.urlparse. cbv. rewrite Hn. reflexivity. }
  split.
  { unfold main, script. fold link. rewrite Hph.
    destruct (download_and_extract_media_from_koofr _ _ _ _ _ _ _ _ _ w)
      as [[[]|e] w']; [reflexivity |].
    now destruct (is_Exception e). }
  unfold main. fold link. fold the_script. rewrite (script_final link w Hph).
  apply ensure_output_folder_ok in He as Hw. destruct Hw as (Htr & _ & _).
  unfold run, download_and_extract_media_from_koofr.
  destruct (bind_extends
              (fetch_bundle netloc_ok http_get json_loads py_str link
                 "koofr_downloads" None)
              (fun content =>
                 let* total_extracted :=
                   extract_media zip_infolist content "koofr_downloads"
                     default_media_extensions in
                 print (MsgDone total_extracted "koofr_downloads")) w) as (l1 & ->).
  { intros content. apply grows_bind; [apply grows_extract_media | intros; apply grows_print]. }
  rewrite (fetch_bundle_parsed netloc_ok http_get json_loads py_str
             link "koofr_downloads" None w w1 _ _ He Hl).
  destruct (bind_extends
              (fetch_metadata http_get
                 (api_url "c1fab741-0e23-4516-8f30-1bc31814aea0" "path=%2FBreanna%20Ly" None))
              (fun body =>
                 let* bundle_name := bundle_name_of json_loads py_str body in
                 download_zip http_get
                   (dl_url "c1fab741-0e23-4516-8f30-1bc31814aea0" bundle_name
                      "path=%2FBreanna%20Ly" None) link) w1)
    as (l2 & ->).
  { intros body. apply grows_bind; [apply grows_bundle_name_of |].
    intros; apply grows_download_zip. }
  destruct (fetch_metadata_trace http_get
              (api_url "c1fab741-0e23-4516-8f30-1bc31814aea0" "path=%2FBreanna%20Ly" None) w1)
    as (l3 & ->).
  rewrite Htr. exists (l3 ++ l2 ++ l1)%list.
  rewrite <- !app_assoc. reflexivity.
Qed.

End ScriptProperties.

(** ** An output folder that is a regular file *)

Section FolderIsFile.

Import Fs.

Lemma rcut_after_sep (c : ascii) (a b : string) :
  exists h, fst (Str.rcut c (a ++ String c b)) = a ++ String c h.
Proof.
  induction a as [|x a IH].
  - cbn [String.append Str.rcut]. destruct (Str.rcut c b) as [[|y h] t].
    + rewrite eqc_refl. now exists "".
    + now exists (String y h).
  - destruct IH as (h & IH). exists h.
    cbn [String.append Str.rcut].
    destruct (Str.rcut c (a ++ String c b)) as [h0 t]. cbn [fst] in IH. subst h0.
    destruct (a ++ String c h) as [|y s] eqn:E; [now destruct a |].
    reflexivity.
Qed.

Lemma rstrip_app (c : ascii) (a z : string) :
  Str.rstrip c (a ++ z)
  = match Str.rstrip c z with
    | EmptyString => Str.rstrip c a
    | r => a ++ r
    end.
Proof.
  induction a as [|x a IH].
  - cbn [String.append Str.rstrip]. now destruct (Str.rstrip c z).
  - cbn [String.append Str.rstrip]. rewrite IH.
    destruct (Str.rstrip c z) as [|y r]; [reflexivity |].
    destruct (a ++ String y r) as [|y' s] eqn:E; [now destruct a |].
    reflexivity.
Qed.

Lemma rstrip_after_sep (c : ascii) (h : string) :
  Str.rstrip c (String c h) = "" \/ exists r, Str.rstrip c (String c h) = String c r.
Proof.
  cbn [Str.rstrip]. destruct (Str.rstrip c h) as [|y r].
  - rewrite eqc_refl. now left.
  - right. now exists (String y r).
Qed.

(** A path that names a regular file has no trailing slash. *)
Lemma file_path_rstrip (t : tree) (cwd : loc) (p : string) (k : loc) (d : list Byte.byte) :
  resolve t cwd p = Some k -> node_at t k = Some (File d) -> Str.rstrip "/" p = p.
Proof.
  intros Hr Hk. destruct (rstrip_spec p) as (tl & Hp & Htl).
  destruct tl as [|c tl]; [now rewrite append_empty_r in Hp |]. exfalso.
  unfold resolve in Hr. destruct (Str.is_empty p); [discriminate |].
  rewrite Hp, (components_slashes _ _ Htl), walk_app in Hr.
  destruct (walk t _ (components (Str.rstrip "/" p))) as [k0|]; [|discriminate].
  cbn [String.length replicate walk] in Hr.
  destruct (is_dir_at t k0) eqn:Hd; [|discriminate].
  change (step k0 "") with k0 in Hr.
  rewrite (walk_blanks _ _ _ Hd) in Hr. injection Hr as <-.
  unfold is_dir_at in Hd. now rewrite Hk in Hd.
Qed.

(** The directory of a joined path is the first path or lies below it. *)
Lemma dirname_join (a b : string) :
  a <> "" -> Str.rstrip "/" a = a ->
  OsPath.dirname (a ++ String "/" b) = a
  \/ exists y, OsPath.dirname (a ++ String "/" b) = a ++ String "/" y.
Proof.
  intros Ha Hs. unfold OsPath.dirname, OsPath.split.
  destruct (rcut_after_sep "/" a b) as (h & Hh).
  destruct (Str.rcut "/" (a ++ String "/" b)) as [head tail]. cbn [fst] in Hh. subst head.
  rewrite rstrip_app. destruct (rstrip_after_sep "/" h) as [E|(r & E)]; rewrite E.
  - rewrite Hs. destruct a as [|x a]; [congruence |]. now left.
  - destruct (a ++ String "/" r) as [|x s] eqn:E'; [now destruct a |].
    right. now exists r.
Qed.

(** Directories cannot be made through a regular file. *)
Lemma mkdir_walk_through_file (t : tree) (cs extra : list string) (cur k : loc)
    (d : list Byte.byte) :
  walk t cur cs = Some k -> node_at t k = Some (File d) ->
  mkdir_walk t cur (cs ++ extra) = (false, t).
Proof.
  intros Hw Hk. revert cur Hw. induction cs as [|c cs IH]; intros cur Hw.
  - injection Hw as ->. cbn [app].
    assert (Hd : is_dir_at t k = false) by (unfold is_dir_at; now rewrite Hk).
    destruct extra as [|c extra]; cbn [mkdir_walk]; now rewrite Hd.
  - cbn [walk] in Hw. cbn [app mkdir_walk].
    destruct (is_dir_at t cur); [|discriminate].
    destruct (node_at t (step cur c)) as [n|] eqn:Hn; [now apply IH |].
    exfalso. destruct cs as [|c' cs].
    + injection Hw as Hw. subst k. rewrite Hn in Hk. discriminate.
    + cbn [walk] in Hw. unfold is_dir_at in Hw. now rewrite Hn in Hw.
Qed.

Variable zip_infolist : list Byte.byte -> zip_open.

Lemma set_fs_same (w : world) : set_fs (fs w) w = w.
Proof. now destruct w. Qed.

Lemma extract_member_folder_is_file (out : string) (info : ZipInfo) (w : world)
    (k : loc) (d : list Byte.byte) :
  resolve (fs w) (cwd w) out = Some k -> node_at (fs w) k = Some (File d) ->
  extract_member out info w = (Raise OSError, w).
Proof.
  intros Hr Hk.
  pose proof (file_path_rstrip _ _ _ _ _ Hr Hk) as Hs.
  assert (Hne : out <> "").
  { intros ->. discriminate. }
  assert (Hend : Str.endswith out "/" = false).
  { destruct (Str.endswith out "/") eqn:E; [|reflexivity]. exfalso.
    apply endswith_app in E as (h & E).
    pose proof (rstrip_app "/" h "/") as Hx. rewrite <- E, Hs in Hx.
    cbn in Hx. rewrite E in Hx.
    assert (Hl : String.length (h ++ "/") = String.length (Str.rstrip "/" h))
      by (now rewrite Hx).
    destruct (rstrip_spec h) as (tl & Hh & _).
    rewrite Hh in Hl at 1. rewrite !length_append in Hl. cbn in Hl. lia. }
  assert (Hmk : Fs.makedirs true (fs w) (cwd w)
                  (OsPath.dirname (extract_path out (filename info)))
                = (false, fs w)).
  { unfold extract_path, OsPath.join. rewrite lstrip_no_lead, Hend.
    replace (Str.is_empty out) with false by (now destruct out).
    cbn [orb].
    change (out ++ "/" ++ Str.lstrip "/" (filename info))
      with (out ++ String "/" (Str.lstrip "/" (filename info))).
    unfold resolve in Hr.
    replace (Str.is_empty out) with false in Hr by (now destruct out).
    unfold makedirs.
    destruct (dirname_join out (Str.lstrip "/" (filename info)) Hne Hs)
      as [->|(y & ->)].
    - replace (Str.is_empty out) with false by (now destruct out).
      rewrite <- (app_nil_r (components out)).
      eapply mkdir_walk_through_file; eauto.
    - replace (Str.is_empty (out ++ String "/" y)) with false by (now destruct out).
      rewrite start_app, components_slash_app by exact Hne.
      eapply mkdir_walk_through_file; eauto. }
  unfold extract_member. unfold bind at 1. unfold os_makedirs.
  rewrite Hmk. now rewrite set_fs_same.
Qed.

(** X20: when the output path exists as a regular file, the first step
    accepts it and creates nothing, since it only tests that the path
    exists; the extraction of an archive of named members then fails with
    an [OSError] at the first selected member, leaving the world as it
    was. *)
Theorem output_folder_is_a_file (out : string) (exts : list string)
    (content : list Byte.byte) (infos : list ZipInfo) (w : world)
    (k : loc) (d : list Byte.byte) :
  resolve (fs w) (cwd w) out = Some k ->
  node_at (fs w) k = Some (File d) ->
  zip_infolist content = Archive infos ->
  all_named infos = true ->
  List.filter (selected exts) infos <> [] ->
  ensure_output_folder out w = (Ok tt, w)
  /\ extract_media zip_infolist content out exts w = (Raise OSError, w).
Proof.
  intros Hr Hk Hz Hn Hsel. split.
  - rewrite ensure_output_folder_eq. unfold exists_. rewrite Hr, Hk. reflexivity.
  - unfold extract_media, except_BadZipFile. rewrite Hz.
    assert (Hloop : forall total,
               extract_loop out exts infos total w = (Raise OSError, w)).
    { clear Hz. induction infos as [|info rest IH]; [now destruct Hsel |]. intros total.
      rewrite extract_loop_cons.
      cbn [all_named forallb] in Hn. apply andb_true_iff in Hn as [Hi Hn].
      apply negb_true_iff in Hi. rewrite Hi.
      cbn [List.filter] in Hsel. unfold selected in Hsel at 1.
      destruct (is_dir_name info); cbn [negb andb] in Hsel; [now apply IH |].
      destruct (matches exts (filename info)); [|now apply IH].
      unfold bind. now rewrite (extract_member_folder_is_file _ _ _ _ _ Hr Hk). }
    now rewrite Hloop.
Qed.

End FolderIsFile.

(** ** The further properties on the sample environments *)

Lemma run_exceptions_witness :
  SystemExit 1 <> BadZipFile /\ forall code, SystemExit 1 = SystemExit code -> code = 1%Z.
Proof.
  apply (run_exceptions Sample.netloc_ok Sample.server (Sample.json_is Sample.named_bundle)
           Sample.not_an_archive Sample.py_str Sample.share_url "downloads" None None
           Sample.home).
  vm_compute. reflexivity.
Defined.

Lemma extractor_gets_download_body_witness :
  exists link_id query bundle_name status,
    parse_link Sample.netloc_ok Sample.share_url = Ok (link_id, query)
    /\ Sample.server (dl_url link_id bundle_name query None) (Some Sample.share_url)
       = Reply status [x00]
    /\ is_http_error status = false
    /\ requests_of (trace (snd (Cases.fetched Sample.home)))
       = (requests_of (trace Sample.home)
            ++ [(api_url link_id query None, None, 30%Z);
                (dl_url link_id bundle_name query None, Some Sample.share_url, 60%Z)])%list
    /\ writes_of (trace (snd (Cases.fetched Sample.home))) = writes_of (trace Sample.home).
Proof.
  apply (extractor_gets_download_body Sample.netloc_ok Sample.server
           (Sample.json_is Sample.named_bundle) Sample.py_str
           Sample.share_url "downloads" None [x00] Sample.home
           (snd (Cases.fetched Sample.home))).
  vm_compute. reflexivity.
Defined.

Lemma metadata_http_error_aborts_witness :
  fst (Cases.run_against (Cases.status_server 404) Sample.home) = Raise (SystemExit 1)
  /\ messages_of (trace (snd (Cases.run_against (Cases.status_server 404) Sample.home)))
     = [MsgFetching
          "https://app.koofr.net/api/v2/public/links/c1fab741-0e23-4516-8f30-1bc31814aea0/bundle?path=%2FBreanna%20Ly&password=";
        MsgHttpError 404; MsgLinkGone]
  /\ requests_of (trace (snd (Cases.run_against (Cases.status_server 404) Sample.home)))
     = [("https://app.koofr.net/api/v2/public/links/c1fab741-0e23-4516-8f30-1bc31814aea0/bundle?path=%2FBreanna%20Ly&password=",
         None, 30%Z)]
  /\ fs (snd (Cases.run_against (Cases.status_server 404) Sample.home))
     = fs Sample.home_with_downloads.
Proof.
  apply (metadata_http_error_aborts Sample.netloc_ok (Cases.status_server 404)
           (Sample.json_is Sample.named_bundle) (Sample.archive_is Sample.media_archive)
           Sample.py_str Sample.share_url "downloads" None None
           "c1fab741-0e23-4516-8f30-1bc31814aea0" "path=%2FBreanna%20Ly" 404 []
           Sample.home Sample.home_with_downloads); vm_compute; reflexivity.
Defined.

Lemma metadata_unreachable_aborts_witness :
  Cases.run_against Cases.dead_server Sample.home
  = (Raise (SystemExit 1),
     log (Printed MsgMetadataFailed)
       (log (Requested
               "https://app.koofr.net/api/v2/public/links/c1fab741-0e23-4516-8f30-1bc31814aea0/bundle?path=%2FBreanna%20Ly&password="
               None 30)
          (log (Printed (MsgFetching
                  "https://app.koofr.net/api/v2/public/links/c1fab741-0e23-4516-8f30-1bc31814aea0/bundle?path=%2FBreanna%20Ly&password="))
             Sample.home_with_downloads)))
  /\ requests_of (trace (snd (Cases.run_against Cases.dead_server Sample.home)))
     = [("https://app.koofr.net/api/v2/public/links/c1fab741-0e23-4516-8f30-1bc31814aea0/bundle?path=%2FBreanna%20Ly&password=",
         None, 30%Z)].
Proof.
  apply (metadata_unreachable_aborts Sample.netloc_ok Cases.dead_server
           (Sample.json_is Sample.named_bundle) (Sample.archive_is Sample.media_archive)
           Sample.py_str Sample.share_url "downloads" None None
           "c1fab741-0e23-4516-8f30-1bc31814aea0" "path=%2FBreanna%20Ly"
           Sample.home Sample.home_with_downloads); vm_compute; reflexivity.
Defined.

Lemma download_failure_aborts_witness :
  fst (Cases.run_against Cases.no_download_server Sample.home) = Raise (SystemExit 1)
  /\ messages_of (trace (snd (Cases.run_against Cases.no_download_server Sample.home)))
     = [MsgFetching
          "https://app.koofr.net/api/v2/public/links/c1fab741-0e23-4516-8f30-1bc31814aea0/bundle?path=%2FBreanna%20Ly&password=";
        MsgFoundBundle "Breanna Ly"; MsgDownloading; MsgDownloadFailed]
  /\ requests_of (trace (snd (Cases.run_against Cases.no_download_server Sample.home)))
     = [("https://app.koofr.net/api/v2/public/links/c1fab741-0e23-4516-8f30-1bc31814aea0/bundle?path=%2FBreanna%20Ly&password=",
         None, 30%Z);
        ("https://app.koofr.net/content/links/c1fab741-0e23-4516-8f30-1bc31814aea0/files/get/Breanna%20Ly.zip?path=%2FBreanna%20Ly&password=&pf=1&force",
         Some Sample.share_url, 60%Z)]
  /\ writes_of (trace (snd (Cases.run_against Cases.no_download_server Sample.home))) = []
  /\ fs (snd (Cases.run_against Cases.no_download_server Sample.home))
     = fs Sample.home_with_downloads.
Proof.
  apply (download_failure_aborts Sample.netloc_ok Cases.no_download_server
           (Sample.json_is Sample.named_bundle) (Sample.archive_is Sample.media_archive)
           Sample.py_str Sample.share_url "downloads" None None
           "c1fab741-0e23-4516-8f30-1bc31814aea0" "path=%2FBreanna%20Ly" "Breanna Ly"
           200 [x00]
           [("file", Json.JObj [("name", Json.JStr "Breanna Ly")])]
           [("name", Json.JStr "Breanna Ly")]
           Sample.home Sample.home_with_downloads); vm_compute; reflexivity.
Defined.

Lemma done_reports_writes_witness :
  exists l n,
    trace (snd (sample_run Sample.named_bundle (Sample.archive_is Sample.media_archive)
                  Sample.share_url Sample.home))
    = (trace Sample.home ++ l)%list
    /\ last l = Some (Printed (MsgDone n "downloads"))
    /\ length (writes_of l) = n
    /\ length (requests_of l) = 2%nat.
Proof.
  apply (done_reports_writes Sample.netloc_ok Sample.server
           (Sample.json_is Sample.named_bundle) (Sample.archive_is Sample.media_archive)
           Sample.py_str Sample.share_url "downloads" None None Sample.home).
  vm_compute. reflexivity.
Defined.

Lemma nothing_selected_changes_nothing_witness :
  extract_media (Sample.archive_is Cases.text_archive) [x00] "downloads"
    default_media_extensions Sample.home
  = (Ok 0%nat, Sample.home).
Proof.
  apply (nothing_selected_changes_nothing (Sample.archive_is Cases.text_archive)
           "downloads" default_media_extensions [x00] Cases.text_archive Sample.home);
    reflexivity.
Defined.


Lemma empty_member_name_raises_witness :
  extract_media (Sample.archive_is Cases.nameless_archive) [x00] "downloads"
    default_media_extensions Sample.home_with_downloads
  = (Raise IndexError,
     snd (extract_loop "downloads" default_media_extensions
            [ {| filename := "a.jpg"; member := Stored [x01] |} ] 0
            Sample.home_with_downloads))
  /\ writes_of
       (trace (snd (extract_loop "downloads" default_media_extensions
                      [ {| filename := "a.jpg"; member := Stored [x01] |} ] 0
                      Sample.home_with_downloads)))
     = (writes_of (trace Sample.home_with_downloads)
          ++ expected_writes "downloads" default_media_extensions
               [ {| filename := "a.jpg"; member := Stored [x01] |} ])%list.
Proof.
  apply (empty_member_name_raises (Sample.archive_is Cases.nameless_archive)
           "downloads" default_media_extensions [x00]
           [ {| filename := "a.jpg"; member := Stored [x01] |} ]
           [ {| filename := "c.jpg"; member := Stored [x03] |} ]
           {| filename := ""; member := Stored [x02] |} 1
           Sample.home_with_downloads);
    [reflexivity | reflexivity | vm_compute; reflexivity].
Defined.

Lemma empty_suffix_list_is_kept_witness :
  download_and_extract_media_from_koofr
    Sample.netloc_ok Sample.server (Sample.json_is Sample.named_bundle)
    (Sample.archive_is Sample.media_archive) Sample.py_str
    Sample.share_url "downloads" (Some []) None Sample.home
  = (Ok tt, log (Printed (MsgDone 0 "downloads")) (snd (Cases.fetched Sample.home))).
Proof.
  apply (empty_suffix_list_is_kept Sample.netloc_ok Sample.server
           (Sample.json_is Sample.named_bundle) (Sample.archive_is Sample.media_archive)
           Sample.py_str Sample.share_url "downloads" None [x00] Sample.media_archive
           Sample.home (snd (Cases.fetched Sample.home)));
    vm_compute; reflexivity.
Defined.

Lemma script_reports_bad_link_witness :
  exit_status (outcome (Cases.sample_script Sample.other_url Sample.home)) = 0%Z
  /\ (said_last (Cases.sample_script Sample.other_url Sample.home)
      = [SaidUnexpected InvalidLinkFormat]
      \/ said_last (Cases.sample_script Sample.other_url Sample.home)
         = [SaidUnexpected OSError])
  /\ requests_of (trace (final (Cases.sample_script Sample.other_url Sample.home)))
     = requests_of (trace Sample.home).
Proof.
  apply (script_reports_bad_link Sample.netloc_ok Sample.server
           (Sample.json_is Sample.named_bundle) (Sample.archive_is Sample.media_archive)
           Sample.py_str Sample.other_url Sample.other_url_parsed Sample.home);
    vm_compute; reflexivity.
Defined.

Lemma main_first_request_witness :
  said_first (main Sample.netloc_ok Sample.server (Sample.json_is Sample.named_bundle)
                (Sample.archive_is Sample.media_archive) Sample.py_str Sample.home)
  = [SaidBanner]
  /\ exists later,
       trace (final (main Sample.netloc_ok Sample.server
                       (Sample.json_is Sample.named_bundle)
                       (Sample.archive_is Sample.media_archive) Sample.py_str Sample.home))
       = (trace Sample.home
            ++ Printed (MsgFetching
                 "https://app.koofr.net/api/v2/public/links/c1fab741-0e23-4516-8f30-1bc31814aea0/bundle?path=%2FBreanna%20Ly&password=")
            :: Requested
                 "https://app.koofr.net/api/v2/public/links/c1fab741-0e23-4516-8f30-1bc31814aea0/bundle?path=%2FBreanna%20Ly&password="
                 None 30
            :: later)%list.
Proof.
  apply (main_first_request Sample.netloc_ok Sample.server
           (Sample.json_is Sample.named_bundle) (Sample.archive_is Sample.media_archive)
           Sample.py_str Sample.home
           (snd (ensure_output_folder "koofr_downloads" Sample.home)));
    vm_compute; reflexivity.
Defined.

Lemma output_folder_is_a_file_witness :
  ensure_output_folder "downloads" Cases.home_with_file = (Ok tt, Cases.home_with_file)
  /\ extract_media (Sample.archive_is Sample.media_archive) [x00] "downloads"
       default_media_extensions Cases.home_with_file
     = (Raise OSError, Cases.home_with_file).
Proof.
  apply (output_folder_is_a_file (Sample.archive_is Sample.media_archive)
           "downloads" default_media_extensions [x00] Sample.media_archive
           Cases.home_with_file ["downloads"; "user"; "home"] []);
    [vm_compute; reflexivity | vm_compute; reflexivity | reflexivity | reflexivity
    | vm_compute; discriminate].
Defined.

(** ** Metadata that cannot be read, and where writes can come from *)

Section MoreRunProperties.

Variable netloc_ok : string -> bool.
Variable http_get : string -> option string -> http_reply.
Variable json_loads : list Byte.byte -> option Json.value.
Variable zip_infolist : list Byte.byte -> zip_open.
Variable py_str : Json.value -> string.

Let run := download_and_extract_media_from_koofr
             netloc_ok http_get json_loads zip_infolist py_str.

(** X21: when the metadata reply is no HTTP error but its body is not
    JSON, or is not an object, or has a member [file] that is not an
    object, the function does not exit: it lets the decoding error or the
    attribute error out, right after the metadata request and without
    printing anything more. *)
Theorem unreadable_metadata_raises (url out : string) (exts : option (list string))
    (pw : option string) (link_id query : string) (status : Z)
    (body : list Byte.byte) (e : exn) (w w1 : world) :
  ensure_output_folder out w = (Ok tt, w1) ->
  parse_link netloc_ok url = Ok (link_id, query) ->
  http_get (api_url link_id query pw) None = Reply status body ->
  is_http_error status = false ->
  metadata_error (json_loads body) = Some e ->
  let u := api_url link_id query pw in
  run url out exts pw w
  = (Raise e, log (Requested u None 30) (log (Printed (MsgFetching u)) w1))
  /\ (e = JSONDecodeError \/ e = AttributeError).
Proof.
  intros He Hl Hh Hs Hm u. subst u. split.
  - unfold run, download_and_extract_media_from_koofr.
    unfold bind at 1.
    rewrite (fetch_bundle_parsed netloc_ok http_get json_loads py_str
               url out pw w w1 link_id query He Hl).
    unfold fetch_metadata.
    cbv beta delta [bind print requests_get ret] iota. rewrite Hh, Hs.
    unfold bundle_name_of. unfold metadata_error in Hm.
    destruct (json_loads body) as [[| | | | |members]|];
      try (injection Hm as <-; reflexivity).
    destruct (Json.dict_get "file" members) as [[| | | | |fm]|];
      try discriminate; injection Hm as <-; reflexivity.
  - unfold metadata_error in Hm.
    destruct (json_loads body) as [[| | | | |members]|];
      try (injection Hm as <-; auto).
    destruct (Json.dict_get "file" members) as [[| | | | |fm]|];
      try discriminate; injection Hm as <-; auto.
Qed.

(** X22: a run writes files only after a successful download: whenever
    the trace of a run shows a write that was not there before, the steps
    before the extraction had all succeeded and handed over the body of
    the download reply. *)
Theorem writes_need_download (url out : string) (exts : option (list string))
    (pw : option string) (w : world) :
  writes_of (trace (snd (run url out exts pw w))) <> writes_of (trace w) ->
  exists content w2,
    fetch_bundle netloc_ok http_get json_loads py_str url out pw w = (Ok content, w2)
    /\ writes_of (trace w2) = writes_of (trace w).
Proof.
  intros H.
  destruct (quiet_fetch_bundle netloc_ok http_get json_loads py_str url out pw w)
    as [Hq _].
  unfold run, download_and_extract_media_from_koofr in H. unfold bind at 1 in H.
  destruct (fetch_bundle netloc_ok http_get json_loads py_str url out pw w)
    as [[content|e] w2]; cbn [snd] in *.
  - now exists content, w2.
  - now destruct H.
Qed.

Lemma extract_path_starts (out name : string) :
  Str.startswith (extract_path out name) out = true.
Proof.
  unfold extract_path, OsPath.join. rewrite lstrip_no_lead.
  destruct (Str.is_empty out || Str.endswith out "/"); apply startswith_self_app.
Qed.

(** X23: on a POSIX system, where [os.path.join] is [posixpath.join],
    every path the extraction opens for writing begins, as a string, with
    the output folder: whatever the archive holds, no other path is
    passed to [open]. *)
Theorem write_paths_start_with_output_folder (content : list Byte.byte) (out : string)
    (exts : list string) (w : world) :
  exists l,
    writes_of (trace (snd (extract_media zip_infolist content out exts w)))
    = (writes_of (trace w) ++ l)%list
    /\ Forall (fun pd => Str.startswith (fst pd) out = true) l.
Proof.
  assert (Hexp : forall infos,
             Forall (fun pd => Str.startswith (fst pd) out = true)
               (expected_writes out exts infos)).
  { intros infos. unfold expected_writes. apply Forall_map, Forall_forall.
    intros info _. apply extract_path_starts. }
  unfold extract_media, except_BadZipFile.
  destruct (zip_infolist content) as [infos| | |].
  - destruct (loop_writes_prefix out exts infos 0 w) as (l & [l' Hl] & Hw).
    assert (Hfl : Forall (fun pd => Str.startswith (fst pd) out = true) l).
    { specialize (Hexp infos). rewrite Hl in Hexp. now apply Forall_app in Hexp. }
    exists l. split; [|exact Hfl].
    destruct (extract_loop out exts infos 0 w) as [[n|e] w1]; cbn [snd] in *;
      [exact Hw |].
    destruct e; try exact Hw.
    cbn. rewrite writes_of_app, Hw. simpl. now rewrite app_nil_r.
  - exists []. split; [|constructor].
    cbn. rewrite writes_of_app. reflexivity.
  - exists []. split; [|constructor]. cbn. now rewrite app_nil_r.
  - exists []. split; [|constructor]. cbn. now rewrite app_nil_r.
Qed.

End MoreRunProperties.

Lemma unreadable_metadata_raises_witness :
  download_and_extract_media_from_koofr
    Sample.netloc_ok Sample.server Cases.not_json
    (Sample.archive_is Sample.media_archive) Sample.py_str
    Sample.share_url "downloads" None None Sample.home
  = (Raise JSONDecodeError,
     log (Requested
            "https://app.koofr.net/api/v2/public/links/c1fab741-0e23-4516-8f30-1bc31814aea0/bundle?path=%2FBreanna%20Ly&password="
            None 30)
       (log (Printed (MsgFetching
               "https://app.koofr.net/api/v2/public/links/c1fab741-0e23-4516-8f30-1bc31814aea0/bundle?path=%2FBreanna%20Ly&password="))
          Sample.home_with_downloads))
  /\ (JSONDecodeError = JSONDecodeError \/ JSONDecodeError = AttributeError).
Proof.
  apply (unreadable_metadata_raises Sample.netloc_ok Sample.server Cases.not_json
           (Sample.archive_is Sample.media_archive) Sample.py_str
           Sample.share_url "downloads" None None
           "c1fab741-0e23-4516-8f30-1bc31814aea0" "path=%2FBreanna%20Ly" 200 [x00]
           JSONDecodeError Sample.home Sample.home_with_downloads);
    vm_compute; reflexivity.
Defined.

Lemma writes_need_download_witness :
  exists content w2,
    Cases.fetched Sample.home = (Ok content, w2)
    /\ writes_of (trace w2) = writes_of (trace Sample.home).
Proof.
  apply (writes_need_download Sample.netloc_ok Sample.server
           (Sample.json_is Sample.named_bundle) (Sample.archive_is Sample.media_archive)
           Sample.py_str Sample.share_url "downloads" None None Sample.home).
  vm_compute. discriminate.
Defined.
